(** * WiFi-Auto-Auth: network detection and profile resolution

    A shallow embedding of [network_utils.py] (classes [NetworkDetector] and
    [NetworkProfileManager]) and the properties of its SSID detection and
    profile resolution.

    Conventions of the embedding:
    - a Python [str] is a [string], one [ascii] per code point (code points
      below 256);
    - a value read by [json.load] is a [json]; a [dict] is an association list
      in insertion order, since iteration order is observable here;
    - a Python call that may raise returns a [result]: [Ok v] or [Raise e],
      with [e] one of the [Exception] subclasses these functions meet;
    - the operating system is a [world]: the platform name, the outcome of
      each [subprocess.run] and the file system seen by [load_config]. *)

From Stdlib Require Import String Ascii List Bool Arith ZArith Lia.
Import ListNotations.
Open Scope string_scope.
Open Scope list_scope.
Set Warnings "-register-all".

(** ** Python primitives *)

Module Py.

(** The exception classes raised or caught in [network_utils.py]; all of
    them derive from [Exception]. *)
Inductive exn : Type :=
| FileNotFoundError (msg : string)
| OSError
| JSONDecodeError
| UnicodeDecodeError
| CalledProcessError
| KeyError (key : string)
| ValueError (msg : string)
| IndexError
| TypeError
| AttributeError.

Inductive result (A : Type) : Type :=
| Ok (v : A)
| Raise (e : exn).
Arguments Ok {A} v.
Arguments Raise {A} e.

Definition bind {A B : Type} (r : result A) (k : A -> result B) : result B :=
  match r with
  | Ok v => k v
  | Raise e => Raise e
  end.

(** [try: body / except Exception: handler]. *)
Definition try_except {A : Type} (body : result A) (handler : exn -> result A)
  : result A :=
  match body with
  | Ok v => Ok v
  | Raise e => handler e
  end.

(** *** str *)

Definition newline : ascii := ascii_of_nat 10.
Definition dquote : ascii := ascii_of_nat 34.
Definition chr (c : ascii) : string := String c EmptyString.

(** Truth value of a [str]: empty is false. *)
Definition str_truthy (s : string) : bool :=
  match s with
  | EmptyString => false
  | String _ _ => true
  end.

(** Truth value of an [Optional[str]]: [None] and the empty string are false. *)
Definition opt_truthy (o : option string) : bool :=
  match o with
  | None => false
  | Some s => str_truthy s
  end.

(** [s.startswith(p)]. *)
Fixpoint startswith (s p : string) : bool :=
  match p, s with
  | EmptyString, _ => true
  | String _ _, EmptyString => false
  | String a p', String b s' => Ascii.eqb a b && startswith s' p'
  end.

(** [sub in s] for two strings. *)
Fixpoint str_in (sub s : string) : bool :=
  startswith s sub
  || match s with
     | EmptyString => false
     | String _ t => str_in sub t
     end.

(** [str.isspace] of one character, for code points below 256; it is also
    the class [\s] of [re] on [str] patterns. *)
Definition isspace (c : ascii) : bool :=
  let n := nat_of_ascii c in
  (((9 <=? n) && (n <=? 13)) || ((28 <=? n) && (n <=? 32))
   || (n =? 133) || (n =? 160))%nat.

Fixpoint lstrip (s : string) : string :=
  match s with
  | EmptyString => EmptyString
  | String c t => if isspace c then lstrip t else s
  end.

Fixpoint rstrip (s : string) : string :=
  match s with
  | EmptyString => EmptyString
  | String c t =>
      match rstrip t with
      | EmptyString => if isspace c then EmptyString else chr c
      | r => String c r
      end
  end.

(** [s.strip()]. *)
Definition strip (s : string) : string := rstrip (lstrip s).

(** [str.lower] of one character, for code points below 256: A-Z and the
    Latin-1 capitals U+00C0..U+00DE (U+00D7 is the multiplication sign). *)
Definition lower_char (c : ascii) : ascii :=
  let n := nat_of_ascii c in
  if (((65 <=? n) && (n <=? 90))
      || ((192 <=? n) && (n <=? 222) && negb (n =? 215)))%nat
  then ascii_of_nat (n + 32) else c.

Fixpoint lower (s : string) : string :=
  match s with
  | EmptyString => EmptyString
  | String c t => String (lower_char c) (lower t)
  end.

(** [s.split(sep)] for a non-empty [sep] (every call site passes a
    literal): occurrences of [sep] are found left to right without
    overlap.  [skip] counts the characters of an occurrence still to be
    passed over, [piece] is the part collected since the last one. *)
Fixpoint split_from (sep : string) (skip : nat) (piece s : string)
  : list string :=
  match s with
  | EmptyString => [piece]
  | String c t =>
      match skip with
      | S k => split_from sep k piece t
      | O =>
          if startswith s sep
          then piece :: split_from sep (String.length sep - 1) EmptyString t
          else split_from sep 0 (piece ++ chr c) t
      end
  end.

Definition split (s sep : string) : list string :=
  split_from sep 0 EmptyString s.

(** [xs[-1]] of a list that [split] returned (never empty). *)
Definition last_piece (xs : list string) : string := last xs EmptyString.

(** [s.split(sep, 1)] for a one-character [sep]: at most one cut, at the
    first occurrence. *)
Fixpoint split_once_from (sep : ascii) (piece s : string) : list string :=
  match s with
  | EmptyString => [piece]
  | String c t =>
      if Ascii.eqb c sep then [piece; t]
      else split_once_from sep (piece ++ chr c) t
  end.

Definition split_once (s : string) (sep : ascii) : list string :=
  split_once_from sep EmptyString s.

(** *** Values of [json.load] *)

Inductive json : Type :=
| JNull
| JBool (b : bool)
| JInt (n : Z)
| JFloat (literal : string)   (* carried as its text: nothing here computes with it *)
| JStr (s : string)
| JArr (xs : list json)
| JObj (items : list (string * json)).

(** A [dict] with [str] keys, in insertion order. *)
Definition dict : Type := list (string * json).

Fixpoint dict_lookup (d : dict) (k : string) : option json :=
  match d with
  | [] => None
  | (k', v) :: d' => if String.eqb k k' then Some v else dict_lookup d' k
  end.

Definition dict_mem (d : dict) (k : string) : bool :=
  match dict_lookup d k with
  | Some _ => true
  | None => false
  end.

Definition dict_keys (d : dict) : list string := map fst d.

(** [d[k] = v]: replaces the value of an existing key in place, appends a
    new key at the end. *)
Fixpoint dict_set (d : dict) (k : string) (v : json) : dict :=
  match d with
  | [] => [(k, v)]
  | (k', v') :: d' =>
      if String.eqb k k' then (k', v) :: d' else (k', v') :: dict_set d' k v
  end.

(** [v == s] for a JSON value and a [str]: only an equal [str] is equal. *)
Definition json_eq_str (v : json) (s : string) : bool :=
  match v with
  | JStr s' => String.eqb s' s
  | _ => false
  end.

(** [k in o] for a [str] [k]: key membership on a dict, element membership
    on a list, substring on a str; the other values are not containers. *)
Definition py_in_str (k : string) (o : json) : result bool :=
  match o with
  | JObj d => Ok (dict_mem d k)
  | JArr xs => Ok (existsb (fun x => json_eq_str x k) xs)
  | JStr s => Ok (str_in k s)
  | _ => Raise TypeError
  end.

(** [o[k]] for a [str] [k]. *)
Definition py_getitem (o : json) (k : string) : result json :=
  match o with
  | JObj d =>
      match dict_lookup d k with
      | Some v => Ok v
      | None => Raise (KeyError k)
      end
  | _ => Raise TypeError
  end.

(** [o.get(k, default)]: a dict method. *)
Definition py_get (o : json) (k : string) (default : json) : result json :=
  match o with
  | JObj d =>
      match dict_lookup d k with
      | Some v => Ok v
      | None => Ok default
      end
  | _ => Raise AttributeError
  end.

(** [o.items()] and [list(o.keys())]: dict methods. *)
Definition py_items (o : json) : result dict :=
  match o with
  | JObj d => Ok d
  | _ => Raise AttributeError
  end.

Definition py_keys (o : json) : result (list string) :=
  match o with
  | JObj d => Ok (dict_keys d)
  | _ => Raise AttributeError
  end.

(** [xs[0]] and [xs[1]]. *)
Definition py_first {A : Type} (xs : list A) : result A :=
  match xs with
  | x :: _ => Ok x
  | [] => Raise IndexError
  end.

Definition py_second {A : Type} (xs : list A) : result A :=
  match xs with
  | _ :: x :: _ => Ok x
  | _ => Raise IndexError
  end.

(** [o.strip()] where [o] is a [str] or [None]. *)
Definition py_strip (o : option string) : result string :=
  match o with
  | Some s => Ok (strip s)
  | None => Raise AttributeError
  end.

(** [x in d] for a dict [d] and any JSON value [x]: the key is hashed
    first, which a list or a dict refuses; a value that is not a [str]
    equals no key. *)
Definition py_in_dict (x : json) (d : dict) : result bool :=
  match x with
  | JStr k => Ok (dict_mem d k)
  | JArr _ | JObj _ => Raise TypeError
  | _ => Ok false
  end.

End Py.

Export Py.

Declare Scope py_scope.
Delimit Scope py_scope with py.
Notation "x <- c ;; k" := (bind c (fun x => k))
  (at level 61, c at next level, right associativity) : py_scope.
Open Scope py_scope.

(** ** The regular expressions of the detector

    [re.search] for the two patterns of the module: literals, a greedy
    starred or plussed character class, and one capture group.  Matching
    backtracks as [re] does: a star first takes all it can and gives
    characters back one at a time. *)

Module Re.

Inductive cls : Type :=
| Dot                 (* .     : any character but a newline *)
| Space               (* \s    *)
| Not (c : ascii).    (* [^c]  *)

Definition in_cls (k : cls) (c : ascii) : bool :=
  match k with
  | Dot => negb (Ascii.eqb c newline)
  | Space => isspace c
  | Not x => negb (Ascii.eqb c x)
  end.

Inductive item : Type :=
| Lit (c : ascii)
| Star (k : cls)
| Plus (k : cls)
| GroupOpen
| GroupClose.

(** Group 1 during a match: not entered yet, being read, or read. *)
Inductive capture : Type :=
| Unset
| Opened (acc : string)
| Closed (g : string).

Definition push (cap : capture) (c : ascii) : capture :=
  match cap with
  | Opened acc => Opened (acc ++ chr c)
  | _ => cap
  end.

Definition close (cap : capture) : capture :=
  match cap with
  | Opened acc => Closed acc
  | _ => cap
  end.

Fixpoint lits (s : string) : list item :=
  match s with
  | EmptyString => []
  | String c t => Lit c :: lits t
  end.

(** Greedy repetition of a class, then [rest]. *)
Fixpoint star (k : cls) (rest : string -> capture -> option capture)
         (s : string) (cap : capture) : option capture :=
  match s with
  | EmptyString => rest s cap
  | String c t =>
      if in_cls k c then
        match star k rest t (push cap c) with
        | Some m => Some m
        | None => rest s cap
        end
      else rest s cap
  end.

(** The pattern matched at the start of [s]. *)
Fixpoint match_here (p : list item) : string -> capture -> option capture :=
  match p with
  | [] => fun _ cap => Some cap
  | Lit c :: r =>
      fun s cap =>
        match s with
        | EmptyString => None
        | String c' t =>
            if Ascii.eqb c c' then match_here r t (push cap c') else None
        end
  | Star k :: r => star k (match_here r)
  | Plus k :: r =>
      fun s cap =>
        match s with
        | EmptyString => None
        | String c t =>
            if in_cls k c then star k (match_here r) t (push cap c) else None
        end
  | GroupOpen :: r => fun s _ => match_here r s (Opened EmptyString)
  | GroupClose :: r => fun s cap => match_here r s (close cap)
  end.

(** [re.search(p, s)]: the leftmost position where the pattern matches. *)
Fixpoint search (p : list item) (s : string) : option capture :=
  match match_here p s Unset with
  | Some m => Some m
  | None =>
      match s with
      | EmptyString => None
      | String _ t => search p t
      end
  end.

(** [m.group(1)]: [None] for a group that took no part in the match. *)
Definition group1 (m : capture) : option string :=
  match m with
  | Closed g => Some g
  | _ => None
  end.

(** [r'SSID\s*:\s*(.+)'] *)
Definition ssid_field : list item :=
  lits "SSID" ++ [Star Space; Lit ":"%char; Star Space;
                  GroupOpen; Plus Dot; GroupClose].

(** The pattern of [_linux_iwconfig]: ESSID: and a double quote, then
    group 1, any run of characters other than a double quote, then a
    double quote. *)
Definition essid_quoted : list item :=
  lits "ESSID:" ++ [Lit dquote; GroupOpen; Star (Not dquote); GroupClose;
                    Lit dquote].

End Re.

(** ** The operating system *)

Record world : Type := {
  (** [platform.system()] *)
  platform_system : string;
  (** [subprocess.run(cmd, capture_output=True, text=True, check=True)]:
      the captured [stdout], or the exception raised (a missing binary, a
      non-zero exit status, output that does not decode, ...). *)
  subprocess_run : list string -> result string;
  (** [os.path.exists(path)] *)
  os_path_exists : string -> bool;
  (** [with open(path, "r") as f: json.load(f)] *)
  open_json_load : string -> result json
}.

(** ** class NetworkDetector *)

Module NetworkDetector.

Record t : Type := { platform : string }.

Definition __init__ (w : world) : t :=
  {| platform := lower (platform_system w) |}.

(** The loop of [_get_ssid_windows] over the lines of
    [netsh wlan show interfaces]. *)
Fixpoint windows_scan (lines : list string) : result (option string) :=
  match lines with
  | [] => Ok None
  | line :: rest =>
      if str_in "SSID" line && negb (str_in "BSSID" line) then
        match Re.search Re.ssid_field (strip line) with
        | Some m =>
            ssid <- py_strip (Re.group1 m);;
            Ok (Some ssid)
        | None => windows_scan rest
        end
      else windows_scan rest
  end.

Definition _get_ssid_windows (w : world) : result (option string) :=
  try_except
    (_ <- subprocess_run w ["netsh"; "wlan"; "show"; "profiles"];;
     interfaces_stdout <- subprocess_run w ["netsh"; "wlan"; "show"; "interfaces"];;
     windows_scan (split interfaces_stdout (chr newline)))
    (fun _ => Ok None).

Definition airport_path : string :=
  "/System/Library/PrivateFrameworks/Apple80211.framework/Versions/Current/Resources/airport".

(** The loop of [_get_ssid_macos] over the lines of [airport -I]. *)
Fixpoint airport_scan (lines : list string) : option string :=
  match lines with
  | [] => None
  | line :: rest =>
      if str_in "SSID:" line
      then Some (strip (last_piece (split line "SSID:")))
      else airport_scan rest
  end.

Definition macos_airport (w : world) : result (option string) :=
  airport_stdout <- subprocess_run w [airport_path; "-I"];;
  Ok (airport_scan (split airport_stdout (chr newline))).

Definition _get_ssid_macos (w : world) : result (option string) :=
  try_except
    (stdout <- subprocess_run w ["networksetup"; "-getairportnetwork"; "en0"];;
     if str_in "Current Wi-Fi Network:" stdout then
       let ssid := strip (last_piece (split stdout "Current Wi-Fi Network:")) in
       if str_truthy ssid
          && negb (String.eqb ssid "You are not associated with an AirPort network.")
       then Ok (Some ssid)
       else macos_airport w
     else macos_airport w)
    (fun _ => Ok None).

Definition _linux_iwgetid (w : world) : result (option string) :=
  stdout <- subprocess_run w ["iwgetid"; "-r"];;
  let ssid := strip stdout in
  Ok (if str_truthy ssid then Some ssid else None).

(** The loop of [_linux_nmcli]. *)
Fixpoint nmcli_scan (lines : list string) : result (option string) :=
  match lines with
  | [] => Ok None
  | line :: rest =>
      if startswith line "yes:" then
        ssid <- py_second (split_once line ":"%char);;
        Ok (if str_truthy ssid then Some ssid else None)
      else nmcli_scan rest
  end.

Definition _linux_nmcli (w : world) : result (option string) :=
  stdout <- subprocess_run w ["nmcli"; "-t"; "-f"; "active,ssid"; "dev"; "wifi"];;
  nmcli_scan (split stdout (chr newline)).

(** The loop of [_linux_iwconfig]. *)
Fixpoint iwconfig_scan (lines : list string) : option string :=
  match lines with
  | [] => None
  | line :: rest =>
      if str_in "ESSID:" line then
        match Re.search Re.essid_quoted line with
        | Some m => Re.group1 m
        | None => iwconfig_scan rest
        end
      else iwconfig_scan rest
  end.

Definition _linux_iwconfig (w : world) : result (option string) :=
  stdout <- subprocess_run w ["iwconfig"];;
  Ok (iwconfig_scan (split stdout (chr newline))).

Definition linux_methods : list (world -> result (option string)) :=
  [_linux_iwgetid; _linux_nmcli; _linux_iwconfig].

(** The loop of [_get_ssid_linux]: a method that raises, or that returns
    [None] or an empty string, is passed over. *)
Fixpoint linux_loop (w : world) (methods : list (world -> result (option string)))
  : option string :=
  match methods with
  | [] => None
  | method :: rest =>
      match method w with
      | Ok ssid => if opt_truthy ssid then ssid else linux_loop w rest
      | Raise _ => linux_loop w rest
      end
  end.

Definition _get_ssid_linux (w : world) : result (option string) :=
  Ok (linux_loop w linux_methods).

Definition get_current_ssid (self : t) (w : world) : result (option string) :=
  try_except
    (if String.eqb (platform self) "windows" then _get_ssid_windows w
     else if String.eqb (platform self) "darwin" then _get_ssid_macos w
     else if String.eqb (platform self) "linux" then _get_ssid_linux w
     else Ok None)
    (fun _ => Ok None).

End NetworkDetector.

(** ** class NetworkProfileManager *)

Module NetworkProfileManager.

Record t : Type := {
  config_path : string;
  detector : NetworkDetector.t
}.

Definition __init__ (w : world) (path : string) : t :=
  {| config_path := path; detector := NetworkDetector.__init__ w |}.

Definition load_config (self : t) (w : world) : result json :=
  if negb (os_path_exists w (config_path self)) then
    Raise (FileNotFoundError
             ("Missing " ++ config_path self
              ++ ". Please copy config.example.json to " ++ config_path self
              ++ " and configure your networks."))
  else open_json_load w (config_path self).

Definition get_available_networks (self : t) (w : world) : result (list string) :=
  try_except
    (config <- load_config self w;;
     multi <- py_in_str "networks" config;;
     if multi then
       networks <- py_getitem config "networks";;
       py_keys networks
     else Ok ["default"])
    (fun _ => Ok []).

(** The profile synthesised from a legacy configuration. *)
Definition legacy_profile (config : json) : result json :=
  ssid <- py_get config "ssid" (JStr "Unknown");;
  wifi_url <- py_getitem config "wifi_url";;
  username <- py_getitem config "username";;
  password <- py_getitem config "password";;
  product_type <- py_get config "product_type" (JStr "0");;
  Ok (JObj [("ssid", ssid); ("wifi_url", wifi_url); ("username", username);
            ("password", password); ("product_type", product_type);
            ("description", JStr "Legacy configuration")]).

(** The loop over [networks.items()] looking for the detected SSID. *)
Fixpoint find_by_ssid (items : dict) (current_ssid : string)
  : result (option (string * json)) :=
  match items with
  | [] => Ok None
  | (profile_name, profile_config) :: rest =>
      ssid <- py_get profile_config "ssid" JNull;;
      if json_eq_str ssid current_ssid
      then Ok (Some (profile_name, profile_config))
      else find_by_ssid rest current_ssid
  end.

(** The auto-detection step: the matching profile, if the detector names
    a network and a profile has its SSID. *)
Definition auto_detected (self : t) (w : world) (networks : json)
  : result (option (string * json)) :=
  current_ssid <- NetworkDetector.get_current_ssid (detector self) w;;
  match current_ssid with
  | Some s =>
      if str_truthy s then
        items <- py_items networks;;
        find_by_ssid items s
      else Ok None
  | None => Ok None
  end.

(** The fall-back to the default network, then to the first one.  The
    default of [config.get] is evaluated before the call, so the first key
    is read in every case.  Once [networks.keys()] has returned, [networks]
    is a dict: [d] names it for the test [default_network in networks],
    which hashes [default_network]; only a [str] can be among the keys. *)
Definition fall_back (config networks : json) : result (string * json) :=
  keys <- py_keys networks;;
  first_key <- py_first keys;;
  default_network <- py_get config "default_network" (JStr first_key);;
  d <- py_items networks;;
  known <- py_in_dict default_network d;;
  match default_network, known with
  | JStr name, true =>
      profile <- py_getitem networks name;;
      Ok (name, profile)
  | _, _ =>
      keys' <- py_keys networks;;
      first_network <- py_first keys';;
      profile <- py_getitem networks first_network;;
      Ok (first_network, profile)
  end.

Definition get_network_profile (self : t) (w : world)
           (network_name : option string) (auto_detect : bool)
  : result (string * json) :=
  config <- load_config self w;;
  multi <- py_in_str "networks" config;;
  if negb multi then
    legacy_config <- legacy_profile config;;
    Ok ("legacy", legacy_config)
  else
    networks <- py_getitem config "networks";;
    match network_name with
    | Some (String _ _ as name) =>
        known <- py_in_str name networks;;
        if known then
          profile <- py_getitem networks name;;
          Ok (name, profile)
        else
          Raise (ValueError ("Network profile '" ++ name
                             ++ "' not found in configuration"))
    | _ =>
        found <- (if auto_detect then auto_detected self w networks
                  else Ok None);;
        match found with
        | Some hit => Ok hit
        | None => fall_back config networks
        end
    end.

Definition list_networks (self : t) (w : world) : result json :=
  try_except
    (config <- load_config self w;;
     multi <- py_in_str "networks" config;;
     if negb multi then
       ssid <- py_get config "ssid" (JStr "Unknown");;
       wifi_url <- py_getitem config "wifi_url";;
       Ok (JObj [("legacy",
                  JObj [("ssid", ssid); ("wifi_url", wifi_url);
                        ("description", JStr "Legacy configuration")])])
     else py_getitem config "networks")
    (fun _ => Ok (JObj [])).

End NetworkProfileManager.

(** ** Module-level functions *)

Definition get_current_ssid (w : world) : result (option string) :=
  NetworkDetector.get_current_ssid (NetworkDetector.__init__ w) w.

Definition get_network_profile (w : world) (network_name : option string)
           (auto_detect : bool) : result (string * json) :=
  NetworkProfileManager.get_network_profile
    (NetworkProfileManager.__init__ w "config.json") w network_name auto_detect.

Definition list_available_networks (w : world) : result (list string) :=
  NetworkProfileManager.get_available_networks
    (NetworkProfileManager.__init__ w "config.json") w.

(** ** wifi_auto_login.py *)

(** [re.search] for the pattern of [extract_message]: literals, one
    reluctant starred class and one capture group.  A reluctant star first
    tries the rest of the pattern and takes one more character only when
    that fails. *)

Module ReLazy.

Inductive item : Type :=
| Lit (c : ascii)
| LazyStar (k : Re.cls)
| GroupOpen
| GroupClose.

Fixpoint lits (s : string) : list item :=
  match s with
  | EmptyString => []
  | String c t => Lit c :: lits t
  end.

Fixpoint lazy_star (k : Re.cls) (rest : string -> Re.capture -> option Re.capture)
         (s : string) (cap : Re.capture) : option Re.capture :=
  match rest s cap with
  | Some m => Some m
  | None =>
      match s with
      | EmptyString => None
      | String c t =>
          if Re.in_cls k c then lazy_star k rest t (Re.push cap c) else None
      end
  end.

Fixpoint match_here (p : list item) : string -> Re.capture -> option Re.capture :=
  match p with
  | [] => fun _ cap => Some cap
  | Lit c :: r =>
      fun s cap =>
        match s with
        | EmptyString => None
        | String c' t =>
            if Ascii.eqb c c' then match_here r t (Re.push cap c') else None
        end
  | LazyStar k :: r => lazy_star k (match_here r)
  | GroupOpen :: r => fun s _ => match_here r s (Re.Opened EmptyString)
  | GroupClose :: r => fun s cap => match_here r s (Re.close cap)
  end.

Fixpoint search (p : list item) (s : string) : option Re.capture :=
  match match_here p s Re.Unset with
  | Some m => Some m
  | None =>
      match s with
      | EmptyString => None
      | String _ t => search p t
      end
  end.

End ReLazy.

(** *** sqlite3, as the two programs use it

    The database holds at most the table [login_attempts], an ordinary
    table: the list of its columns in the order of their declaration,
    empty when there is no table.  The statements below are those the
    programs execute, with the [OperationalError]s SQLite answers them
    with; that the file can be opened and written is taken for granted. *)

Module Sqlite.

Record column : Type := {
  column_name : string;
  generated : bool   (* a generated column: [PRAGMA table_info] leaves it out *)
}.

Definition table : Type := list column.

(** A column as [CREATE TABLE] and [ADD COLUMN] declare it here. *)
Definition plain (name : string) : column :=
  {| column_name := name; generated := false |}.

(** The number of columns a table may have (the default of the library). *)
Definition SQLITE_MAX_COLUMN : nat := 2000.

(** SQLite compares the names of columns without regard to the case of
    the letters A to Z. *)
Definition fold_char (c : ascii) : ascii :=
  let n := nat_of_ascii c in
  if ((65 <=? n) && (n <=? 90))%nat then ascii_of_nat (n + 32) else c.

Fixpoint fold (s : string) : string :=
  match s with
  | EmptyString => EmptyString
  | String c rest => String (fold_char c) (fold rest)
  end.

Definition same_name (a b : string) : bool := String.eqb (fold a) (fold b).

(** Whether the table has a column of that name, for SQLite. *)
Definition names_column (t : table) (name : string) : bool :=
  existsb (fun c => same_name (column_name c) name) t.

(** [PRAGMA table_info(login_attempts)], field 1 of each row. *)
Definition table_info (t : table) : list string :=
  map column_name (filter (fun c => negb (generated c)) t).

Inductive executed : Type :=
| Executed (t : table)
| OperationalError (message : string).

(** [CREATE TABLE login_attempts (...)] with these columns. *)
Definition create_table (t : table) (names : list string) : executed :=
  match t with
  | [] => Executed (map plain names)
  | _ :: _ => OperationalError "table login_attempts already exists"
  end.

(** [ALTER TABLE login_attempts ADD COLUMN name TEXT] *)
Definition add_column (t : table) (name : string) : executed :=
  match t with
  | [] => OperationalError "no such table: login_attempts"
  | _ :: _ =>
      if (SQLITE_MAX_COLUMN <=? List.length t)%nat then
        OperationalError "too many columns on sqlite_altertab_login_attempts"
      else if names_column t name then
        OperationalError ("duplicate column name: " ++ name)
      else Executed (t ++ [plain name])
  end.

(** What a function that works on the database does: it returns, or an
    [OperationalError] passes through it; either way the table is left as
    the statements executed so far have made it, since a statement that
    changes the schema is committed when it is executed. *)
Inductive outcome (A : Type) : Type :=
| Returns (v : A) (t : table)
| Raises (message : string) (t : table).
Arguments Returns {A} v t.
Arguments Raises {A} message t.

End Sqlite.

Module WifiAutoLogin.

Definition CONFIG_PATH : string := "config.json".

Definition load_config (w : world) : result json :=
  if negb (os_path_exists w CONFIG_PATH) then
    Raise (FileNotFoundError
             "Missing config.json. Please copy config.example.json to config.json and fill in your details.")
  else open_json_load w CONFIG_PATH.

(** The opening and the closing of the message element of the portal's
    answer. *)
Definition message_open : string := "<message><![CDATA[".
Definition message_close : string := "]]></message>".

(** The pattern of [extract_message]: the opening, group 1 with a reluctant
    run of characters other than a line break, the closing. *)
Definition message_pattern : list ReLazy.item :=
  (ReLazy.lits message_open
   ++ [ReLazy.GroupOpen; ReLazy.LazyStar Re.Dot; ReLazy.GroupClose]
   ++ ReLazy.lits message_close)%list.

(** [extract_message]: [None] stands for Python's [None]. *)
Definition extract_message (response_text : string) : option string :=
  match ReLazy.search message_pattern response_text with
  | Some m => Re.group1 m
  | None => Some "Unknown response"
  end.

(** The values [log_attempt] binds to its INSERT statement, in the order
    of the columns. *)
Record login_row : Type := {
  row_timestamp : string;
  row_network_name : json;
  row_network_ssid : json;
  row_username : json;
  row_password : json;
  row_a : json;
  row_response_status : json;
  row_response_message : json
}.

Definition log_attempt (now : string)
           (username password a response_status response_message : json)
           (network_name network_ssid : json) : login_row :=
  {| row_timestamp := now;
     row_network_name := network_name;
     row_network_ssid := network_ssid;
     row_username := username;
     row_password := JStr "******";
     row_a := a;
     row_response_status := response_status;
     row_response_message := response_message |}.

(** What the first [try] block of [wifi_login] sets. *)
Record login_settings : Type := {
  URL : json;
  USERNAME : json;
  PASSWORD : json;
  PRODUCT_TYPE : json;
  network_profile_name : string;
  network_ssid : json
}.

Definition login_settings_of (w : world) (MULTI_NETWORK_SUPPORT : bool)
           (network_name : option string) : result login_settings :=
  if MULTI_NETWORK_SUPPORT then
    resolved <- NetworkProfileManager.get_network_profile
                  (NetworkProfileManager.__init__ w "config.json") w
                  network_name true;;
    let network_config := snd resolved in
    ssid <- py_get network_config "ssid" (JStr "Unknown");;
    url <- py_getitem network_config "wifi_url";;
    username <- py_getitem network_config "username";;
    password <- py_getitem network_config "password";;
    product_type <- py_get network_config "product_type" (JStr "0");;
    Ok {| URL := url; USERNAME := username; PASSWORD := password;
          PRODUCT_TYPE := product_type;
          network_profile_name := fst resolved; network_ssid := ssid |}
  else
    config <- load_config w;;
    url <- py_getitem config "wifi_url";;
    username <- py_getitem config "username";;
    password <- py_getitem config "password";;
    product_type <- py_get config "product_type" (JStr "0");;
    ssid <- py_get config "ssid" (JStr "Unknown");;
    Ok {| URL := url; USERNAME := username; PASSWORD := password;
          PRODUCT_TYPE := product_type;
          network_profile_name := "legacy"; network_ssid := ssid |}.

(** The answer of [requests.post]: a response, or a [RequestException]
    with its text. *)
Inductive http_answer : Type :=
| Response (status_code : Z) (text : string)
| RequestException (message : string).

(** What [wifi_login] does: nothing beyond a printed message when the
    configuration fails, otherwise one POST and one logged row. *)
Inductive login_outcome : Type :=
| ConfigurationFailed (e : exn)
| Attempted (url : json) (payload : dict) (row : login_row).

(** [wifi_login]; [a_value] and [now] are read from the clock, [post] is
    the portal. *)
Definition wifi_login (w : world) (MULTI_NETWORK_SUPPORT : bool)
           (a_value now : string) (post : json -> dict -> http_answer)
           (network_name : option string) : login_outcome :=
  match login_settings_of w MULTI_NETWORK_SUPPORT network_name with
  | Raise e => ConfigurationFailed e
  | Ok settings =>
      let payload :=
        [("mode", JStr "191");
         ("username", USERNAME settings);
         ("password", PASSWORD settings);
         ("a", JStr a_value);
         ("producttype", PRODUCT_TYPE settings)] in
      match post (URL settings) payload with
      | Response status_code text =>
          let response_message :=
            match extract_message text with
            | Some message => JStr message
            | None => JNull
            end in
          Attempted (URL settings) payload
            (log_attempt now (USERNAME settings) (PASSWORD settings)
               (JStr a_value) (JInt status_code) response_message
               (JStr (network_profile_name settings)) (network_ssid settings))
      | RequestException message =>
          Attempted (URL settings) payload
            (log_attempt now (USERNAME settings) (PASSWORD settings)
               (JStr a_value) (JStr "FAILED") (JStr message)
               (JStr (network_profile_name settings)) (network_ssid settings))
      end
  end.

(** *** The setup wizard

    The answers typed at the prompts are a list, one per [input()]; when
    the list runs out [input()] raises [EOFError] and the wizard ends
    without saving.  [title] stands for [str.title], which only supplies
    the default description of a profile. *)

Inductive wizard_outcome : Type :=
| Saved (config : json) (unread : list string)   (* [save_config(config)] is called *)
| EndOfInput.

Definition dashboard_block : json :=
  JObj [("host", JStr "127.0.0.1"); ("port", JInt 8000);
        ("username", JStr "admin"); ("password", JStr "admin123")].

(** [x or default] for a [str]. *)
Definition str_or (x default : string) : string :=
  if str_truthy x then x else default.

Definition setup_single_network (answers : list string) : wizard_outcome :=
  match answers with
  | url :: username :: password :: product_type :: unread =>
      Saved (JObj [("wifi_url", JStr url);
                   ("username", JStr username);
                   ("password", JStr password);
                   ("product_type", JStr (str_or product_type "0"));
                   ("dashboard", dashboard_block)])
            unread
  | _ => EndOfInput
  end.

Section Wizard.

Variable title : string -> string.

(** The [while True] loop of [setup_multi_network]: the mapping and the
    default network when it is left, with the answers still unread. *)
Fixpoint profile_loop (answers : list string) (networks : dict)
         (default_network : option string)
  : option (dict * option string * list string) :=
  match answers with
  | [] => None
  | a_name :: after_name =>
      let profile_name := strip a_name in
      if negb (str_truthy profile_name) then
        Some (networks, default_network, after_name)
      else
        match after_name with
        | a_ssid :: a_url :: a_username :: a_password :: a_product_type
          :: a_description :: a_more :: unread =>
            let profile :=
              JObj [("ssid", JStr (strip a_ssid));
                    ("wifi_url", JStr (strip a_url));
                    ("username", JStr (strip a_username));
                    ("password", JStr (strip a_password));
                    ("product_type", JStr (str_or (strip a_product_type) "0"));
                    ("description",
                     JStr (str_or (strip a_description)
                                  (title profile_name ++ " network")))] in
            let networks' := dict_set networks profile_name profile in
            let default_network' :=
              if opt_truthy default_network then default_network
              else Some profile_name in
            let add_more := lower (strip a_more) in
            if String.eqb add_more "y" || String.eqb add_more "yes"
            then profile_loop unread networks' default_network'
            else Some (networks', default_network', unread)
        | _ => None
        end
  end.

Definition json_of_name (name : option string) : json :=
  match name with
  | Some s => JStr s
  | None => JNull
  end.

Definition multi_config (default_network : option string) (networks : dict)
  : json :=
  JObj [("default_network", json_of_name default_network);
        ("networks", JObj networks);
        ("dashboard", dashboard_block)].

Definition setup_multi_network (answers : list string) : wizard_outcome :=
  match profile_loop answers [] None with
  | None => EndOfInput
  | Some (networks, default_network, unread) =>
      match networks with
      | [] => setup_single_network unread
      | [_] => Saved (multi_config default_network networks) unread
      | _ =>
          match unread with
          | [] => EndOfInput
          | a_choice :: unread' =>
              let default_choice := strip a_choice in
              Saved (multi_config
                       (if dict_mem networks default_choice
                        then Some default_choice else default_network)
                       networks)
                    unread'
          end
      end
  end.

Definition run_setup_wizard (answers : list string) : wizard_outcome :=
  match answers with
  | [] => EndOfInput
  | a_choice :: unread =>
      if String.eqb (strip a_choice) "2" then setup_multi_network unread
      else setup_single_network unread
  end.

End Wizard.

(** *** The table of login attempts *)

Definition new_table : list string :=
  ["id"; "timestamp"; "network_name"; "network_ssid"; "username"; "password";
   "a"; "response_status"; "response_message"].

(** [name in columns] *)
Definition has_column (columns : list string) (name : string) : bool :=
  existsb (String.eqb name) columns.

(** [setup_database], on the table the database holds when it is called. *)
Definition setup_database (t : Sqlite.table) : Sqlite.outcome unit :=
  let columns := Sqlite.table_info t in
  match columns with
  | [] =>
      match Sqlite.create_table t new_table with
      | Sqlite.OperationalError message => Sqlite.Raises message t
      | Sqlite.Executed created => Sqlite.Returns tt created
      end
  | _ :: _ =>
      match (if negb (has_column columns "network_name")
             then Sqlite.add_column t "network_name"
             else Sqlite.Executed t) with
      | Sqlite.OperationalError message => Sqlite.Raises message t
      | Sqlite.Executed with_name =>
          match (if negb (has_column columns "network_ssid")
                 then Sqlite.add_column with_name "network_ssid"
                 else Sqlite.Executed with_name) with
          | Sqlite.OperationalError message => Sqlite.Raises message with_name
          | Sqlite.Executed with_ssid => Sqlite.Returns tt with_ssid
          end
      end
  end.

(** The columns the INSERT of [log_attempt] names. *)
Definition inserted_columns : list string :=
  ["timestamp"; "network_name"; "network_ssid"; "username"; "password"; "a";
   "response_status"; "response_message"].

End WifiAutoLogin.

(** ** dashboard.py *)

Module Dashboard.

Definition CONFIG_PATH : string := "config.json".

(** The default dashboard configuration; [secret_key] is a fresh
    [secrets.token_urlsafe(32)]. *)
Definition default_config (secret_key : string) : json :=
  JObj [("host", JStr "127.0.0.1"); ("port", JInt 8000);
        ("username", JStr "admin"); ("password", JStr "admin123");
        ("secret_key", JStr secret_key)].

(** [load_dashboard_config]: of what reading the file raises, only
    [JSONDecodeError] and [KeyError] are caught. *)
Definition load_dashboard_config (w : world) (secret_key : string) : result json :=
  if negb (os_path_exists w CONFIG_PATH) then Ok (default_config secret_key)
  else
    match (config <- open_json_load w CONFIG_PATH;;
           py_get config "dashboard" (default_config secret_key)) with
    | Raise JSONDecodeError | Raise (KeyError _) => Ok (default_config secret_key)
    | outcome => outcome
    end.

Definition is_ascii (s : string) : bool :=
  forallb (fun c => (nat_of_ascii c <? 128)%nat) (list_ascii_of_string s).

(** [secrets.compare_digest(a, b)] for a [str] [a]: [b] must be a [str]
    too, and both must be ASCII. *)
Definition compare_digest (a : string) (b : json) : result bool :=
  match b with
  | JStr s => if is_ascii a && is_ascii s then Ok (String.eqb a s)
              else Raise TypeError
  | _ => Raise TypeError
  end.

(** What a request handler does: return, answer with an HTTP error, or
    let an exception through. *)
Inductive handled (A : Type) : Type :=
| Return (v : A)
| HTTPException (status_code : Z) (detail : string)
| Uncaught (e : exn).
Arguments Return {A} v.
Arguments HTTPException {A} status_code detail.
Arguments Uncaught {A} e.

(** [authenticate], with [DASHBOARD_CONFIG] as an argument. *)
Definition authenticate (DASHBOARD_CONFIG : json) (username password : string)
  : handled string :=
  match (expected_username <- py_getitem DASHBOARD_CONFIG "username";;
         correct_username <- compare_digest username expected_username;;
         expected_password <- py_getitem DASHBOARD_CONFIG "password";;
         correct_password <- compare_digest password expected_password;;
         Ok (correct_username && correct_password)) with
  | Raise e => Uncaught e
  | Ok false => HTTPException 401 "Invalid credentials"
  | Ok true => Return username
  end.

Record FilterParams : Type := {
  start_date : option string;
  end_date : option string;
  status_filter : option string;
  filter_network : option string;   (* the field [network_filter] *)
  limit : Z
}.

(** A value bound to a placeholder of a query. *)
Inductive sql_param : Type :=
| PText (s : string)
| PInt (n : Z).

Definition select_with_networks : string :=
  String newline
    ("            SELECT id, timestamp, network_name, network_ssid, username, a, response_status, response_message "
     ++ String newline
    ("            FROM login_attempts "
     ++ String newline
    ("            WHERE 1=1"
     ++ String newline "        "))).

Definition select_legacy : string :=
  String newline
    ("            SELECT id, timestamp, username, a, response_status, response_message "
     ++ String newline
    ("            FROM login_attempts "
     ++ String newline
    ("            WHERE 1=1"
     ++ String newline "        "))).

(** The query of [get_login_attempts] and the parameters bound to it. *)
Definition attempts_query (filters : FilterParams) (network_filter : option string)
           (has_network_columns : bool) : string * list sql_param :=
  let query := if has_network_columns then select_with_networks
               else select_legacy in
  let params : list sql_param := [] in
  let '(query, params) :=
    match start_date filters with
    | Some (String _ _ as d) =>
        ((query ++ " AND timestamp >= ?")%string, params ++ [PText d])
    | _ => (query, params)
    end in
  let '(query, params) :=
    match end_date filters with
    | Some (String _ _ as d) =>
        ((query ++ " AND timestamp <= ?")%string, params ++ [PText d])
    | _ => (query, params)
    end in
  let query :=
    match status_filter filters with
    | Some (String _ _ as st) =>
        if String.eqb st "success"
        then (query ++ " AND response_status = '200'")%string
        else if String.eqb st "failed"
             then (query ++ " AND response_status != '200'")%string
             else query
    | _ => query
    end in
  let '(query, params) :=
    match network_filter with
    | Some (String _ _ as n) =>
        if has_network_columns
        then ((query ++ " AND network_name = ?")%string, params ++ [PText n])
        else (query, params)
    | _ => (query, params)
    end in
  ((query ++ " ORDER BY timestamp DESC LIMIT ?")%string,
   params ++ [PInt (limit filters)]).

(** [get_db_connection], on the table the database holds when it is
    called; the connection it returns is not modelled. *)
Definition get_db_connection (t : Sqlite.table) : Sqlite.outcome unit :=
  let columns := Sqlite.table_info t in
  match columns with
  | [] =>
      match Sqlite.create_table t WifiAutoLogin.new_table with
      | Sqlite.OperationalError message => Sqlite.Raises message t
      | Sqlite.Executed created => Sqlite.Returns tt created
      end
  | _ :: _ =>
      match (if negb (WifiAutoLogin.has_column columns "network_name")
             then Sqlite.add_column t "network_name"
             else Sqlite.Executed t) with
      | Sqlite.OperationalError message => Sqlite.Raises message t
      | Sqlite.Executed with_name =>
          match (if negb (WifiAutoLogin.has_column columns "network_ssid")
                 then Sqlite.add_column with_name "network_ssid"
                 else Sqlite.Executed with_name) with
          | Sqlite.OperationalError message => Sqlite.Raises message with_name
          | Sqlite.Executed with_ssid => Sqlite.Returns tt with_ssid
          end
      end
  end.

(** ['network_name' in columns and 'network_ssid' in columns] *)
Definition has_network_columns (columns : list string) : bool :=
  WifiAutoLogin.has_column columns "network_name"
  && WifiAutoLogin.has_column columns "network_ssid".

(** The query [get_login_attempts] runs on a database whose table is [t]
    when the call begins: the connection is opened first, then the columns
    are read again.  An error of [get_db_connection] passes through. *)
Definition get_login_attempts_query (t : Sqlite.table)
           (filters : FilterParams) (network_filter : option string)
  : Sqlite.outcome (string * list sql_param) :=
  match get_db_connection t with
  | Sqlite.Raises message failed => Sqlite.Raises message failed
  | Sqlite.Returns _ opened =>
      let columns := Sqlite.table_info opened in
      Sqlite.Returns
        (attempts_query filters network_filter (has_network_columns columns))
        opened
  end.

End Dashboard.

(** ** Vocabulary of the specification *)

(** The specification's error kind [ConfigurationError]: a missing
    configuration file, an explicit profile name that is not configured, a
    legacy configuration without one of its required fields.  In the code
    these are a [FileNotFoundError], a [ValueError] and a [KeyError]. *)
Definition ConfigurationError (e : exn) : bool :=
  match e with
  | FileNotFoundError _ | ValueError _ | KeyError _ => true
  | _ => false
  end.

(** The fields a legacy configuration must carry. *)
Definition required_fields : list string := ["wifi_url"; "username"; "password"].

Definition dict_get_or (d : dict) (k : string) (default : json) : json :=
  match dict_lookup d k with
  | Some v => v
  | None => default
  end.

Definition is_record (v : json) : bool :=
  match v with
  | JObj _ => true
  | _ => false
  end.

(** A value that can be a dict key: anything but a list or a dict. *)
Definition hashable (v : json) : bool :=
  match v with
  | JArr _ | JObj _ => false
  | _ => true
  end.

(** The profile's [ssid] field is the string [s]. *)
Definition has_ssid (s : string) (profile : json) : bool :=
  match profile with
  | JObj p => json_eq_str (dict_get_or p "ssid" JNull) s
  | _ => false
  end.

(** The multi-profile shape of the configuration file: a [networks]
    mapping that is not empty and whose values are profile records. *)
Definition multi_profile (config : json) (networks : dict) : Prop :=
  exists cfg,
    config = JObj cfg
    /\ dict_lookup cfg "networks" = Some (JObj networks)
    /\ networks <> []
    /\ forallb (fun kv => is_record (snd kv)) networks = true.

(** The [default_network] entry of a configuration, if any. *)
Definition default_network_of (config : json) : option json :=
  match config with
  | JObj cfg => dict_lookup cfg "default_network"
  | _ => None
  end.

(** The first profile, in iteration order, whose SSID is the detected one;
    an empty detection result counts as none. *)
Definition ssid_match (detected : option string) (networks : dict)
  : option (string * json) :=
  match detected with
  | Some s =>
      if str_truthy s then find (fun kv => has_ssid s (snd kv)) networks
      else None
  | None => None
  end.

(** What a detection mechanism yields: its SSID when it returns a non-empty
    one, nothing when it raises or returns [None] or an empty string. *)
Definition yields (r : result (option string)) : option string :=
  match r with
  | Ok (Some s) => if str_truthy s then Some s else None
  | _ => None
  end.

(** [s] between double quotes. *)
Definition quoted (s : string) : string := chr dquote ++ s ++ chr dquote.

(** The opening of a quoted ESSID field in the output of [iwconfig]. *)
Definition essid_open : string := "ESSID:" ++ chr dquote.

Definition first_of (a b c : option string) : option string :=
  match a, b with
  | Some s, _ => Some s
  | None, Some s => Some s
  | None, None => c
  end.

(** ** Sample configurations and hosts *)

Module Sample.

Definition profile (ssid url : string) : json :=
  JObj [("ssid", JStr ssid); ("wifi_url", JStr url);
        ("username", JStr "alice"); ("password", JStr "secret")].

Definition home_work : dict :=
  [("home", profile "Home-5G" "http://10.0.0.1/login");
   ("work", profile "CorpNet" "http://portal.corp/login")].

Definition multi (default : option string) : json :=
  JObj (match default with
        | Some d => [("default_network", JStr d)]
        | None => []
        end ++ [("networks", JObj home_work)]).

Definition empty_networks : json :=
  JObj [("default_network", JStr "work"); ("networks", JObj [])].

Definition legacy_fields : dict :=
  [("wifi_url", JStr "http://192.168.1.1/login");
   ("username", JStr "alice"); ("password", JStr "secret")].

Definition legacy_without_url : dict :=
  [("username", JStr "alice"); ("password", JStr "secret")].

Definition missing_binary : result string :=
  Raise (FileNotFoundError "No such file or directory").

(** A host where only the listed commands exist. *)
Fixpoint tools (installed : list (string * result string)) (cmd : list string)
  : result string :=
  match installed with
  | [] => missing_binary
  | (name, outcome) :: more =>
      if String.eqb (String.concat " " cmd) name then outcome
      else tools more cmd
  end.

Definition host (system : string) (installed : list (string * result string))
           (config : option json) : world :=
  {| platform_system := system;
     subprocess_run := tools installed;
     os_path_exists := fun _ => match config with Some _ => true | None => false end;
     open_json_load := fun _ =>
                         match config with
                         | Some c => Ok c
                         | None => Raise (FileNotFoundError "config.json")
                         end |}.

(** A Linux host whose [iwgetid -r] prints [ssid]. *)
Definition linux_on (ssid : string) (config : json) : world :=
  host "Linux" [("iwgetid -r", Ok (ssid ++ chr newline)%string)] (Some config).

(** A Linux host without a wireless connection. *)
Definition linux_offline (config : json) : world :=
  host "Linux" [("iwgetid -r", Raise CalledProcessError)] (Some config).

Definition manager (w : world) : NetworkProfileManager.t :=
  NetworkProfileManager.__init__ w "config.json".

(** Two wireless interfaces, both associated. *)
Definition iwconfig_two_interfaces : string :=
  "wlan0     IEEE 802.11  ESSID:" ++ quoted "Other" ++ chr newline
  ++ "          Mode:Managed  Frequency:2.437 GHz" ++ chr newline
  ++ "wlan1     IEEE 802.11  ESSID:" ++ quoted "MyNetwork" ++ chr newline.

Definition iwconfig_unassociated : string :=
  "lo        no wireless extensions." ++ chr newline
  ++ "wlan0     IEEE 802.11  ESSID:off/any" ++ chr newline
  ++ "          Mode:Managed  Access Point: Not-Associated" ++ chr newline.

(** A Linux host with only [iwconfig], printing [stdout]. *)
Definition iwconfig_host (stdout : string) : world :=
  host "Linux" [("iwconfig", Ok stdout)] None.

(** A Linux host with [nmcli] only, and one with all three tools where
    [iwgetid] fails and [nmcli] lists no active network. *)
Definition nmcli_host : world :=
  host "Linux"
    [("nmcli -t -f active,ssid dev wifi",
      Ok ("no:Neighbour" ++ chr newline ++ "yes:CafeWifi" ++ chr newline)%string)]
    None.

Definition last_resort_host : world :=
  host "Linux"
    [("iwgetid -r", Raise CalledProcessError);
     ("nmcli -t -f active,ssid dev wifi", Ok ("no:Neighbour" ++ chr newline)%string);
     ("iwconfig", Ok ("wlan0     IEEE 802.11  ESSID:" ++ quoted "MyNetwork"
                      ++ chr newline)%string)]
    None.

End Sample.

(** ** Vocabulary of the further properties *)

(** [s] without its last character. *)
Fixpoint str_init (s : string) : string :=
  match s with
  | EmptyString => EmptyString
  | String c EmptyString => EmptyString
  | String c t => String c (str_init t)
  end.

(** [s] without its first character. *)
Definition str_tail (s : string) : string :=
  match s with
  | EmptyString => EmptyString
  | String _ t => t
  end.

(** In [pre ++ sub], [sub] occurs first at the end of [pre]: no occurrence
    starts earlier. *)
Definition first_occurrence_after (pre sub : string) : Prop :=
  str_in sub (pre ++ str_init sub) = false.

(** The marker of [networksetup -getairportnetwork] and its answer
    without a network. *)
Definition airport_network_marker : string := "Current Wi-Fi Network:".
Definition not_associated : string :=
  "You are not associated with an AirPort network.".

(** The number of occurrences of a character. *)
Fixpoint count_char (c : ascii) (s : string) : nat :=
  match s with
  | EmptyString => 0
  | String x t => (if Ascii.eqb x c then 1 else 0) + count_char c t
  end.

(** A profile that carries the three fields a login needs. *)
Definition is_complete_profile (v : json) : bool :=
  match v with
  | JObj p => dict_mem p "wifi_url" && dict_mem p "username" && dict_mem p "password"
  | _ => false
  end.

(** What the loop of [setup_multi_network] keeps: distinct names, profiles
    with the fields a login needs, and a default network that is set, not
    empty and among the names as soon as there is a profile. *)
Definition loop_invariant (networks : dict) (default_network : option string)
  : Prop :=
  NoDup (dict_keys networks)
  /\ forallb (fun kv => is_complete_profile (snd kv)) networks = true
  /\ match default_network with
     | Some d => str_truthy d = true /\ dict_mem networks d = true
     | None => networks = []
     end.



(** Which filters of a request are set, and which status is asked for:
    all that the text of the query depends on. *)
Definition filter_shape (filters : Dashboard.FilterParams)
           (network_filter : option string)
  : bool * bool * option bool * bool :=
  (opt_truthy (Dashboard.start_date filters),
   opt_truthy (Dashboard.end_date filters),
   match Dashboard.status_filter filters with
   | Some st =>
       if String.eqb st "success" then Some true
       else if String.eqb st "failed" then Some false
       else None
   | None => None
   end,
   opt_truthy network_filter).

(** The program does not find a column [name] in what [PRAGMA table_info]
    lists, and SQLite has one: in another letter case, or generated. *)
Definition unseen_column (t : Sqlite.table) (name : string) : bool :=
  negb (WifiAutoLogin.has_column (Sqlite.table_info t) name)
  && Sqlite.names_column t name.

(** The table of the single-network layout: the columns of [new_table]
    but the two of the network, which are what the migration adds and what
    the second query of [get_login_attempts] does without. *)
Definition single_network_table : Sqlite.table :=
  map Sqlite.plain
      ["id"; "timestamp"; "username"; "password"; "a"; "response_status";
       "response_message"].

(** A host whose [config.json] holds [config]. *)
Definition holds_config (w : world) (config : json) : Prop :=
  os_path_exists w "config.json" = true
  /\ open_json_load w "config.json" = Ok config.

(** * Properties *)

(** ** Dictionaries *)

Lemma dict_lookup_set (d : dict) (k k' : string) (v : json) :
  dict_lookup (dict_set d k v) k'
  = if String.eqb k' k then Some v else dict_lookup d k'.
Proof.
  induction d as [|[k0 v0] d IH]; simpl.
  - destruct (String.eqb k' k); reflexivity.
  - destruct (String.eqb k k0) eqn:E; simpl.
    + apply String.eqb_eq in E; subst k0.
      destruct (String.eqb k' k); reflexivity.
    + rewrite IH.
      destruct (String.eqb k' k0) eqn:E0; [|reflexivity].
      apply String.eqb_eq in E0; subst k0.
      rewrite String.eqb_sym, E. reflexivity.
Qed.

Lemma dict_lookup_head (k : string) (v : json) (d : dict) :
  dict_lookup ((k, v) :: d) k = Some v.
Proof. simpl. rewrite String.eqb_refl. reflexivity. Qed.

Lemma dict_mem_true (d : dict) (k : string) :
  dict_mem d k = true <-> exists v, dict_lookup d k = Some v.
Proof.
  unfold dict_mem. destruct (dict_lookup d k) as [v|].
  - split; [eauto | reflexivity].
  - split; [discriminate | intros [v H]; discriminate].
Qed.

Lemma dict_lookup_in (d : dict) (k : string) (v : json) :
  dict_lookup d k = Some v -> In (k, v) d.
Proof.
  induction d as [|[k0 v0] d IH]; simpl; [discriminate|].
  destruct (String.eqb k k0) eqn:E.
  - apply String.eqb_eq in E. intros [= ->]. left. congruence.
  - auto.
Qed.

(** ** Legacy configurations *)

Section Legacy.

Import NetworkProfileManager.

Variables (self : NetworkProfileManager.t) (w : world) (cfg : dict).
Hypothesis loaded : load_config self w = Ok (JObj cfg).
Hypothesis no_networks : dict_lookup cfg "networks" = None.

Lemma legacy_branch (network_name : option string) (auto_detect : bool) :
  get_network_profile self w network_name auto_detect
  = (legacy_config <- legacy_profile (JObj cfg);; Ok ("legacy", legacy_config)).
Proof.
  unfold get_network_profile. rewrite loaded. cbn [bind py_in_str].
  unfold dict_mem. rewrite no_networks. reflexivity.
Qed.

Lemma legacy_profile_complete (url user pw : json) :
  dict_lookup cfg "wifi_url" = Some url ->
  dict_lookup cfg "username" = Some user ->
  dict_lookup cfg "password" = Some pw ->
  legacy_profile (JObj cfg)
  = Ok (JObj [("ssid", dict_get_or cfg "ssid" (JStr "Unknown"));
              ("wifi_url", url); ("username", user); ("password", pw);
              ("product_type", dict_get_or cfg "product_type" (JStr "0"));
              ("description", JStr "Legacy configuration")]).
Proof.
  intros Hu Hn Hp. unfold legacy_profile, py_get, py_getitem, dict_get_or.
  rewrite Hu, Hn, Hp.
  destruct (dict_lookup cfg "ssid"), (dict_lookup cfg "product_type");
    reflexivity.
Qed.

Lemma legacy_profile_incomplete (k : string) :
  In k required_fields ->
  dict_lookup cfg k = None ->
  exists k', In k' required_fields /\ legacy_profile (JObj cfg) = Raise (KeyError k').
Proof.
  intros Hk Hnone. unfold legacy_profile, py_get, py_getitem.
  destruct (dict_lookup cfg "ssid");
    (cbn [bind];
     destruct (dict_lookup cfg "wifi_url") eqn:Hu;
     [|exists "wifi_url"; split; [simpl; auto | reflexivity]];
     cbn [bind];
     destruct (dict_lookup cfg "username") eqn:Hn;
     [|exists "username"; split; [simpl; auto | reflexivity]];
     cbn [bind];
     destruct (dict_lookup cfg "password") eqn:Hp;
     [|exists "password"; split; [simpl; auto | reflexivity]];
     exfalso; simpl in Hk;
     destruct Hk as [<-|[<-|[<-|[]]]]; congruence).
Qed.

End Legacy.

(** C2.  On a configuration without a [networks] entry, [get_network_profile]
    returns the name legacy with the profile built from the top-level
    fields ([ssid] defaulting to Unknown, [product_type] to 0), whatever the
    explicit name and [auto_detect], when [wifi_url], [username] and
    [password] are present; when one of the three is missing it raises a
    [KeyError] on a required field, a ConfigurationError; and once the one
    missing field is added the call succeeds with the name legacy. *)
Theorem legacy_resolution :
  forall (self : NetworkProfileManager.t) (w : world) (cfg : dict)
         (network_name : option string) (auto_detect : bool),
    NetworkProfileManager.load_config self w = Ok (JObj cfg) ->
    dict_lookup cfg "networks" = None ->
    (forall url user pw,
        dict_lookup cfg "wifi_url" = Some url ->
        dict_lookup cfg "username" = Some user ->
        dict_lookup cfg "password" = Some pw ->
        NetworkProfileManager.get_network_profile self w network_name auto_detect
        = Ok ("legacy",
              JObj [("ssid", dict_get_or cfg "ssid" (JStr "Unknown"));
                    ("wifi_url", url); ("username", user); ("password", pw);
                    ("product_type", dict_get_or cfg "product_type" (JStr "0"));
                    ("description", JStr "Legacy configuration")]))
    /\ (forall k,
           In k required_fields ->
           dict_lookup cfg k = None ->
           exists e,
             NetworkProfileManager.get_network_profile self w network_name auto_detect
             = Raise e
             /\ ConfigurationError e = true)
    /\ (forall k v w',
           In k required_fields ->
           dict_lookup cfg k = None ->
           (forall k', In k' required_fields -> k' <> k ->
                       dict_mem cfg k' = true) ->
           NetworkProfileManager.load_config self w' = Ok (JObj (dict_set cfg k v)) ->
           exists profile,
             NetworkProfileManager.get_network_profile self w' network_name auto_detect
             = Ok ("legacy", profile)).
Proof.
  intros self w cfg network_name auto_detect Hload Hleg.
  split; [|split].
  - intros url user pw Hu Hn Hp.
    rewrite (legacy_branch self w cfg Hload Hleg).
    rewrite (legacy_profile_complete cfg url user pw Hu Hn Hp). reflexivity.
  - intros k Hk Hnone.
    rewrite (legacy_branch self w cfg Hload Hleg).
    destruct (legacy_profile_incomplete cfg k Hk Hnone) as (k' & _ & ->).
    exists (KeyError k'). split; reflexivity.
  - intros k v w' Hk Hnone Hothers Hload'.
    assert (Hleg' : dict_lookup (dict_set cfg k v) "networks" = None).
    { rewrite dict_lookup_set.
      simpl in Hk. destruct Hk as [<-|[<-|[<-|[]]]]; simpl; exact Hleg. }
    rewrite (legacy_branch self w' _ Hload' Hleg').
    assert (Hall : forall k', In k' required_fields ->
                              exists x, dict_lookup (dict_set cfg k v) k' = Some x).
    { intros k' Hk'. rewrite dict_lookup_set.
      destruct (String.eqb k' k) eqn:E; [eauto|].
      apply String.eqb_neq in E.
      apply dict_mem_true. auto. }
    destruct (Hall "wifi_url") as [url Hu]; [simpl; auto|].
    destruct (Hall "username") as [user Hn]; [simpl; auto|].
    destruct (Hall "password") as [pw Hp]; [simpl; auto|].
    rewrite (legacy_profile_complete _ url user pw Hu Hn Hp).
    eexists. reflexivity.
Qed.

Lemma legacy_resolution_witness :
  let complete := Sample.host "Linux" [] (Some (JObj Sample.legacy_fields)) in
  let broken := Sample.host "Linux" [] (Some (JObj Sample.legacy_without_url)) in
  let repaired :=
    Sample.host "Linux" []
      (Some (JObj (dict_set Sample.legacy_without_url "wifi_url"
                            (JStr "http://192.168.1.1/login")))) in
  NetworkProfileManager.get_network_profile (Sample.manager complete) complete
    (Some "work") true
  = Ok ("legacy",
        JObj [("ssid", JStr "Unknown");
              ("wifi_url", JStr "http://192.168.1.1/login");
              ("username", JStr "alice"); ("password", JStr "secret");
              ("product_type", JStr "0");
              ("description", JStr "Legacy configuration")])
  /\ (exists e,
         NetworkProfileManager.get_network_profile (Sample.manager broken) broken
           None false = Raise e
         /\ ConfigurationError e = true)
  /\ (exists profile,
         NetworkProfileManager.get_network_profile (Sample.manager broken) repaired
           None false = Ok ("legacy", profile)).
Proof.
  intros complete broken repaired. split; [|split].
  - apply (proj1 (legacy_resolution (Sample.manager complete) complete
                    Sample.legacy_fields (Some "work") true
                    eq_refl eq_refl)); reflexivity.
  - apply (proj1 (proj2 (legacy_resolution (Sample.manager broken) broken
                           Sample.legacy_without_url None false
                           eq_refl eq_refl)) "wifi_url");
      [simpl; auto | reflexivity].
  - apply (proj2 (proj2 (legacy_resolution (Sample.manager broken) broken
                           Sample.legacy_without_url None false
                           eq_refl eq_refl))
             "wifi_url" (JStr "http://192.168.1.1/login") repaired).
    + simpl; auto.
    + reflexivity.
    + intros k' [<-|[<-|[<-|[]]]] Hne; try reflexivity. congruence.
    + reflexivity.
Defined.

(** ** Configurations with a [networks] entry *)

Section WithNetworks.

Import NetworkProfileManager.

Variables (self : NetworkProfileManager.t) (w : world) (cfg : dict)
          (networks : json).
Hypothesis loaded : load_config self w = Ok (JObj cfg).
Hypothesis has_networks : dict_lookup cfg "networks" = Some networks.

Lemma named_branch (name : string) (auto_detect : bool) :
  str_truthy name = true ->
  get_network_profile self w (Some name) auto_detect
  = (known <- py_in_str name networks;;
     if known then
       profile <- py_getitem networks name;;
       Ok (name, profile)
     else
       Raise (ValueError ("Network profile '" ++ name
                          ++ "' not found in configuration"))).
Proof.
  intros Hname. destruct name as [|c name']; [discriminate|].
  unfold get_network_profile. rewrite loaded. cbn [bind py_in_str].
  unfold dict_mem. rewrite has_networks. cbn [negb bind py_getitem].
  rewrite has_networks. reflexivity.
Qed.

Lemma unnamed_branch (network_name : option string) (auto_detect : bool) :
  opt_truthy network_name = false ->
  get_network_profile self w network_name auto_detect
  = (found <- (if auto_detect then auto_detected self w networks
               else Ok None);;
     match found with
     | Some hit => Ok hit
     | None => fall_back (JObj cfg) networks
     end).
Proof.
  intros Hname.
  unfold get_network_profile. rewrite loaded. cbn [bind py_in_str].
  unfold dict_mem. rewrite has_networks. cbn [negb bind py_getitem].
  rewrite has_networks. cbn [bind].
  destruct network_name as [[|c name']|]; try reflexivity. discriminate.
Qed.

End WithNetworks.

(** C3.  With a [networks] mapping and a non-empty explicit name [X]: when
    [X] is a key, [get_network_profile] returns [X] with its entry of the
    mapping, whatever [auto_detect] and whatever the host's detection tools
    answer (the result is a function of the configuration alone); when [X]
    is not a key it raises the [ValueError] that names [X], a
    ConfigurationError. *)
Theorem explicit_name_resolution :
  forall (self : NetworkProfileManager.t) (w : world) (cfg networks : dict)
         (X : string) (auto_detect : bool),
    NetworkProfileManager.load_config self w = Ok (JObj cfg) ->
    dict_lookup cfg "networks" = Some (JObj networks) ->
    str_truthy X = true ->
    (forall profile,
        dict_lookup networks X = Some profile ->
        NetworkProfileManager.get_network_profile self w (Some X) auto_detect
        = Ok (X, profile))
    /\ (dict_lookup networks X = None ->
        NetworkProfileManager.get_network_profile self w (Some X) auto_detect
        = Raise (ValueError ("Network profile '" ++ X
                             ++ "' not found in configuration"))
        /\ ConfigurationError
             (ValueError ("Network profile '" ++ X
                          ++ "' not found in configuration")) = true).
Proof.
  intros self w cfg networks X auto_detect Hload Hnets HX.
  rewrite (named_branch self w cfg (JObj networks) Hload Hnets X auto_detect HX).
  cbn [py_in_str bind py_getitem]. unfold dict_mem.
  split.
  - intros profile Hp. rewrite Hp. reflexivity.
  - intros Hnone. rewrite Hnone. split; reflexivity.
Qed.

Lemma explicit_name_resolution_witness :
  let w := Sample.linux_on "Home-5G" (Sample.multi (Some "home")) in
  NetworkProfileManager.get_network_profile (Sample.manager w) w (Some "work") true
  = Ok ("work", Sample.profile "CorpNet" "http://portal.corp/login")
  /\ NetworkProfileManager.get_network_profile (Sample.manager w) w
       (Some "nonexistent") true
     = Raise (ValueError "Network profile 'nonexistent' not found in configuration").
Proof.
  intros w. split.
  - apply (proj1 (explicit_name_resolution (Sample.manager w) w _ Sample.home_work
                    "work" true eq_refl eq_refl eq_refl)).
    reflexivity.
  - apply (proj2 (explicit_name_resolution (Sample.manager w) w _ Sample.home_work
                    "nonexistent" true eq_refl eq_refl eq_refl)).
    reflexivity.
Defined.

(** ** The detector never raises *)

Lemma try_except_ok {A : Type} (body : result A) (fallback : A) :
  exists r, try_except body (fun _ => Ok fallback) = Ok r.
Proof. destruct body; simpl; eauto. Qed.

Lemma detector_total (self : NetworkDetector.t) (w : world) :
  exists r, NetworkDetector.get_current_ssid self w = Ok r.
Proof. unfold NetworkDetector.get_current_ssid. apply try_except_ok. Qed.

Lemma unsupported_platform_is_absent (self : NetworkDetector.t) (w : world) :
  NetworkDetector.platform self <> "windows" ->
  NetworkDetector.platform self <> "darwin" ->
  NetworkDetector.platform self <> "linux" ->
  NetworkDetector.get_current_ssid self w = Ok None.
Proof.
  intros Hw Hd Hl. unfold NetworkDetector.get_current_ssid.
  apply String.eqb_neq in Hw, Hd, Hl. rewrite Hw, Hd, Hl. reflexivity.
Qed.

Example windows_reads_the_ssid_line :
  get_current_ssid
    (Sample.host "Windows"
       [("netsh wlan show profiles", Ok "Profiles on interface Wi-Fi:");
        ("netsh wlan show interfaces",
         Ok ("    Name                   : Wi-Fi"
             ++ String newline "    SSID                   : Home-5G"
             ++ String newline "    BSSID                  : 00:11:22:33:44:55")%string)]
       None)
  = Ok (Some "Home-5G").
Proof. reflexivity. Qed.

Example windows_without_netsh_is_absent :
  get_current_ssid (Sample.host "Windows" [] None) = Ok None.
Proof. reflexivity. Qed.

Example macos_reads_networksetup :
  get_current_ssid
    (Sample.host "Darwin"
       [("networksetup -getairportnetwork en0",
         Ok ("Current Wi-Fi Network: CorpNet" ++ chr newline)%string)]
       None)
  = Ok (Some "CorpNet").
Proof. reflexivity. Qed.

(** C4.  [get_current_ssid] returns an SSID or [None] on every platform and
    for every outcome of the operating system's tools; no exception
    reaches its caller.  The same holds for the module-level function. *)
Theorem get_current_ssid_never_raises :
  (forall (self : NetworkDetector.t) (w : world),
      exists r : option string, NetworkDetector.get_current_ssid self w = Ok r)
  /\ (forall w : world, exists r : option string, get_current_ssid w = Ok r).
Proof.
  split.
  - apply detector_total.
  - intros w. apply detector_total.
Qed.

(** ** Resolution without an explicit name *)

Section AutoDetect.

Import NetworkProfileManager.

Lemma find_by_ssid_records (networks : dict) (s : string) :
  forallb (fun kv => is_record (snd kv)) networks = true ->
  find_by_ssid networks s = Ok (find (fun kv => has_ssid s (snd kv)) networks).
Proof.
  induction networks as [|[name profile] rest IH]; simpl; [reflexivity|].
  intros H. apply andb_true_iff in H as [Hrec Hrest].
  destruct profile; try discriminate.
  cbn [py_get has_ssid snd]. unfold dict_get_or.
  destruct (dict_lookup items "ssid") as [v|]; cbn [bind].
  - destruct (json_eq_str v s); [reflexivity | auto].
  - cbn [json_eq_str]. auto.
Qed.

Lemma find_by_ssid_raises (networks : dict) (s : string) (e : exn) :
  find_by_ssid networks s = Raise e -> e = AttributeError.
Proof.
  induction networks as [|[name profile] rest IH]; simpl; [discriminate|].
  destruct profile; cbn [py_get bind]; try (intros [= <-]; reflexivity).
  destruct (dict_lookup items "ssid") as [v|]; cbn [bind].
  - destruct (json_eq_str v s); [discriminate | exact IH].
  - cbn [json_eq_str]. exact IH.
Qed.

Lemma find_by_ssid_in (networks : dict) (s : string) (hit : string * json) :
  find_by_ssid networks s = Ok (Some hit) -> In hit networks.
Proof.
  induction networks as [|[name profile] rest IH]; simpl; [discriminate|].
  destruct (py_get profile "ssid" JNull) as [v|]; cbn [bind]; [|discriminate].
  destruct (json_eq_str v s).
  - intros [= <-]. auto.
  - auto.
Qed.

Variables (self : NetworkProfileManager.t) (w : world).

Lemma auto_detected_records (networks : dict) (detected : option string) :
  NetworkDetector.get_current_ssid (detector self) w = Ok detected ->
  forallb (fun kv => is_record (snd kv)) networks = true ->
  auto_detected self w (JObj networks) = Ok (ssid_match detected networks).
Proof.
  intros Hdet Hrec. unfold auto_detected, ssid_match. rewrite Hdet.
  cbn [bind]. destruct detected as [s|]; [|reflexivity].
  destruct (str_truthy s); [|reflexivity].
  cbn [py_items bind]. apply find_by_ssid_records, Hrec.
Qed.

Lemma auto_detected_raises (networks : dict) (e : exn) :
  auto_detected self w (JObj networks) = Raise e -> e = AttributeError.
Proof.
  unfold auto_detected.
  destruct (detector_total (detector self) w) as [detected ->].
  cbn [bind]. destruct detected as [s|]; [|discriminate].
  destruct (str_truthy s); [|discriminate].
  cbn [py_items bind]. apply find_by_ssid_raises.
Qed.

Lemma auto_detected_in (networks : dict) (hit : string * json) :
  auto_detected self w (JObj networks) = Ok (Some hit) -> In hit networks.
Proof.
  unfold auto_detected.
  destruct (detector_total (detector self) w) as [detected ->].
  cbn [bind]. destruct detected as [s|]; [|discriminate].
  destruct (str_truthy s); [|discriminate].
  cbn [py_items bind]. apply find_by_ssid_in.
Qed.

Lemma auto_detected_empty :
  auto_detected self w (JObj []) = Ok None.
Proof.
  unfold auto_detected.
  destruct (detector_total (detector self) w) as [detected ->].
  cbn [bind]. destruct detected as [s|]; [|reflexivity].
  destruct (str_truthy s); reflexivity.
Qed.

Variable cfg : dict.

Lemma fall_back_empty : fall_back (JObj cfg) (JObj []) = Raise IndexError.
Proof. reflexivity. Qed.

(** The fall-back on a non-empty mapping, by the value of
    [default_network]. *)
Lemma fall_back_cases (name : string) (profile : json) (rest : dict) :
  fall_back (JObj cfg) (JObj ((name, profile) :: rest))
  = match dict_lookup cfg "default_network" with
    | None => Ok (name, profile)
    | Some (JStr d) =>
        match dict_lookup ((name, profile) :: rest) d with
        | Some p => Ok (d, p)
        | None => Ok (name, profile)
        end
    | Some (JArr _) | Some (JObj _) => Raise TypeError
    | Some _ => Ok (name, profile)
    end.
Proof.
  pose proof (dict_lookup_head name profile rest) as Hhead.
  unfold fall_back.
  cbn [py_keys dict_keys map fst bind py_first py_get py_items].
  destruct (dict_lookup cfg "default_network") as [v|]; cbn [bind].
  - destruct v as [| | | |d| |];
      cbn [py_in_dict bind py_keys dict_keys map fst py_first py_getitem];
      try (rewrite Hhead; reflexivity);
      try reflexivity.
    unfold dict_mem.
    destruct (dict_lookup ((name, profile) :: rest) d) as [p|] eqn:Hd.
    + reflexivity.
    + rewrite Hhead. reflexivity.
  - cbn [py_in_dict]. unfold dict_mem.
    rewrite Hhead. cbn [bind py_getitem].
    rewrite Hhead. reflexivity.
Qed.

End AutoDetect.

(** C1.  On a multi-profile configuration, without an explicit name and
    with [auto_detect] set, [get_network_profile] resolves in this order:
    the first profile, in the mapping's iteration order, whose [ssid] is the
    detected SSID, whatever [default_network] says; failing that, the
    profile [default_network] names, when it names a key of the mapping;
    failing that, the first profile of the mapping. *)
Theorem auto_detect_resolution_order :
  forall (self : NetworkProfileManager.t) (w : world) (config : json)
         (networks : dict) (network_name detected : option string),
    NetworkProfileManager.load_config self w = Ok config ->
    multi_profile config networks ->
    opt_truthy network_name = false ->
    NetworkDetector.get_current_ssid (NetworkProfileManager.detector self) w
    = Ok detected ->
    (forall hit,
        ssid_match detected networks = Some hit ->
        NetworkProfileManager.get_network_profile self w network_name true
        = Ok hit)
    /\ (forall d profile,
           ssid_match detected networks = None ->
           default_network_of config = Some (JStr d) ->
           dict_lookup networks d = Some profile ->
           NetworkProfileManager.get_network_profile self w network_name true
           = Ok (d, profile))
    /\ (forall name profile rest,
           ssid_match detected networks = None ->
           (forall v, default_network_of config = Some v ->
                      hashable v = true
                      /\ forall d, v = JStr d -> dict_mem networks d = false) ->
           networks = (name, profile) :: rest ->
           NetworkProfileManager.get_network_profile self w network_name true
           = Ok (name, profile)).
Proof.
  intros self w config networks network_name detected Hload Hmulti Hname Hdet.
  destruct Hmulti as (cfg & -> & Hnets & Hne & Hrec).
  rewrite (unnamed_branch self w cfg (JObj networks) Hload Hnets
             network_name true Hname).
  rewrite (auto_detected_records self w networks detected Hdet Hrec).
  cbn [bind default_network_of].
  split; [|split].
  - intros hit ->. reflexivity.
  - intros d profile -> Hdefault Hd.
    destruct networks as [|[name0 profile0] rest]; [contradiction|].
    rewrite fall_back_cases, Hdefault, Hd. reflexivity.
  - intros name profile rest -> Hdefault ->.
    rewrite fall_back_cases.
    destruct (dict_lookup cfg "default_network") as [v|]; [|reflexivity].
    destruct (Hdefault v eq_refl) as [Hhash Hkey].
    destruct v as [| | | |d| |]; try reflexivity; try discriminate.
    specialize (Hkey d eq_refl). unfold dict_mem in Hkey.
    destruct (dict_lookup ((name, profile) :: rest) d);
      [discriminate | reflexivity].
Qed.

Lemma auto_detect_resolution_order_witness :
  let at_home := Sample.linux_on "Home-5G" (Sample.multi (Some "work")) in
  let at_cafe := Sample.linux_on "CafeWifi" (Sample.multi (Some "work")) in
  let offline := Sample.linux_offline (Sample.multi None) in
  NetworkProfileManager.get_network_profile (Sample.manager at_home) at_home None true
  = Ok ("home", Sample.profile "Home-5G" "http://10.0.0.1/login")
  /\ NetworkProfileManager.get_network_profile (Sample.manager at_cafe) at_cafe None true
     = Ok ("work", Sample.profile "CorpNet" "http://portal.corp/login")
  /\ NetworkProfileManager.get_network_profile (Sample.manager offline) offline None true
     = Ok ("home", Sample.profile "Home-5G" "http://10.0.0.1/login").
Proof.
  intros at_home at_cafe offline.
  assert (Hshape : forall default,
             multi_profile (Sample.multi default) Sample.home_work).
  { intros default. eexists. split; [reflexivity|].
    split; [destruct default; reflexivity|].
    split; [discriminate | reflexivity]. }
  split; [|split].
  - apply (proj1 (auto_detect_resolution_order
                    (Sample.manager at_home) at_home _ Sample.home_work
                    None (Some "Home-5G")
                    eq_refl (Hshape (Some "work")) eq_refl eq_refl)).
    reflexivity.
  - apply (proj1 (proj2 (auto_detect_resolution_order
                           (Sample.manager at_cafe) at_cafe _ Sample.home_work
                           None (Some "CafeWifi")
                           eq_refl (Hshape (Some "work")) eq_refl eq_refl)));
      reflexivity.
  - apply (proj2 (proj2 (auto_detect_resolution_order
                           (Sample.manager offline) offline _ Sample.home_work
                           None None
                           eq_refl (Hshape None) eq_refl eq_refl))
             "home" _ [("work", Sample.profile "CorpNet" "http://portal.corp/login")]).
    + reflexivity.
    + intros v Hv. discriminate Hv.
    + reflexivity.
Defined.

(** C9.  Without an explicit name, a configuration whose [networks] mapping
    is empty makes [get_network_profile] raise [IndexError] at the
    first-key access, which is no ConfigurationError, whatever
    [default_network] and the detector say.  With a non-empty mapping the
    access is in bounds, [IndexError] is never raised, and the resolution
    ends with a profile of the mapping whenever [default_network], if set,
    is hashable and, if the SSID scan runs, the profiles are records. *)
Theorem first_key_access_needs_nonempty :
  forall (self : NetworkProfileManager.t) (w : world) (cfg : dict)
         (network_name : option string) (auto_detect : bool),
    NetworkProfileManager.load_config self w = Ok (JObj cfg) ->
    opt_truthy network_name = false ->
    (dict_lookup cfg "networks" = Some (JObj []) ->
     NetworkProfileManager.get_network_profile self w network_name auto_detect
     = Raise IndexError
     /\ ConfigurationError IndexError = false)
    /\ (forall networks,
           dict_lookup cfg "networks" = Some (JObj networks) ->
           networks <> [] ->
           (exists first_key, py_first (dict_keys networks) = Ok first_key)
           /\ NetworkProfileManager.get_network_profile self w network_name auto_detect
              <> Raise IndexError
           /\ ((auto_detect = true ->
                forallb (fun kv => is_record (snd kv)) networks = true) ->
               (forall v, dict_lookup cfg "default_network" = Some v ->
                          hashable v = true) ->
               exists name profile,
                 NetworkProfileManager.get_network_profile self w network_name
                   auto_detect = Ok (name, profile)
                 /\ In (name, profile) networks)).
Proof.
  intros self w cfg network_name auto_detect Hload Hname. split.
  - intros Hnets.
    rewrite (unnamed_branch self w cfg _ Hload Hnets network_name auto_detect Hname).
    split; [|reflexivity].
    destruct auto_detect; [rewrite auto_detected_empty|]; reflexivity.
  - intros networks Hnets Hne.
    rewrite (unnamed_branch self w cfg _ Hload Hnets network_name auto_detect Hname).
    destruct networks as [|[name0 profile0] rest]; [contradiction|].
    assert (Hfall : forall r,
               NetworkProfileManager.fall_back (JObj cfg)
                 (JObj ((name0, profile0) :: rest)) = r ->
               r <> Raise IndexError
               /\ ((forall v, dict_lookup cfg "default_network" = Some v ->
                              hashable v = true) ->
                   exists name profile,
                     r = Ok (name, profile)
                     /\ In (name, profile) ((name0, profile0) :: rest))).
    { intros r <-. rewrite fall_back_cases.
      destruct (dict_lookup cfg "default_network") as [v|].
      - destruct v as [| | | |d| |];
          try (split; [discriminate | intros _; exists name0, profile0;
                                      split; [reflexivity | left; reflexivity]]);
          try (split; [discriminate | intros H; discriminate (H _ eq_refl)]).
        destruct (dict_lookup ((name0, profile0) :: rest) d) as [p|] eqn:Hd.
        + split; [discriminate|]. intros _. exists d, p.
          split; [reflexivity | apply dict_lookup_in, Hd].
        + split; [discriminate|]. intros _. exists name0, profile0.
          split; [reflexivity | left; reflexivity].
      - split; [discriminate|]. intros _. exists name0, profile0.
        split; [reflexivity | left; reflexivity]. }
    split; [eexists; reflexivity|].
    destruct auto_detect.
    + destruct (NetworkProfileManager.auto_detected self w
                  (JObj ((name0, profile0) :: rest))) as [[hit|]|e] eqn:Hauto;
        cbn [bind].
      * split; [discriminate|]. intros _ _. destruct hit as [name profile].
        exists name, profile. split; [reflexivity|].
        apply (auto_detected_in self w _ _ Hauto).
      * destruct (Hfall _ eq_refl) as [Hneq Hok].
        split; [exact Hneq | intros _; exact Hok].
      * split.
        -- apply auto_detected_raises in Hauto. subst e. discriminate.
        -- intros Hrec _. specialize (Hrec eq_refl).
           destruct (detector_total (NetworkProfileManager.detector self) w)
             as [detected Hdet].
           rewrite (auto_detected_records self w _ detected Hdet Hrec) in Hauto.
           discriminate.
    + cbn [bind]. destruct (Hfall _ eq_refl) as [Hneq Hok].
      split; [exact Hneq | intros _; exact Hok].
Qed.

Lemma first_key_access_needs_nonempty_witness :
  let bare := Sample.linux_on "Home-5G" Sample.empty_networks in
  let fine := Sample.linux_on "CafeWifi" (Sample.multi (Some "missing")) in
  NetworkProfileManager.get_network_profile (Sample.manager bare) bare None true
  = Raise IndexError
  /\ exists name profile,
      NetworkProfileManager.get_network_profile (Sample.manager fine) fine None true
      = Ok (name, profile)
      /\ In (name, profile) Sample.home_work.
Proof.
  intros bare fine. split.
  - apply (proj1 (first_key_access_needs_nonempty
                    (Sample.manager bare) bare _ None true eq_refl eq_refl)).
    reflexivity.
  - apply (proj2 (first_key_access_needs_nonempty
                    (Sample.manager fine) fine _ None true eq_refl eq_refl)
             Sample.home_work).
    + reflexivity.
    + discriminate.
    + reflexivity.
    + intros v [= <-]. reflexivity.
Defined.

(** ** Listing the profiles *)

Section Listing.

Import NetworkProfileManager.

Variables (self : NetworkProfileManager.t) (w : world).

Lemma list_networks_total : exists listing, list_networks self w = Ok listing.
Proof. unfold list_networks. apply try_except_ok. Qed.

Lemma get_available_networks_total :
  exists names, get_available_networks self w = Ok names.
Proof. unfold get_available_networks. apply try_except_ok. Qed.

Lemma list_networks_load_failure (e : exn) :
  load_config self w = Raise e -> list_networks self w = Ok (JObj []).
Proof. intros H. unfold list_networks. rewrite H. reflexivity. Qed.

Lemma get_available_networks_load_failure (e : exn) :
  load_config self w = Raise e -> get_available_networks self w = Ok [].
Proof. intros H. unfold get_available_networks. rewrite H. reflexivity. Qed.

Lemma load_config_missing_file :
  os_path_exists w (config_path self) = false ->
  exists msg, load_config self w = Raise (FileNotFoundError msg).
Proof. intros H. unfold load_config. rewrite H. eexists. reflexivity. Qed.

Lemma list_networks_not_an_object (config : json) :
  load_config self w = Ok config ->
  is_record config = false ->
  list_networks self w = Ok (JObj []).
Proof.
  intros H Hrec. unfold list_networks. rewrite H.
  destruct config; try discriminate; cbn [bind py_in_str try_except];
    try reflexivity.
  - destruct (str_in "networks" s); reflexivity.
  - destruct (existsb _ xs); reflexivity.
Qed.

Variable cfg : dict.
Hypothesis loaded : load_config self w = Ok (JObj cfg).

Lemma list_networks_legacy :
  dict_lookup cfg "networks" = None ->
  list_networks self w
  = match dict_lookup cfg "wifi_url" with
    | Some url =>
        Ok (JObj [("legacy",
                   JObj [("ssid", dict_get_or cfg "ssid" (JStr "Unknown"));
                         ("wifi_url", url);
                         ("description", JStr "Legacy configuration")])])
    | None => Ok (JObj [])
    end.
Proof.
  intros Hleg. unfold list_networks. rewrite loaded. cbn [bind py_in_str].
  unfold dict_mem. rewrite Hleg. cbn [negb py_get py_getitem]. unfold dict_get_or.
  destruct (dict_lookup cfg "ssid"), (dict_lookup cfg "wifi_url"); reflexivity.
Qed.

Lemma list_networks_multi (networks : json) :
  dict_lookup cfg "networks" = Some networks ->
  list_networks self w = Ok networks.
Proof.
  intros Hnets. unfold list_networks. rewrite loaded. cbn [bind py_in_str].
  unfold dict_mem. rewrite Hnets. cbn [negb py_getitem]. rewrite Hnets.
  reflexivity.
Qed.

Lemma get_available_networks_legacy :
  dict_lookup cfg "networks" = None ->
  get_available_networks self w = Ok ["default"].
Proof.
  intros Hleg. unfold get_available_networks. rewrite loaded.
  cbn [bind py_in_str]. unfold dict_mem. rewrite Hleg. reflexivity.
Qed.

Lemma get_available_networks_multi (networks : json) :
  dict_lookup cfg "networks" = Some networks ->
  get_available_networks self w
  = match networks with
    | JObj d => Ok (dict_keys d)
    | _ => Ok []
    end.
Proof.
  intros Hnets. unfold get_available_networks. rewrite loaded.
  cbn [bind py_in_str]. unfold dict_mem. rewrite Hnets.
  cbn [bind py_getitem]. rewrite Hnets.
  destruct networks; reflexivity.
Qed.

End Listing.

(** C7.  [list_networks] never raises.  On a legacy configuration (with its
    [wifi_url]) it returns the mapping with the single key legacy; on a
    configuration with a [networks] entry it returns that entry as it is;
    when the configuration cannot be loaded (a missing file among the
    causes), when it is not a JSON object, or when a legacy configuration
    has no [wifi_url], it returns the empty mapping. *)
Theorem list_networks_contract :
  forall (self : NetworkProfileManager.t) (w : world),
    (exists listing, NetworkProfileManager.list_networks self w = Ok listing)
    /\ (forall cfg url,
           NetworkProfileManager.load_config self w = Ok (JObj cfg) ->
           dict_lookup cfg "networks" = None ->
           dict_lookup cfg "wifi_url" = Some url ->
           NetworkProfileManager.list_networks self w
           = Ok (JObj [("legacy",
                        JObj [("ssid", dict_get_or cfg "ssid" (JStr "Unknown"));
                              ("wifi_url", url);
                              ("description", JStr "Legacy configuration")])]))
    /\ (forall cfg networks,
           NetworkProfileManager.load_config self w = Ok (JObj cfg) ->
           dict_lookup cfg "networks" = Some networks ->
           NetworkProfileManager.list_networks self w = Ok networks)
    /\ (forall e,
           NetworkProfileManager.load_config self w = Raise e ->
           NetworkProfileManager.list_networks self w = Ok (JObj []))
    /\ (os_path_exists w (NetworkProfileManager.config_path self) = false ->
        NetworkProfileManager.list_networks self w = Ok (JObj []))
    /\ (forall config,
           NetworkProfileManager.load_config self w = Ok config ->
           is_record config = false ->
           NetworkProfileManager.list_networks self w = Ok (JObj []))
    /\ (forall cfg,
           NetworkProfileManager.load_config self w = Ok (JObj cfg) ->
           dict_lookup cfg "networks" = None ->
           dict_lookup cfg "wifi_url" = None ->
           NetworkProfileManager.list_networks self w = Ok (JObj [])).
Proof.
  intros self w. repeat split.
  - apply list_networks_total.
  - intros cfg url Hload Hleg Hurl.
    rewrite (list_networks_legacy self w cfg Hload Hleg), Hurl. reflexivity.
  - intros cfg networks Hload Hnets.
    apply (list_networks_multi self w cfg Hload networks Hnets).
  - apply list_networks_load_failure.
  - intros Hmissing.
    destruct (load_config_missing_file self w Hmissing) as [msg Hraise].
    apply (list_networks_load_failure self w _ Hraise).
  - apply list_networks_not_an_object.
  - intros cfg Hload Hleg Hurl.
    rewrite (list_networks_legacy self w cfg Hload Hleg), Hurl. reflexivity.
Qed.

Lemma list_networks_contract_witness :
  let legacy := Sample.host "Linux" [] (Some (JObj Sample.legacy_fields)) in
  let multi := Sample.host "Linux" [] (Some (Sample.multi (Some "work"))) in
  let unconfigured := Sample.host "Linux" [] None in
  let broken := Sample.host "Linux" [] (Some (JObj Sample.legacy_without_url)) in
  NetworkProfileManager.list_networks (Sample.manager legacy) legacy
  = Ok (JObj [("legacy",
               JObj [("ssid", JStr "Unknown");
                     ("wifi_url", JStr "http://192.168.1.1/login");
                     ("description", JStr "Legacy configuration")])])
  /\ NetworkProfileManager.list_networks (Sample.manager multi) multi
     = Ok (JObj Sample.home_work)
  /\ NetworkProfileManager.list_networks (Sample.manager unconfigured) unconfigured
     = Ok (JObj [])
  /\ NetworkProfileManager.list_networks (Sample.manager broken) broken
     = Ok (JObj []).
Proof.
  intros legacy multi unconfigured broken.
  split; [|split; [|split]].
  - destruct (list_networks_contract (Sample.manager legacy) legacy)
      as (_ & H & _).
    apply (H Sample.legacy_fields); reflexivity.
  - destruct (list_networks_contract (Sample.manager multi) multi)
      as (_ & _ & H & _).
    apply (H [("default_network", JStr "work"); ("networks", JObj Sample.home_work)]);
      reflexivity.
  - destruct (list_networks_contract (Sample.manager unconfigured) unconfigured)
      as (_ & _ & _ & _ & H & _).
    apply H. reflexivity.
  - destruct (list_networks_contract (Sample.manager broken) broken)
      as (_ & _ & _ & _ & _ & _ & H).
    apply (H Sample.legacy_without_url); reflexivity.
Defined.

Lemma get_available_networks_not_an_object
      (self : NetworkProfileManager.t) (w : world) (config : json) :
  NetworkProfileManager.load_config self w = Ok config ->
  is_record config = false ->
  NetworkProfileManager.get_available_networks self w
  = match config with
    | JStr s => if str_in "networks" s then Ok [] else Ok ["default"]
    | JArr xs =>
        if existsb (fun x => json_eq_str x "networks") xs then Ok []
        else Ok ["default"]
    | _ => Ok []
    end.
Proof.
  intros H Hrec. unfold NetworkProfileManager.get_available_networks. rewrite H.
  destruct config; try discriminate; cbn [bind py_in_str try_except];
    try reflexivity.
  - destruct (str_in "networks" s); reflexivity.
  - destruct (existsb _ xs); reflexivity.
Qed.

(** C8.  [get_available_networks] never raises.  It returns the keys of the
    [networks] mapping, in order, for a multi-profile configuration, and the
    one-element list with the name default for a legacy configuration -
    not the name legacy, which is the only name [get_network_profile]
    returns and the only key [list_networks] lists for that configuration.
    When the configuration cannot be loaded, or [networks] is not a
    mapping, it returns the empty list. *)
Theorem get_available_networks_contract :
  forall (self : NetworkProfileManager.t) (w : world),
    (exists names, NetworkProfileManager.get_available_networks self w = Ok names)
    /\ (forall cfg networks,
           NetworkProfileManager.load_config self w = Ok (JObj cfg) ->
           dict_lookup cfg "networks" = Some (JObj networks) ->
           NetworkProfileManager.get_available_networks self w
           = Ok (dict_keys networks))
    /\ (forall cfg,
           NetworkProfileManager.load_config self w = Ok (JObj cfg) ->
           dict_lookup cfg "networks" = None ->
           NetworkProfileManager.get_available_networks self w = Ok ["default"]
           /\ "default" <> "legacy"
           /\ (forall network_name auto_detect name profile,
                  NetworkProfileManager.get_network_profile self w
                    network_name auto_detect = Ok (name, profile) ->
                  name = "legacy")
           /\ (forall name summary,
                  NetworkProfileManager.list_networks self w = Ok (JObj summary) ->
                  In name (dict_keys summary) -> name = "legacy"))
    /\ (forall e,
           NetworkProfileManager.load_config self w = Raise e ->
           NetworkProfileManager.get_available_networks self w = Ok [])
    /\ (forall cfg networks,
           NetworkProfileManager.load_config self w = Ok (JObj cfg) ->
           dict_lookup cfg "networks" = Some networks ->
           is_record networks = false ->
           NetworkProfileManager.get_available_networks self w = Ok []).
Proof.
  intros self w. split; [|split; [|split; [|split]]].
  - apply get_available_networks_total.
  - intros cfg networks Hload Hnets.
    rewrite (get_available_networks_multi self w cfg Hload _ Hnets). reflexivity.
  - intros cfg Hload Hleg. split; [|split; [|split]].
    + apply (get_available_networks_legacy self w cfg Hload Hleg).
    + discriminate.
    + intros network_name auto_detect name profile.
      rewrite (legacy_branch self w cfg Hload Hleg).
      destruct (NetworkProfileManager.legacy_profile (JObj cfg));
        cbn [bind]; congruence.
    + intros name summary.
      rewrite (list_networks_legacy self w cfg Hload Hleg).
      destruct (dict_lookup cfg "wifi_url"); intros [= <-]; simpl;
        [intros [<-|[]]; reflexivity | intros []].
  - apply get_available_networks_load_failure.
  - intros cfg networks Hload Hnets Hrec.
    rewrite (get_available_networks_multi self w cfg Hload _ Hnets).
    destruct networks; try reflexivity. discriminate.
Qed.

Lemma get_available_networks_contract_witness :
  let legacy := Sample.host "Linux" [] (Some (JObj Sample.legacy_fields)) in
  let multi := Sample.host "Linux" [] (Some (Sample.multi (Some "work"))) in
  let unconfigured := Sample.host "Linux" [] None in
  NetworkProfileManager.get_available_networks (Sample.manager legacy) legacy
  = Ok ["default"]
  /\ NetworkProfileManager.get_available_networks (Sample.manager multi) multi
     = Ok ["home"; "work"]
  /\ NetworkProfileManager.get_available_networks (Sample.manager unconfigured)
       unconfigured = Ok [].
Proof.
  intros legacy multi unconfigured.
  split; [|split].
  - destruct (get_available_networks_contract (Sample.manager legacy) legacy)
      as (_ & _ & H & _).
    apply (H Sample.legacy_fields); reflexivity.
  - destruct (get_available_networks_contract (Sample.manager multi) multi)
      as (_ & H & _).
    apply (H [("default_network", JStr "work"); ("networks", JObj Sample.home_work)]
             Sample.home_work); reflexivity.
  - destruct (get_available_networks_contract (Sample.manager unconfigured)
                unconfigured) as (_ & _ & _ & H & _).
    apply (H (FileNotFoundError "Missing config.json. Please copy config.example.json to config.json and configure your networks.")).
    reflexivity.
Defined.

(** C10.  For a legacy configuration carrying its three required fields,
    the entry legacy of [list_networks] has exactly the keys [ssid],
    [wifi_url] and [description], the profile of [get_network_profile] has
    exactly the six keys [ssid], [wifi_url], [username], [password],
    [product_type] and [description], the two agree on the three shared
    keys, and the summary lacks [username], [password] and [product_type]:
    it is a strict projection of the profile, not the same record. *)
Theorem legacy_summary_is_projection :
  forall (self : NetworkProfileManager.t) (w : world) (cfg : dict)
         (network_name : option string) (auto_detect : bool),
    NetworkProfileManager.load_config self w = Ok (JObj cfg) ->
    dict_lookup cfg "networks" = None ->
    dict_mem cfg "wifi_url" = true ->
    dict_mem cfg "username" = true ->
    dict_mem cfg "password" = true ->
    exists summary profile,
      NetworkProfileManager.list_networks self w
      = Ok (JObj [("legacy", JObj summary)])
      /\ NetworkProfileManager.get_network_profile self w network_name auto_detect
         = Ok ("legacy", JObj profile)
      /\ dict_keys summary = ["ssid"; "wifi_url"; "description"]
      /\ dict_keys profile
         = ["ssid"; "wifi_url"; "username"; "password"; "product_type";
            "description"]
      /\ (forall k, In k (dict_keys summary) ->
                    dict_lookup summary k = dict_lookup profile k)
      /\ (forall k, In k ["username"; "password"; "product_type"] ->
                    dict_mem summary k = false /\ dict_mem profile k = true)
      /\ summary <> profile.
Proof.
  intros self w cfg network_name auto_detect Hload Hleg Hu Hn Hp.
  apply dict_mem_true in Hu as [url Hu].
  apply dict_mem_true in Hn as [user Hn].
  apply dict_mem_true in Hp as [pw Hp].
  rewrite (list_networks_legacy self w cfg Hload Hleg), Hu.
  rewrite (legacy_branch self w cfg Hload Hleg).
  rewrite (legacy_profile_complete cfg url user pw Hu Hn Hp).
  eexists. eexists. split; [reflexivity|]. split; [reflexivity|].
  split; [reflexivity|]. split; [reflexivity|].
  split; [|split].
  - intros k [<-|[<-|[<-|[]]]]; reflexivity.
  - intros k [<-|[<-|[<-|[]]]]; split; reflexivity.
  - discriminate.
Qed.

Lemma legacy_summary_is_projection_witness :
  let legacy := Sample.host "Linux" [] (Some (JObj Sample.legacy_fields)) in
  exists summary profile,
    NetworkProfileManager.list_networks (Sample.manager legacy) legacy
    = Ok (JObj [("legacy", JObj summary)])
    /\ NetworkProfileManager.get_network_profile (Sample.manager legacy) legacy
         None true
       = Ok ("legacy", JObj profile)
    /\ dict_keys summary = ["ssid"; "wifi_url"; "description"]
    /\ dict_keys profile
       = ["ssid"; "wifi_url"; "username"; "password"; "product_type";
          "description"]
    /\ (forall k, In k (dict_keys summary) ->
                  dict_lookup summary k = dict_lookup profile k)
    /\ (forall k, In k ["username"; "password"; "product_type"] ->
                  dict_mem summary k = false /\ dict_mem profile k = true)
    /\ summary <> profile.
Proof.
  intros legacy.
  apply (legacy_summary_is_projection (Sample.manager legacy) legacy
           Sample.legacy_fields None true); reflexivity.
Defined.

(** ** Detection on Linux *)

Lemma linux_loop_three (w : world) (m1 m2 m3 : world -> result (option string)) :
  NetworkDetector.linux_loop w [m1; m2; m3]
  = first_of (yields (m1 w)) (yields (m2 w)) (yields (m3 w)).
Proof.
  cbn [NetworkDetector.linux_loop]. unfold yields, first_of, opt_truthy.
  destruct (m1 w) as [[s1|]|e1]; [destruct (str_truthy s1); [reflexivity|]| |];
    (destruct (m2 w) as [[s2|]|e2]; [destruct (str_truthy s2); [reflexivity|]| |];
     (destruct (m3 w) as [[s3|]|e3]; [destruct (str_truthy s3)| |]; reflexivity)).
Qed.

Example linux_falls_through_to_nmcli :
  NetworkDetector._get_ssid_linux Sample.nmcli_host = Ok (Some "CafeWifi").
Proof. reflexivity. Qed.

Example linux_falls_through_to_iwconfig :
  NetworkDetector._get_ssid_linux Sample.last_resort_host = Ok (Some "MyNetwork").
Proof. reflexivity. Qed.

Example linux_nothing_found :
  NetworkDetector._get_ssid_linux (Sample.host "Linux" [] None) = Ok None.
Proof. reflexivity. Qed.

Example linux_first_mechanism_wins :
  get_current_ssid
    (Sample.host "Linux"
       [("iwgetid -r", Ok "Home-5G");
        ("iwconfig", Ok ("wlan0  ESSID:" ++ quoted "Other")%string)] None)
  = Ok (Some "Home-5G").
Proof. reflexivity. Qed.

(** ** Strings *)

Open Scope string_scope.

Section Strings.

Lemma str_app_nil_r (s : string) : s ++ EmptyString = s.
Proof. induction s as [|c s IH]; simpl; [reflexivity | now rewrite IH]. Qed.

Lemma str_app_assoc (a b c : string) : (a ++ b) ++ c = a ++ b ++ c.
Proof. induction a as [|x a IH]; simpl; [reflexivity | now rewrite IH]. Qed.

Lemma str_length_app (a b : string) :
  String.length (a ++ b) = String.length a + String.length b.
Proof. induction a as [|x a IH]; simpl; [reflexivity | now rewrite IH]. Qed.

Lemma startswith_nil (s : string) : startswith s EmptyString = true.
Proof. destruct s; reflexivity. Qed.

Lemma startswith_app (p s : string) : startswith (p ++ s) p = true.
Proof.
  induction p as [|c p IH]; simpl; [apply startswith_nil|].
  rewrite Ascii.eqb_refl. exact IH.
Qed.

Lemma startswith_app_l (p u v : string) :
  startswith u p = true -> startswith (u ++ v) p = true.
Proof.
  revert u. induction p as [|c p IH]; intros u H.
  - apply startswith_nil.
  - destruct u as [|x u]; simpl in *; [discriminate|].
    apply andb_true_iff in H as [Hc Hp]. rewrite Hc. simpl. auto.
Qed.

Lemma startswith_trunc (p u v : string) :
  startswith (u ++ v) p = true ->
  String.length p <= String.length u ->
  startswith u p = true.
Proof.
  revert u. induction p as [|c p IH]; intros u H Hlen.
  - apply startswith_nil.
  - destruct u as [|x u]; simpl in *; [lia|].
    apply andb_true_iff in H as [Hc Hp]. rewrite Hc. simpl.
    apply IH; [exact Hp | lia].
Qed.

Lemma str_in_cons (sub : string) (c : ascii) (t : string) :
  str_in sub (String c t) = startswith (String c t) sub || str_in sub t.
Proof. reflexivity. Qed.

Lemma str_in_suffix (sub a b : string) :
  str_in sub (a ++ b) = false -> str_in sub b = false.
Proof.
  induction a as [|c a IH]; [trivial|].
  change (String c a ++ b) with (String c (a ++ b)).
  rewrite str_in_cons. intros H. apply orb_false_iff in H as [_ H]. auto.
Qed.

Lemma str_in_app_r (sub a b : string) :
  str_in sub b = true -> str_in sub (a ++ b) = true.
Proof.
  intros H. destruct (str_in sub (a ++ b)) eqn:E; [reflexivity|].
  apply str_in_suffix in E. congruence.
Qed.

Lemma str_in_starts (sub s : string) :
  startswith s sub = true -> str_in sub s = true.
Proof. intros H. destruct s; simpl in *; rewrite H; reflexivity. Qed.

Lemma str_in_middle (sub a b : string) : str_in sub (a ++ sub ++ b) = true.
Proof. apply str_in_app_r, str_in_starts, startswith_app. Qed.

Lemma str_in_app_l (sub a b : string) :
  str_in sub a = true -> str_in sub (a ++ b) = true.
Proof.
  induction a as [|c a IH].
  - simpl. rewrite orb_false_r. intros H.
    apply str_in_starts. apply (startswith_app_l sub EmptyString b H).
  - change (String c a ++ b) with (String c (a ++ b)).
    rewrite !str_in_cons. intros H. apply orb_true_iff in H as [H|H].
    + apply (startswith_app_l sub (String c a) b) in H.
      change (String c a ++ b) with (String c (a ++ b)) in H.
      rewrite H. reflexivity.
    + rewrite (IH H). apply orb_true_r.
Qed.

Lemma str_in_prefix (sub a b : string) :
  str_in sub (a ++ b) = false -> str_in sub a = false.
Proof.
  intros H. destruct (str_in sub a) eqn:E; [|reflexivity].
  apply (str_in_app_l sub a b) in E. congruence.
Qed.

Lemma str_in_chr_cons (a c : ascii) (t : string) :
  str_in (chr a) (String c t) = Ascii.eqb a c || str_in (chr a) t.
Proof.
  rewrite str_in_cons. simpl. rewrite startswith_nil, andb_true_r. reflexivity.
Qed.

Lemma str_in_chr_app (a : ascii) (u v : string) :
  str_in (chr a) (u ++ v) = str_in (chr a) u || str_in (chr a) v.
Proof.
  induction u as [|c u IH]; [reflexivity|].
  change (String c u ++ v) with (String c (u ++ v)).
  rewrite !str_in_chr_cons, IH, orb_assoc. reflexivity.
Qed.

End Strings.

(** ** The quoted ESSID field *)

Section QuotedEssid.

Import Re.

Lemma essid_quoted_split :
  essid_quoted
  = (lits essid_open ++ [GroupOpen; Star (Not dquote); GroupClose; Lit dquote])%list.
Proof. reflexivity. Qed.

Lemma match_lits_prefix (p : string) (r : list item) (s : string)
      (cap m : capture) :
  match_here (lits p ++ r)%list s cap = Some m -> startswith s p = true.
Proof.
  revert s cap. induction p as [|c p IH]; intros s cap.
  - intros _. apply startswith_nil.
  - cbn [lits app match_here]. destruct s as [|c' s]; [discriminate|].
    cbn [startswith]. destruct (Ascii.eqb c c'); [|discriminate].
    intros H. simpl. exact (IH _ _ H).
Qed.

Lemma match_lits_unset (p : string) (r : list item) (s : string) :
  match_here (lits p ++ r)%list (p ++ s) Unset = match_here r s Unset.
Proof.
  induction p as [|c p IH]; [reflexivity|].
  cbn [lits app match_here append]. rewrite Ascii.eqb_refl. exact IH.
Qed.

Lemma star_until_quote (x post acc : string) :
  str_in (chr dquote) x = false ->
  star (Not dquote) (match_here [GroupClose; Lit dquote])
       (x ++ chr dquote ++ post) (Opened acc)
  = Some (Closed (acc ++ x)).
Proof.
  revert acc. induction x as [|c x IH]; intros acc Hq.
  - rewrite str_app_nil_r. reflexivity.
  - rewrite str_in_chr_cons in Hq. apply orb_false_iff in Hq as [Hc Hx].
    change (String c x ++ chr dquote ++ post)
      with (String c (x ++ chr dquote ++ post)).
    cbn [star in_cls push]. rewrite Ascii.eqb_sym, Hc. cbn [negb].
    rewrite (IH (acc ++ chr c) Hx).
    rewrite str_app_assoc. reflexivity.
Qed.

Lemma match_essid (x post : string) :
  str_in (chr dquote) x = false ->
  match_here essid_quoted (essid_open ++ x ++ chr dquote ++ post) Unset
  = Some (Closed x).
Proof.
  intros Hq. rewrite essid_quoted_split, match_lits_unset.
  cbn [match_here].
  apply (star_until_quote x post EmptyString Hq).
Qed.

Lemma search_essid_none (s : string) :
  str_in essid_open s = false -> search essid_quoted s = None.
Proof.
  induction s as [|c s IH]; intros H.
  - reflexivity.
  - rewrite str_in_cons in H. apply orb_false_iff in H as [Hs Hin].
    cbn [search].
    destruct (match_here essid_quoted (String c s) Unset) as [m|] eqn:E.
    + rewrite essid_quoted_split in E. apply match_lits_prefix in E. congruence.
    + auto.
Qed.

Lemma search_essid_first (a x post : string) :
  str_in essid_open (a ++ "ESSID:") = false ->
  str_in (chr dquote) x = false ->
  search essid_quoted (a ++ essid_open ++ x ++ chr dquote ++ post)
  = Some (Closed x).
Proof.
  intros Ha Hq. induction a as [|c a IH].
  - cbn [append].
    assert (E := match_essid x post Hq).
    destruct (essid_open ++ x ++ chr dquote ++ post) eqn:Es;
      cbn [search]; rewrite E; reflexivity.
  - change (String c a ++ "ESSID:") with (String c (a ++ "ESSID:")) in Ha.
    rewrite str_in_cons in Ha. apply orb_false_iff in Ha as [Hs Hin].
    change (String c a ++ essid_open ++ x ++ chr dquote ++ post)
      with (String c (a ++ essid_open ++ x ++ chr dquote ++ post)).
    cbn [search].
    destruct (match_here essid_quoted
                (String c (a ++ essid_open ++ x ++ chr dquote ++ post)) Unset)
      as [m|] eqn:E.
    + exfalso. rewrite essid_quoted_split in E. apply match_lits_prefix in E.
      change (String c (a ++ essid_open ++ x ++ chr dquote ++ post))
        with (String c a ++ ("ESSID:" ++ chr dquote) ++ x ++ chr dquote ++ post) in E.
      rewrite (str_app_assoc "ESSID:"), <- (str_app_assoc (String c a)) in E.
      apply startswith_trunc in E.
      * change (String c a ++ "ESSID:") with (String c (a ++ "ESSID:")) in E.
        congruence.
      * rewrite str_length_app. simpl. lia.
    + exact (IH Hin).
Qed.

End QuotedEssid.

(** ** Lines of the [iwconfig] output *)

Section IwconfigLines.

Import NetworkDetector.

Lemma split_line_step (c : ascii) (t piece : string) :
  split_from (chr newline) 0 piece (String c t)
  = if Ascii.eqb newline c
    then piece :: split_from (chr newline) 0 EmptyString t
    else split_from (chr newline) 0 (piece ++ chr c) t.
Proof.
  cbn [split_from startswith chr]. rewrite startswith_nil, andb_true_r.
  reflexivity.
Qed.

Lemma split_line_head (piece s : string) :
  exists rest_of_line more,
    split_from (chr newline) 0 piece s = (piece ++ rest_of_line) :: more.
Proof.
  revert piece. induction s as [|c s IH]; intros piece.
  - exists EmptyString, []. cbn [split_from]. now rewrite str_app_nil_r.
  - rewrite split_line_step. destruct (Ascii.eqb newline c).
    + exists EmptyString. eexists. now rewrite str_app_nil_r.
    + destruct (IH (piece ++ chr c)) as (r & more & ->).
      exists (String c r), more. now rewrite str_app_assoc.
Qed.

Lemma split_within_line (y piece rest : string) :
  str_in (chr newline) y = false ->
  split_from (chr newline) 0 piece (y ++ rest)
  = split_from (chr newline) 0 (piece ++ y) rest.
Proof.
  revert piece. induction y as [|c y IH]; intros piece Hy.
  - now rewrite str_app_nil_r.
  - rewrite str_in_chr_cons in Hy. apply orb_false_iff in Hy as [Hc Hy].
    change (String c y ++ rest) with (String c (y ++ rest)).
    rewrite split_line_step, Hc, (IH _ Hy), str_app_assoc. reflexivity.
Qed.

Lemma iwconfig_scan_skip (line : string) (rest : list string) :
  str_in essid_open line = false ->
  iwconfig_scan (line :: rest) = iwconfig_scan rest.
Proof.
  intros H. cbn [iwconfig_scan]. rewrite (search_essid_none line H).
  destruct (str_in "ESSID:" line); reflexivity.
Qed.

Lemma iwconfig_scan_none (piece s : string) :
  str_in essid_open (piece ++ s) = false ->
  iwconfig_scan (split_from (chr newline) 0 piece s) = None.
Proof.
  revert piece. induction s as [|c s IH]; intros piece H.
  - rewrite str_app_nil_r in H. cbn [split_from].
    rewrite (iwconfig_scan_skip _ _ H). reflexivity.
  - rewrite split_line_step. destruct (Ascii.eqb newline c).
    + rewrite (iwconfig_scan_skip _ _ (str_in_prefix _ _ _ H)).
      apply (IH EmptyString).
      apply (str_in_suffix essid_open (piece ++ chr c)).
      rewrite str_app_assoc. exact H.
    + apply IH. rewrite str_app_assoc. exact H.
Qed.

Lemma iwconfig_scan_first (piece pre x post : string) :
  str_in essid_open (piece ++ pre ++ "ESSID:") = false ->
  str_in (chr dquote) x = false ->
  str_in (chr newline) x = false ->
  iwconfig_scan
    (split_from (chr newline) 0 piece
       (pre ++ essid_open ++ x ++ chr dquote ++ post))
  = Some x.
Proof.
  intros Hfirst Hq Hnl. revert piece Hfirst.
  induction pre as [|c pre IH]; intros piece Hfirst.
  - cbn [append] in *.
    rewrite <- (str_app_assoc x), <- (str_app_assoc essid_open).
    rewrite split_within_line.
    + destruct (split_line_head (piece ++ essid_open ++ x ++ chr dquote) post)
        as (r & more & ->).
      rewrite !str_app_assoc. cbn [iwconfig_scan].
      rewrite (search_essid_first piece x r Hfirst Hq).
      unfold essid_open at 1. rewrite (str_app_assoc "ESSID:").
      rewrite str_in_middle. reflexivity.
    + rewrite !str_in_chr_app, Hnl. reflexivity.
  - change (String c pre ++ essid_open ++ x ++ chr dquote ++ post)
      with (String c (pre ++ essid_open ++ x ++ chr dquote ++ post)).
    change (String c pre ++ "ESSID:") with (chr c ++ pre ++ "ESSID:") in Hfirst.
    rewrite <- str_app_assoc in Hfirst.
    rewrite split_line_step. destruct (Ascii.eqb newline c).
    + rewrite (iwconfig_scan_skip _ _
                 (str_in_prefix _ _ _ (str_in_prefix _ _ _ Hfirst))).
      apply (IH EmptyString). exact (str_in_suffix _ _ _ Hfirst).
    + apply IH. exact Hfirst.
Qed.

End IwconfigLines.

Lemma quoted_field_normal (pre x post : string) :
  pre ++ "ESSID:" ++ quoted x ++ post
  = pre ++ essid_open ++ x ++ chr dquote ++ post.
Proof.
  unfold quoted, essid_open. now rewrite !str_app_assoc.
Qed.

(** C6, as the code has it.  [_linux_iwconfig] yields the text between the
    quotes of the first quoted ESSID field of the output: when the output
    reads [pre], then ESSID: and [x] in double quotes, then [post], where no
    quoted ESSID field opens earlier and [x] has no double quote and no
    line break, the result is [x], quotes stripped; and when no quoted
    ESSID field occurs in the output at all (as with ESSID:off/any) the
    result is [None]. *)
Theorem iwconfig_first_quoted_essid :
  forall (w : world) (stdout : string),
    subprocess_run w ["iwconfig"] = Ok stdout ->
    (forall pre x post,
        stdout = pre ++ "ESSID:" ++ quoted x ++ post ->
        str_in essid_open (pre ++ "ESSID:") = false ->
        str_in (chr dquote) x = false ->
        str_in (chr newline) x = false ->
        NetworkDetector._linux_iwconfig w = Ok (Some x))
    /\ (str_in essid_open stdout = false ->
        NetworkDetector._linux_iwconfig w = Ok None).
Proof.
  intros w stdout Hrun. unfold NetworkDetector._linux_iwconfig.
  rewrite Hrun. cbn [bind]. unfold split. split.
  - intros pre x post -> Hfirst Hq Hnl.
    rewrite quoted_field_normal.
    rewrite (iwconfig_scan_first EmptyString pre x post Hfirst Hq Hnl).
    reflexivity.
  - intros Hnone.
    rewrite (iwconfig_scan_none EmptyString stdout Hnone). reflexivity.
Qed.

Lemma iwconfig_first_quoted_essid_witness :
  NetworkDetector._linux_iwconfig
    (Sample.iwconfig_host
       ("wlan0     IEEE 802.11  " ++ "ESSID:" ++ quoted "MyNetwork"
        ++ "  " ++ String newline "          Mode:Managed"))
  = Ok (Some "MyNetwork")
  /\ NetworkDetector._linux_iwconfig
       (Sample.iwconfig_host Sample.iwconfig_unassociated)
     = Ok None.
Proof.
  split.
  - apply (proj1 (iwconfig_first_quoted_essid
                    (Sample.iwconfig_host _) _ eq_refl)
             "wlan0     IEEE 802.11  " "MyNetwork"
             ("  " ++ String newline "          Mode:Managed"));
      reflexivity.
  - apply (proj2 (iwconfig_first_quoted_essid
                    (Sample.iwconfig_host Sample.iwconfig_unassociated) _ eq_refl)).
    reflexivity.
Defined.

(** With two associated interfaces the output has a line carrying the
    quoted ESSID MyNetwork, and [_linux_iwconfig] answers with the ESSID
    of the line before it. *)
Lemma iwconfig_later_line_counterexample :
  let w := Sample.iwconfig_host Sample.iwconfig_two_interfaces in
  subprocess_run w ["iwconfig"] = Ok Sample.iwconfig_two_interfaces
  /\ In ("wlan1     IEEE 802.11  ESSID:" ++ quoted "MyNetwork")
        (split Sample.iwconfig_two_interfaces (chr newline))
  /\ NetworkDetector._linux_iwconfig w = Ok (Some "Other")
  /\ NetworkDetector._linux_iwconfig w <> Ok (Some "MyNetwork").
Proof.
  cbv zeta. split; [reflexivity|]. split.
  - vm_compute. right. right. left. reflexivity.
  - split; [vm_compute; reflexivity | vm_compute; discriminate].
Qed.

Example iwconfig_quotes_stripped :
  NetworkDetector.iwconfig_scan ["wlan0  ESSID:" ++ quoted "MyNetwork"]
  = Some "MyNetwork".
Proof. reflexivity. Qed.

Example iwconfig_unquoted_is_absent :
  NetworkDetector.iwconfig_scan ["wlan0     IEEE 802.11  ESSID:off/any  "] = None.
Proof. reflexivity. Qed.

Example iwconfig_unquoted_then_quoted :
  NetworkDetector.iwconfig_scan
    ["wlan0  ESSID:off/any"; "wlan1  ESSID:" ++ quoted "MyNetwork"]
  = Some "MyNetwork".
Proof. reflexivity. Qed.

(** * Further properties of the resolver *)

Lemma in_keys_lookup (d : dict) (k : string) :
  In k (dict_keys d) <-> exists v, dict_lookup d k = Some v.
Proof.
  induction d as [|[k0 v0] d IH]; simpl.
  - split; [intros [] | intros [v H]; discriminate].
  - destruct (String.eqb k k0) eqn:E.
    + apply String.eqb_eq in E. subst k0. split; eauto.
    + apply String.eqb_neq in E. rewrite <- IH. split.
      * intros [H|H]; [congruence | exact H].
      * auto.
Qed.

Lemma unique_key_lookup (d : dict) (k : string) (v : json) :
  NoDup (dict_keys d) -> In (k, v) d -> dict_lookup d k = Some v.
Proof.
  induction d as [|[k0 v0] d IH]; simpl; [intros _ []|].
  intros Hnd Hin. inversion Hnd as [|? ? Hnotin Hnd']; subst.
  destruct Hin as [[= -> ->]|Hin].
  - rewrite String.eqb_refl. reflexivity.
  - destruct (String.eqb k k0) eqn:E.
    + apply String.eqb_eq in E. subst k0. exfalso. apply Hnotin.
      apply (in_map fst) in Hin. exact Hin.
    + auto.
Qed.

(** Whatever branch decides - explicit name, SSID match, default network or
    first profile - the profile returned is the one the mapping stores
    under the returned name. *)
Theorem resolved_profile_is_stored :
  forall (self : NetworkProfileManager.t) (w : world) (cfg networks : dict)
         (network_name : option string) (auto_detect : bool)
         (name : string) (profile : json),
    NetworkProfileManager.load_config self w = Ok (JObj cfg) ->
    dict_lookup cfg "networks" = Some (JObj networks) ->
    NoDup (dict_keys networks) ->
    NetworkProfileManager.get_network_profile self w network_name auto_detect
    = Ok (name, profile) ->
    dict_lookup networks name = Some profile.
Proof.
  intros self w cfg networks network_name auto_detect name profile
         Hload Hnets Hnd.
  destruct (opt_truthy network_name) eqn:Hname.
  - destruct network_name as [X|]; [|discriminate].
    rewrite (named_branch self w cfg _ Hload Hnets X auto_detect Hname).
    cbn [py_in_str bind py_getitem]. unfold dict_mem.
    destruct (dict_lookup networks X) as [p|] eqn:HX; [|discriminate].
    intros [= <- <-]. exact HX.
  - rewrite (unnamed_branch self w cfg _ Hload Hnets network_name auto_detect Hname).
    assert (Hfall : NetworkProfileManager.fall_back (JObj cfg) (JObj networks)
                    = Ok (name, profile) ->
                    dict_lookup networks name = Some profile).
    { destruct networks as [|[name0 profile0] rest]; [discriminate|].
      rewrite fall_back_cases.
      pose proof (dict_lookup_head name0 profile0 rest) as Hhead.
      destruct (dict_lookup cfg "default_network") as [v|].
      - destruct v as [| | | |d| |]; try discriminate;
          try (intros [= <- <-]; exact Hhead).
        destruct (dict_lookup ((name0, profile0) :: rest) d) as [p|] eqn:Hd;
          intros [= <- <-]; assumption.
      - intros [= <- <-]. exact Hhead. }
    destruct auto_detect; [|exact Hfall].
    destruct (NetworkProfileManager.auto_detected self w (JObj networks))
      as [[hit|]|e] eqn:Hauto; cbn [bind]; [| exact Hfall | discriminate].
    intros [= ->]. apply unique_key_lookup; [exact Hnd|].
    apply (auto_detected_in self w _ _ Hauto).
Qed.

Lemma resolved_profile_is_stored_witness :
  dict_lookup Sample.home_work "work"
  = Some (Sample.profile "CorpNet" "http://portal.corp/login").
Proof.
  apply (resolved_profile_is_stored
           (Sample.manager (Sample.linux_on "CorpNet" (Sample.multi (Some "home"))))
           (Sample.linux_on "CorpNet" (Sample.multi (Some "home")))
           [("default_network", JStr "home"); ("networks", JObj Sample.home_work)]
           Sample.home_work None true "work"
           (Sample.profile "CorpNet" "http://portal.corp/login")
           eq_refl eq_refl).
  - repeat constructor; simpl; intuition discriminate.
  - reflexivity.
Defined.

(** [get_available_networks] lists the keys of the mapping, and its
    non-empty names are exactly the names [get_network_profile] accepts as
    an explicit name.  An empty explicit name is not looked up: it resolves
    like no name at all - with [auto_detect] off and no [default_network],
    to the first profile of the mapping - so that a profile stored under
    the empty name is listed and yet is not what passing its name
    selects, unless the resolution without a name ends there. *)
Theorem listed_names_are_the_selectable_ones :
  forall (self : NetworkProfileManager.t) (w : world) (cfg networks : dict)
         (auto_detect : bool),
    NetworkProfileManager.load_config self w = Ok (JObj cfg) ->
    dict_lookup cfg "networks" = Some (JObj networks) ->
    NetworkProfileManager.get_available_networks self w = Ok (dict_keys networks)
    /\ (forall X, str_truthy X = true ->
                  (In X (dict_keys networks) <->
                   exists profile,
                     NetworkProfileManager.get_network_profile self w (Some X)
                       auto_detect = Ok (X, profile)))
    /\ NetworkProfileManager.get_network_profile self w (Some EmptyString)
         auto_detect
       = NetworkProfileManager.get_network_profile self w None auto_detect
    /\ (forall first_name first_profile rest,
           networks = (first_name, first_profile) :: rest ->
           dict_lookup cfg "default_network" = None ->
           NetworkProfileManager.get_network_profile self w (Some EmptyString)
             false
           = Ok (first_name, first_profile)).
Proof.
  intros self w cfg networks auto_detect Hload Hnets.
  split; [|split; [|split]].
  - rewrite (get_available_networks_multi self w cfg Hload _ Hnets). reflexivity.
  - intros X HX.
    rewrite (named_branch self w cfg _ Hload Hnets X auto_detect HX).
    cbn [py_in_str bind py_getitem]. unfold dict_mem.
    rewrite in_keys_lookup.
    destruct (dict_lookup networks X) as [p|]; split.
    + intros _. exists p. reflexivity.
    + eauto.
    + intros [v H]. discriminate.
    + intros [v H]. discriminate.
  - rewrite !(unnamed_branch self w cfg _ Hload Hnets) by reflexivity.
    reflexivity.
  - intros first_name first_profile rest -> Hdefault.
    rewrite (unnamed_branch self w cfg _ Hload Hnets) by reflexivity.
    cbn [bind]. rewrite fall_back_cases, Hdefault. reflexivity.
Qed.

Lemma listed_names_are_the_selectable_ones_witness :
  let networks :=
    [("home", Sample.profile "Home-5G" "http://10.0.0.1/login");
     (EmptyString, Sample.profile "Spare" "http://10.9.9.9/login")] in
  let w := Sample.linux_offline (JObj [("networks", JObj networks)]) in
  NetworkProfileManager.get_available_networks (Sample.manager w) w
  = Ok ["home"; EmptyString]
  /\ NetworkProfileManager.get_network_profile (Sample.manager w) w
       (Some EmptyString) false
     = Ok ("home", Sample.profile "Home-5G" "http://10.0.0.1/login")
  /\ exists profile,
      NetworkProfileManager.get_network_profile (Sample.manager w) w
        (Some "home") false = Ok ("home", profile).
Proof.
  intros networks w.
  destruct (listed_names_are_the_selectable_ones (Sample.manager w) w
              [("networks", JObj networks)] networks false
              eq_refl eq_refl) as (Hnames & Hiff & _ & Hfirst).
  split; [exact Hnames|]. split.
  - apply (Hfirst "home" _ _ eq_refl eq_refl).
  - apply (Hiff "home" eq_refl). simpl. auto.
Defined.

(** The host enters the resolution only through the configuration file and
    the detector's answer: two hosts that agree on both resolve alike, and
    with [auto_detect] off, or with an explicit name, the detector's answer
    does not matter either. *)
Theorem resolution_depends_on_config_and_detection :
  forall (self self' : NetworkProfileManager.t) (w w' : world)
         (network_name : option string) (auto_detect : bool),
    NetworkProfileManager.load_config self w
    = NetworkProfileManager.load_config self' w' ->
    (auto_detect = true -> opt_truthy network_name = false ->
     NetworkDetector.get_current_ssid (NetworkProfileManager.detector self) w
     = NetworkDetector.get_current_ssid (NetworkProfileManager.detector self') w') ->
    NetworkProfileManager.get_network_profile self w network_name auto_detect
    = NetworkProfileManager.get_network_profile self' w' network_name auto_detect.
Proof.
  intros self self' w w' network_name auto_detect Hload Hdet.
  unfold NetworkProfileManager.get_network_profile. rewrite Hload.
  destruct (NetworkProfileManager.load_config self' w') as [config|e];
    [|reflexivity].
  cbn [bind]. destruct (py_in_str "networks" config) as [[|]|e]; try reflexivity.
  cbn [negb bind]. destruct (py_getitem config "networks") as [networks|e];
    [|reflexivity].
  cbn [bind]. destruct network_name as [[|c X]|]; try reflexivity;
    (destruct auto_detect; [|reflexivity];
     unfold NetworkProfileManager.auto_detected;
     rewrite (Hdet eq_refl eq_refl); reflexivity).
Qed.

Lemma resolution_depends_on_config_and_detection_witness :
  let w := Sample.linux_on "Home-5G" (Sample.multi (Some "work")) in
  let w' := Sample.host "Windows" [] (Some (Sample.multi (Some "work"))) in
  NetworkProfileManager.get_network_profile (Sample.manager w) w None false
  = NetworkProfileManager.get_network_profile (Sample.manager w') w' None false.
Proof.
  intros w w'.
  apply (resolution_depends_on_config_and_detection
           (Sample.manager w) (Sample.manager w') w w' None false eq_refl).
  intros H. discriminate H.
Defined.

(** * Further properties of the detector *)

(** ** Stripping *)

Lemma lstrip_head (s : string) (c : ascii) (t : string) :
  lstrip s = String c t -> isspace c = false.
Proof.
  induction s as [|a s IH]; simpl; [discriminate|].
  destruct (isspace a) eqn:E; [exact IH|].
  intros [= <- <-]. exact E.
Qed.

Lemma rstrip_head (c : ascii) (s : string) :
  isspace c = false -> exists t, rstrip (String c s) = String c t.
Proof.
  intros Hc. cbn [rstrip]. destruct (rstrip s); [|eauto].
  rewrite Hc. unfold chr. eauto.
Qed.

Lemma rstrip_last (s t : string) (c : ascii) :
  rstrip s = t ++ chr c -> isspace c = false.
Proof.
  revert t. induction s as [|a s IH]; intros t; cbn [rstrip].
  - destruct t; discriminate.
  - destruct (rstrip s) as [|b r] eqn:Hr.
    + destruct (isspace a) eqn:Ha.
      * destruct t; discriminate.
      * destruct t as [|x [|y t]]; simpl; try discriminate.
        intros [= <-]. exact Ha.
    + destruct t as [|x t]; simpl; [discriminate|].
      intros [= <- Ht]. exact (IH t Ht).
Qed.

Lemma rstrip_idempotent (s : string) : rstrip (rstrip s) = rstrip s.
Proof.
  induction s as [|a s IH]; [reflexivity|].
  cbn [rstrip]. destruct (rstrip s) as [|b r] eqn:Hr.
  - destruct (isspace a) eqn:Ha; [reflexivity|].
    unfold chr. cbn [rstrip]. rewrite Ha. reflexivity.
  - cbn [rstrip] in *. rewrite IH. reflexivity.
Qed.

Lemma strip_head (s : string) (c : ascii) (t : string) :
  strip s = String c t -> isspace c = false.
Proof.
  unfold strip. destruct (lstrip s) as [|a u] eqn:Hl; [discriminate|].
  pose proof (lstrip_head s a u Hl) as Ha.
  destruct (rstrip_head a u Ha) as [t' ->]. intros [= <- _]. exact Ha.
Qed.

Lemma strip_last (s t : string) (c : ascii) :
  strip s = t ++ chr c -> isspace c = false.
Proof. apply rstrip_last. Qed.

Lemma strip_idempotent (s : string) : strip (strip s) = strip s.
Proof.
  unfold strip at 1. destruct (strip s) as [|c t] eqn:Hs; [reflexivity|].
  pose proof (strip_head s c t Hs) as Hc.
  cbn [lstrip]. rewrite Hc, <- Hs. unfold strip. apply rstrip_idempotent.
Qed.

(** ** [iwgetid] *)

(** An SSID that [_linux_iwgetid] yields is the tool's output stripped: it
    is not empty, it neither begins nor ends with a whitespace character,
    and stripping it again changes nothing; an output of whitespace only
    yields [None]. *)
Theorem iwgetid_ssid_is_trimmed :
  forall (w : world),
    (forall s,
        NetworkDetector._linux_iwgetid w = Ok (Some s) ->
        str_truthy s = true
        /\ strip s = s
        /\ (forall c t, s = String c t -> isspace c = false)
        /\ (forall t c, s = t ++ chr c -> isspace c = false)
        /\ exists stdout,
            subprocess_run w ["iwgetid"; "-r"] = Ok stdout /\ s = strip stdout)
    /\ (forall stdout,
           subprocess_run w ["iwgetid"; "-r"] = Ok stdout ->
           strip stdout = EmptyString ->
           NetworkDetector._linux_iwgetid w = Ok None).
Proof.
  intros w. unfold NetworkDetector._linux_iwgetid. split.
  - intros s.
    destruct (subprocess_run w ["iwgetid"; "-r"]) as [stdout|e];
      cbn [bind]; [|discriminate].
    destruct (str_truthy (strip stdout)) eqn:Ht; [|discriminate].
    intros [= <-]. split; [exact Ht|]. split; [apply strip_idempotent|].
    split; [|split].
    + intros c t. apply strip_head.
    + intros t c. apply strip_last.
    + exists stdout. split; reflexivity.
  - intros stdout -> Hs. cbn [bind]. rewrite Hs. reflexivity.
Qed.

Lemma iwgetid_ssid_is_trimmed_witness :
  let w := Sample.linux_on "  Home 5G " Sample.empty_networks in
  NetworkDetector._linux_iwgetid w = Ok (Some "Home 5G")
  /\ str_truthy "Home 5G" = true
  /\ strip "Home 5G" = "Home 5G"
  /\ NetworkDetector._linux_iwgetid
       (Sample.host "Linux" [("iwgetid -r", Ok (chr newline))] None)
     = Ok None.
Proof.
  intros w.
  destruct (proj1 (iwgetid_ssid_is_trimmed w) "Home 5G" eq_refl)
    as (Ht & Hs & _).
  split; [reflexivity|]. split; [exact Ht|]. split; [exact Hs|].
  apply (proj2 (iwgetid_ssid_is_trimmed
                  (Sample.host "Linux" [("iwgetid -r", Ok (chr newline))] None))
           (chr newline)); reflexivity.
Defined.

(** ** Lines *)

Lemma startswith_elim (s p : string) :
  startswith s p = true -> exists r, s = p ++ r.
Proof.
  revert s. induction p as [|c p IH]; intros s H.
  - exists s. reflexivity.
  - destruct s as [|x s]; simpl in H; [discriminate|].
    apply andb_true_iff in H as [Hc Hp]. apply Ascii.eqb_eq in Hc. subst x.
    destruct (IH s Hp) as [r ->]. exists r. reflexivity.
Qed.

Lemma split_last_line (piece x : string) :
  str_in (chr newline) x = false ->
  split_from (chr newline) 0 piece x = [piece ++ x].
Proof.
  intros Hx. rewrite <- (str_app_nil_r x) at 1.
  rewrite (split_within_line x piece EmptyString Hx). reflexivity.
Qed.

(** Splitting the text of newline-free lines gives the lines back. *)
Lemma split_lines_concat (x : string) (ls : list string) (piece : string) :
  Forall (fun l => str_in (chr newline) l = false) (x :: ls) ->
  split_from (chr newline) 0 piece (String.concat (chr newline) (x :: ls))
  = (piece ++ x) :: ls.
Proof.
  revert x piece. induction ls as [|y ls IH]; intros x piece Hall.
  - inversion Hall; subst. cbn [String.concat]. now apply split_last_line.
  - inversion Hall as [|? ? Hx Hrest]; subst.
    change (String.concat (chr newline) (x :: y :: ls))
      with (x ++ chr newline ++ String.concat (chr newline) (y :: ls)).
    rewrite (split_within_line x piece _ Hx).
    change (chr newline ++ String.concat (chr newline) (y :: ls))
      with (String newline (String.concat (chr newline) (y :: ls))).
    rewrite split_line_step, Ascii.eqb_refl, (IH y EmptyString Hrest).
    reflexivity.
Qed.

(** ** [nmcli] *)

Lemma nmcli_active_line (rest : string) :
  py_second (split_once ("yes:" ++ rest) ":"%char) = Ok rest.
Proof. reflexivity. Qed.

Lemma nmcli_scan_total (lines : list string) :
  exists r, NetworkDetector.nmcli_scan lines = Ok r.
Proof.
  induction lines as [|line lines IH]; cbn [NetworkDetector.nmcli_scan].
  - eauto.
  - destruct (startswith line "yes:") eqn:E; [|exact IH].
    destruct (startswith_elim _ _ E) as [rest ->].
    rewrite nmcli_active_line. cbn [bind]. eauto.
Qed.

Lemma nmcli_scan_first (before : list string) (ssid : string) (after : list string) :
  Forall (fun l => startswith l "yes:" = false) before ->
  NetworkDetector.nmcli_scan (before ++ ("yes:" ++ ssid)%string :: after)%list
  = Ok (if str_truthy ssid then Some ssid else None).
Proof.
  induction before as [|l before IH]; intros Hall.
  - cbn [app NetworkDetector.nmcli_scan].
    rewrite startswith_app, nmcli_active_line. reflexivity.
  - inversion Hall as [|? ? Hl Hrest]; subst.
    cbn [app NetworkDetector.nmcli_scan]. rewrite Hl. exact (IH Hrest).
Qed.

(** [_linux_nmcli] raises only when the command does; the first line that
    starts with yes: decides, and its SSID is all that follows the first
    colon, further colons included; when that is empty the result is
    [None], whatever the later lines say. *)
Theorem nmcli_first_active_line_decides :
  forall (w : world) (stdout : string),
    subprocess_run w ["nmcli"; "-t"; "-f"; "active,ssid"; "dev"; "wifi"]
    = Ok stdout ->
    (exists r, NetworkDetector._linux_nmcli w = Ok r)
    /\ (forall before ssid after,
           stdout = String.concat (chr newline)
                      (before ++ ("yes:" ++ ssid)%string :: after)%list ->
           Forall (fun l => str_in (chr newline) l = false)
                  (before ++ ("yes:" ++ ssid)%string :: after)%list ->
           Forall (fun l => startswith l "yes:" = false) before ->
           NetworkDetector._linux_nmcli w
           = Ok (if str_truthy ssid then Some ssid else None)).
Proof.
  intros w stdout Hrun. unfold NetworkDetector._linux_nmcli.
  rewrite Hrun. cbn [bind]. split.
  - apply nmcli_scan_total.
  - intros before ssid after -> Hlines Hbefore. unfold split.
    destruct (before ++ ("yes:" ++ ssid)%string :: after)%list as [|x ls] eqn:E.
    + destruct before; discriminate.
    + rewrite (split_lines_concat x ls EmptyString Hlines).
      cbn [append]. rewrite <- E. apply nmcli_scan_first, Hbefore.
Qed.

Lemma nmcli_first_active_line_decides_witness :
  let stdout :=
    String.concat (chr newline) ["no:Neighbour"; "yes:Cafe:5G"; "yes:Other"; EmptyString] in
  let w := Sample.host "Linux"
             [("nmcli -t -f active,ssid dev wifi", Ok stdout)] None in
  NetworkDetector._linux_nmcli w = Ok (Some "Cafe:5G").
Proof.
  intros stdout w.
  apply (proj2 (nmcli_first_active_line_decides w stdout eq_refl)
           ["no:Neighbour"] "Cafe:5G" ["yes:Other"; EmptyString]).
  - reflexivity.
  - repeat constructor.
  - repeat constructor.
Defined.

(** ** The three mechanisms, in order *)

Lemma nmcli_scan_no_active_line (lines : list string) :
  Forall (fun l => startswith l "yes:" = false) lines ->
  NetworkDetector.nmcli_scan lines = Ok None.
Proof.
  induction 1 as [|l lines Hl _ IH]; cbn [NetworkDetector.nmcli_scan].
  - reflexivity.
  - rewrite Hl. exact IH.
Qed.

Lemma yields_of_truthy (s : string) :
  yields (Ok (if str_truthy s then Some s else None))
  = if str_truthy s then Some s else None.
Proof. destruct (str_truthy s) eqn:E; cbn [yields]; [rewrite E|]; reflexivity. Qed.

(** C5.  On Linux the detector tries [iwgetid], then [nmcli], then
    [iwconfig], in this order, and returns what the first mechanism with a
    non-empty SSID yields; a mechanism that raises or comes back empty is
    passed over, and [None] is returned only when all three yield nothing.
    [iwgetid] yields the stripped output of [iwgetid -r]; [nmcli] yields
    what follows yes: on the first line of [nmcli -t -f active,ssid dev
    wifi] so marked; [iwconfig] yields the text between the quotes of the
    first quoted ESSID field of the output of [iwconfig]. *)
Theorem linux_detection_order :
  forall w : world,
    NetworkDetector.linux_methods
    = [NetworkDetector._linux_iwgetid; NetworkDetector._linux_nmcli;
       NetworkDetector._linux_iwconfig]
    /\ NetworkDetector._get_ssid_linux w
       = Ok (first_of (yields (NetworkDetector._linux_iwgetid w))
                      (yields (NetworkDetector._linux_nmcli w))
                      (yields (NetworkDetector._linux_iwconfig w)))
    /\ NetworkDetector.get_current_ssid {| NetworkDetector.platform := "linux" |} w
       = NetworkDetector._get_ssid_linux w
    /\ (NetworkDetector._get_ssid_linux w = Ok None <->
        yields (NetworkDetector._linux_iwgetid w) = None
        /\ yields (NetworkDetector._linux_nmcli w) = None
        /\ yields (NetworkDetector._linux_iwconfig w) = None)
    /\ yields (NetworkDetector._linux_iwgetid w)
       = match subprocess_run w ["iwgetid"; "-r"] with
         | Ok stdout =>
             if str_truthy (strip stdout) then Some (strip stdout) else None
         | Raise _ => None
         end
    /\ (forall e,
           subprocess_run w ["nmcli"; "-t"; "-f"; "active,ssid"; "dev"; "wifi"]
           = Raise e ->
           yields (NetworkDetector._linux_nmcli w) = None)
    /\ (forall before ssid after,
           subprocess_run w ["nmcli"; "-t"; "-f"; "active,ssid"; "dev"; "wifi"]
           = Ok (String.concat (chr newline)
                   (before ++ ("yes:" ++ ssid)%string :: after)%list) ->
           Forall (fun l => str_in (chr newline) l = false)
                  (before ++ ("yes:" ++ ssid)%string :: after)%list ->
           Forall (fun l => startswith l "yes:" = false) before ->
           yields (NetworkDetector._linux_nmcli w)
           = if str_truthy ssid then Some ssid else None)
    /\ (forall line lines,
           subprocess_run w ["nmcli"; "-t"; "-f"; "active,ssid"; "dev"; "wifi"]
           = Ok (String.concat (chr newline) (line :: lines)) ->
           Forall (fun l => str_in (chr newline) l = false) (line :: lines) ->
           Forall (fun l => startswith l "yes:" = false) (line :: lines) ->
           yields (NetworkDetector._linux_nmcli w) = None)
    /\ (forall e,
           subprocess_run w ["iwconfig"] = Raise e ->
           yields (NetworkDetector._linux_iwconfig w) = None)
    /\ (forall pre x post,
           subprocess_run w ["iwconfig"]
           = Ok (pre ++ "ESSID:" ++ quoted x ++ post) ->
           str_in essid_open (pre ++ "ESSID:") = false ->
           str_in (chr dquote) x = false ->
           str_in (chr newline) x = false ->
           yields (NetworkDetector._linux_iwconfig w)
           = if str_truthy x then Some x else None)
    /\ (forall stdout,
           subprocess_run w ["iwconfig"] = Ok stdout ->
           str_in essid_open stdout = false ->
           yields (NetworkDetector._linux_iwconfig w) = None).
Proof.
  intros w.
  assert (Hloop : NetworkDetector._get_ssid_linux w
                  = Ok (first_of (yields (NetworkDetector._linux_iwgetid w))
                                 (yields (NetworkDetector._linux_nmcli w))
                                 (yields (NetworkDetector._linux_iwconfig w)))).
  { unfold NetworkDetector._get_ssid_linux, NetworkDetector.linux_methods.
    rewrite linux_loop_three. reflexivity. }
  split; [reflexivity|]. split; [exact Hloop|]. split; [reflexivity|].
  split.
  { rewrite Hloop. unfold first_of.
    destruct (yields (NetworkDetector._linux_iwgetid w)),
             (yields (NetworkDetector._linux_nmcli w)),
             (yields (NetworkDetector._linux_iwconfig w));
      split; try discriminate; try reflexivity;
      try (intros (H1 & H2 & H3); discriminate); auto. }
  split.
  { unfold NetworkDetector._linux_iwgetid.
    destruct (subprocess_run w ["iwgetid"; "-r"]) as [stdout|e]; cbn [bind];
      [apply yields_of_truthy | reflexivity]. }
  unfold NetworkDetector._linux_nmcli, NetworkDetector._linux_iwconfig, split.
  split; [intros e ->; reflexivity|].
  split.
  { intros before ssid after -> Hlines Hbefore. cbn [bind].
    destruct (before ++ ("yes:" ++ ssid)%string :: after)%list as [|x ls] eqn:E;
      [destruct before; discriminate|].
    rewrite (split_lines_concat x ls EmptyString Hlines).
    cbn [append]. rewrite <- E, (nmcli_scan_first before ssid after Hbefore).
    apply yields_of_truthy. }
  split.
  { intros line lines -> Hlines Hnone. cbn [bind].
    rewrite (split_lines_concat line lines EmptyString Hlines).
    cbn [append]. rewrite (nmcli_scan_no_active_line _ Hnone). reflexivity. }
  split; [intros e ->; reflexivity|].
  split.
  { intros pre x post -> Hfirst Hq Hnl. cbn [bind].
    rewrite quoted_field_normal.
    rewrite (iwconfig_scan_first EmptyString pre x post Hfirst Hq Hnl).
    cbn [yields]. destruct (str_truthy x); reflexivity. }
  intros stdout -> Hnone. cbn [bind].
  rewrite (iwconfig_scan_none EmptyString stdout Hnone). reflexivity.
Qed.

Lemma linux_detection_order_witness :
  NetworkDetector._get_ssid_linux Sample.last_resort_host = Ok (Some "MyNetwork")
  /\ NetworkDetector._get_ssid_linux Sample.nmcli_host = Ok (Some "CafeWifi").
Proof.
  split.
  - destruct (linux_detection_order Sample.last_resort_host)
      as (_ & Hloop & _ & _ & Hgetid & _ & _ & Hnmcli & _ & Hiwconfig & _).
    rewrite Hloop, Hgetid.
    rewrite (Hnmcli "no:Neighbour" [EmptyString] eq_refl);
      [|repeat constructor|repeat constructor].
    rewrite (Hiwconfig "wlan0     IEEE 802.11  " "MyNetwork" (chr newline));
      reflexivity.
  - destruct (linux_detection_order Sample.nmcli_host)
      as (_ & Hloop & _ & _ & Hgetid & _ & Hnmcli & _).
    rewrite Hloop, Hgetid.
    rewrite (Hnmcli ["no:Neighbour"] "CafeWifi" [EmptyString] eq_refl);
      [reflexivity|repeat constructor|repeat constructor].
Defined.

(** ** The Linux loop *)

(** On Linux a detected SSID is never the empty string, although
    [_linux_iwconfig] alone can return one (from an empty quoted ESSID):
    the loop passes over it. *)
Theorem linux_ssid_is_never_empty :
  forall (w : world) (s : string),
    (NetworkDetector._get_ssid_linux w = Ok (Some s) -> str_truthy s = true)
    /\ (NetworkDetector.get_current_ssid
          {| NetworkDetector.platform := "linux" |} w = Ok (Some s) ->
        str_truthy s = true)
    /\ (forall pre post,
           subprocess_run w ["iwconfig"]
           = Ok (pre ++ "ESSID:" ++ quoted EmptyString ++ post) ->
           str_in essid_open (pre ++ "ESSID:") = false ->
           NetworkDetector._linux_iwconfig w = Ok (Some EmptyString)
           /\ yields (NetworkDetector._linux_iwconfig w) = None).
Proof.
  intros w s.
  assert (H : NetworkDetector._get_ssid_linux w = Ok (Some s) ->
              str_truthy s = true).
  { unfold NetworkDetector._get_ssid_linux, NetworkDetector.linux_methods.
    rewrite linux_loop_three. unfold first_of, yields.
    intros [= H]. revert H.
    destruct (NetworkDetector._linux_iwgetid w) as [[s1|]|e1];
      [destruct (str_truthy s1) eqn:E1; [intros [= <-]; exact E1|]| |];
      (destruct (NetworkDetector._linux_nmcli w) as [[s2|]|e2];
       [destruct (str_truthy s2) eqn:E2; [intros [= <-]; exact E2|]| |];
       (destruct (NetworkDetector._linux_iwconfig w) as [[s3|]|e3];
        [destruct (str_truthy s3) eqn:E3; [intros [= <-]; exact E3|]| |];
        discriminate)). }
  split; [exact H|]. split; [exact H|].
  intros pre post Hrun Hfirst.
  assert (Hscan : NetworkDetector._linux_iwconfig w = Ok (Some EmptyString)).
  { unfold NetworkDetector._linux_iwconfig. rewrite Hrun. cbn [bind].
    unfold split. rewrite quoted_field_normal.
    rewrite (iwconfig_scan_first EmptyString pre EmptyString post Hfirst);
      reflexivity. }
  split; [exact Hscan|]. rewrite Hscan. reflexivity.
Qed.

Lemma linux_ssid_is_never_empty_witness :
  let w := Sample.iwconfig_host ("wlan0  ESSID:" ++ quoted EmptyString) in
  NetworkDetector._linux_iwconfig w = Ok (Some EmptyString)
  /\ yields (NetworkDetector._linux_iwconfig w) = None.
Proof.
  intros w.
  apply (proj2 (proj2 (linux_ssid_is_never_empty w EmptyString))
           "wlan0  " EmptyString); reflexivity.
Defined.

(** ** Windows: the SSID line *)

Section WindowsSsidLine.

Import Re.

Lemma search_inv (p : list item) (s : string) (m : capture) :
  search p s = Some m ->
  exists a b, s = a ++ b /\ match_here p b Unset = Some m.
Proof.
  induction s as [|c s IH]; cbn [search].
  - destruct (match_here p EmptyString Unset) eqn:E; [|discriminate].
    intros [= <-]. exists EmptyString, EmptyString. auto.
  - destruct (match_here p (String c s) Unset) eqn:E.
    + intros [= <-]. exists EmptyString, (String c s). auto.
    + intros H. destruct (IH H) as (a & b & -> & Hm).
      exists (String c a), b. auto.
Qed.

Lemma match_lits_inv (p : string) (r : list item) (s : string) (m : capture) :
  match_here (lits p ++ r)%list s Unset = Some m ->
  exists s', s = p ++ s' /\ match_here r s' Unset = Some m.
Proof.
  intros H. pose proof (match_lits_prefix p r s Unset m H) as Hp.
  destruct (startswith_elim s p Hp) as [s' ->].
  rewrite match_lits_unset in H. eauto.
Qed.

Lemma star_unset_inv (k : cls) (rest : string -> capture -> option capture)
      (s : string) (m : capture) :
  star k rest s Unset = Some m ->
  exists s1 s2, s = s1 ++ s2 /\ rest s2 Unset = Some m.
Proof.
  induction s as [|c s IH]; cbn [star push].
  - intros H. exists EmptyString, EmptyString. auto.
  - destruct (in_cls k c).
    + destruct (star k rest s Unset) as [m'|] eqn:E.
      * intros [= <-]. destruct (IH eq_refl) as (s1 & s2 & -> & H).
        exists (String c s1), s2. auto.
      * intros H. exists EmptyString, (String c s). auto.
    + intros H. exists EmptyString, (String c s). auto.
Qed.

Lemma star_dot_to_line_end (t acc : string) :
  str_in (chr newline) t = false ->
  star Dot (match_here [GroupClose]) t (Opened acc) = Some (Closed (acc ++ t)).
Proof.
  revert acc. induction t as [|c t IH]; intros acc Hnl.
  - cbn. now rewrite str_app_nil_r.
  - rewrite str_in_chr_cons in Hnl. apply orb_false_iff in Hnl as [Hc Ht].
    cbn [star in_cls push]. rewrite Ascii.eqb_sym, Hc. cbn [negb].
    rewrite (IH _ Ht), str_app_assoc. reflexivity.
Qed.

(** A match of the SSID pattern in a text without line breaks captures a
    non-empty end of the text. *)
Lemma ssid_field_capture (t : string) (m : capture) :
  str_in (chr newline) t = false ->
  search ssid_field t = Some m ->
  exists a g, t = a ++ g /\ m = Closed g /\ str_truthy g = true.
Proof.
  intros Hnl Hs.
  destruct (search_inv _ _ _ Hs) as (a & b & -> & Hm).
  change ssid_field
    with (lits "SSID" ++ [Star Space; Lit ":"%char; Star Space;
                          GroupOpen; Plus Dot; GroupClose])%list in Hm.
  destruct (match_lits_inv _ _ _ _ Hm) as (b1 & -> & Hm1).
  cbn [match_here] in Hm1.
  destruct (star_unset_inv _ _ _ _ Hm1) as (w1 & b2 & -> & Hm2).
  destruct b2 as [|c b3]; [discriminate|].
  destruct (Ascii.eqb ":" c); [|discriminate]. cbn [push] in Hm2.
  destruct (star_unset_inv _ _ _ _ Hm2) as (w2 & g & -> & Hm3).
  destruct g as [|x g]; [discriminate|].
  assert (Hg : str_in (chr newline) (String x g) = false).
  { apply (str_in_suffix _ a), (str_in_suffix _ "SSID"),
      (str_in_suffix _ w1), (str_in_suffix _ (chr c)),
      (str_in_suffix _ w2) in Hnl.
    exact Hnl. }
  rewrite str_in_chr_cons in Hg. apply orb_false_iff in Hg as [Hx Hg].
  cbn [in_cls] in Hm3. rewrite Ascii.eqb_sym, Hx in Hm3. cbn [negb push] in Hm3.
  rewrite (star_dot_to_line_end g _ Hg) in Hm3. injection Hm3 as <-.
  exists (a ++ "SSID" ++ w1 ++ String c w2), (String x g).
  split; [|split; reflexivity].
  rewrite !str_app_assoc. reflexivity.
Qed.

End WindowsSsidLine.

Lemma str_last_char (s : string) :
  str_truthy s = true -> exists t c, s = t ++ chr c.
Proof.
  induction s as [|a s IH]; [discriminate|]. intros _.
  destruct s as [|b s].
  - exists EmptyString, a. reflexivity.
  - destruct (IH eq_refl) as (t & c & ->). exists (String a t), c. reflexivity.
Qed.

Lemma rstrip_keeps_last (l : string) (c : ascii) :
  isspace c = false -> rstrip (l ++ chr c) = l ++ chr c.
Proof.
  intros Hc. induction l as [|a l IH].
  - cbn. rewrite Hc. reflexivity.
  - change (String a l ++ chr c) with (String a (l ++ chr c)).
    cbn [rstrip]. rewrite IH. destruct l; reflexivity.
Qed.

Lemma strip_keeps_last (g : string) (c : ascii) :
  isspace c = false -> exists l, strip (g ++ chr c) = l ++ chr c.
Proof.
  intros Hc. unfold strip. induction g as [|a g IH].
  - exists EmptyString. cbn [append chr lstrip]. rewrite Hc.
    cbn [rstrip]. rewrite Hc. reflexivity.
  - change (String a g ++ chr c) with (String a (g ++ chr c)).
    cbn [lstrip]. destruct (isspace a); [exact IH|].
    exists (String a g).
    apply (rstrip_keeps_last (String a g) c Hc).
Qed.

Lemma lstrip_no_char (a : ascii) (s : string) :
  str_in (chr a) s = false -> str_in (chr a) (lstrip s) = false.
Proof.
  induction s as [|c s IH]; [trivial|]. intros H. cbn [lstrip].
  destruct (isspace c); [|exact H].
  rewrite str_in_chr_cons in H. apply orb_false_iff in H as [_ H]. auto.
Qed.

Lemma rstrip_no_char (a : ascii) (s : string) :
  str_in (chr a) s = false -> str_in (chr a) (rstrip s) = false.
Proof.
  induction s as [|c s IH]; [trivial|]. intros H.
  rewrite str_in_chr_cons in H. apply orb_false_iff in H as [Hc Hs].
  specialize (IH Hs). cbn [rstrip]. destruct (rstrip s) as [|b r].
  - destruct (isspace c); [reflexivity|].
    unfold chr at 2. rewrite str_in_chr_cons, Hc. reflexivity.
  - rewrite str_in_chr_cons, Hc, IH. reflexivity.
Qed.

Lemma strip_no_char (a : ascii) (s : string) :
  str_in (chr a) s = false -> str_in (chr a) (strip s) = false.
Proof. intros H. apply rstrip_no_char, lstrip_no_char, H. Qed.

Lemma split_lines_no_newline (s piece : string) :
  str_in (chr newline) piece = false ->
  Forall (fun l => str_in (chr newline) l = false)
         (split_from (chr newline) 0 piece s).
Proof.
  revert piece. induction s as [|c s IH]; intros piece Hp.
  - cbn [split_from]. auto.
  - rewrite split_line_step. destruct (Ascii.eqb newline c) eqn:E.
    + constructor; [exact Hp | apply IH; reflexivity].
    + apply IH. rewrite str_in_chr_app, Hp. unfold chr at 2.
      rewrite str_in_chr_cons, E. reflexivity.
Qed.

Lemma windows_scan_hit (lines : list string) (s : string) :
  NetworkDetector.windows_scan lines = Ok (Some s) ->
  exists line m g,
    In line lines
    /\ Re.search Re.ssid_field (strip line) = Some m
    /\ Re.group1 m = Some g
    /\ s = strip g.
Proof.
  induction lines as [|l lines IH]; cbn [NetworkDetector.windows_scan];
    [discriminate|].
  assert (Hrest : NetworkDetector.windows_scan lines = Ok (Some s) ->
                  exists line m g,
                    In line (l :: lines)
                    /\ Re.search Re.ssid_field (strip line) = Some m
                    /\ Re.group1 m = Some g
                    /\ s = strip g).
  { intros H. destruct (IH H) as (line & m & g & Hin & Hrest).
    exists line, m, g. split; [right; exact Hin | exact Hrest]. }
  destruct (str_in "SSID" l && negb (str_in "BSSID" l)); [|exact Hrest].
  destruct (Re.search Re.ssid_field (strip l)) as [m|] eqn:Hm; [|exact Hrest].
  destruct (Re.group1 m) as [g|] eqn:Hg; cbn [py_strip bind]; [|discriminate].
  intros [= <-]. exists l, m, g. split; [left; reflexivity | auto].
Qed.

(** An SSID that [_get_ssid_windows] returns is never empty and carries no
    whitespace at either end; and it is returned only when both [netsh]
    commands have succeeded, the first one included, whose output is not
    read. *)
Theorem windows_ssid_is_trimmed_and_not_empty :
  forall (w : world) (s : string),
    NetworkDetector._get_ssid_windows w = Ok (Some s) ->
    str_truthy s = true
    /\ strip s = s
    /\ (exists profiles,
           subprocess_run w ["netsh"; "wlan"; "show"; "profiles"] = Ok profiles)
    /\ (exists interfaces,
           subprocess_run w ["netsh"; "wlan"; "show"; "interfaces"]
           = Ok interfaces).
Proof.
  intros w s. unfold NetworkDetector._get_ssid_windows.
  destruct (subprocess_run w ["netsh"; "wlan"; "show"; "profiles"])
    as [profiles|e1]; cbn [bind try_except]; [|discriminate].
  destruct (subprocess_run w ["netsh"; "wlan"; "show"; "interfaces"])
    as [interfaces|e2]; cbn [bind try_except]; [|discriminate].
  destruct (NetworkDetector.windows_scan (split interfaces (chr newline)))
    as [r|e] eqn:Hscan; cbn [try_except]; [|discriminate].
  intros [= ->].
  destruct (windows_scan_hit _ _ Hscan) as (line & m & g & Hin & Hm & Hg & ->).
  assert (Hline : str_in (chr newline) line = false).
  { pose proof (split_lines_no_newline interfaces EmptyString eq_refl) as Hall.
    rewrite Forall_forall in Hall. apply Hall, Hin. }
  destruct (ssid_field_capture _ _ (strip_no_char _ _ Hline) Hm)
    as (a & g' & Ht & -> & Hne).
  injection Hg as ->.
  destruct (str_last_char g Hne) as (g0 & c & ->).
  assert (Hc : isspace c = false).
  { apply (strip_last line (a ++ g0) c). rewrite Ht, str_app_assoc. reflexivity. }
  destruct (strip_keeps_last g0 c Hc) as [l Hl].
  split; [|split; [apply strip_idempotent | split; eauto]].
  rewrite Hl. destruct l; reflexivity.
Qed.

Lemma windows_ssid_is_trimmed_and_not_empty_witness :
  let w := Sample.host "Windows"
             [("netsh wlan show profiles", Ok "Profiles on interface Wi-Fi:");
              ("netsh wlan show interfaces",
               Ok ("    BSSID                  : 00:11:22:33:44:55"
                   ++ String newline "    SSID                   : Home 5G  ")%string)]
             None in
  NetworkDetector._get_ssid_windows w = Ok (Some "Home 5G")
  /\ str_truthy "Home 5G" = true
  /\ strip "Home 5G" = "Home 5G".
Proof.
  intros w.
  destruct (windows_ssid_is_trimmed_and_not_empty w "Home 5G" eq_refl)
    as (Ht & Hs & _).
  split; [reflexivity | split; assumption].
Defined.

(** * wifi_auto_login.py *)

(** ** [extract_message] *)

Section ExtractMessage.

Import ReLazy.

Lemma str_init_last (s : string) :
  str_truthy s = true -> exists c, s = str_init s ++ chr c.
Proof.
  induction s as [|a s IH]; [discriminate|]. intros _.
  destruct s as [|b s].
  - exists a. reflexivity.
  - destruct (IH eq_refl) as [c Hc]. exists c.
    change (str_init (String a (String b s)))
      with (String a (str_init (String b s))).
    cbn [append]. rewrite <- Hc. reflexivity.
Qed.

Lemma str_init_length (s : string) :
  str_truthy s = true -> String.length s = S (String.length (str_init s)).
Proof.
  intros H. destruct (str_init_last s H) as [c Hc]. rewrite Hc at 1.
  rewrite str_length_app. simpl. lia.
Qed.

(** A text that begins inside [a] cannot begin with [sub] when the first
    occurrence of [sub] in [a ++ sub] is at the end of [a]. *)
Lemma no_early_start (sub : string) (c : ascii) (a rest : string) :
  str_truthy sub = true ->
  first_occurrence_after (String c a) sub ->
  startswith (String c a ++ sub ++ rest) sub = false.
Proof.
  intros Hsub Hfirst. unfold first_occurrence_after in Hfirst.
  destruct (startswith (String c a ++ sub ++ rest) sub) eqn:E; [|reflexivity].
  exfalso. destruct (str_init_last sub Hsub) as [l Hl].
  rewrite Hl in E at 1. rewrite (str_app_assoc (str_init sub)) in E.
  rewrite <- (str_app_assoc (String c a)) in E.
  apply startswith_trunc in E.
  - change (String c a ++ str_init sub) with (String c (a ++ str_init sub)) in *.
    rewrite str_in_cons in Hfirst. apply orb_false_iff in Hfirst as [Hs _].
    congruence.
  - rewrite (str_init_length sub Hsub), str_length_app. simpl. lia.
Qed.

Lemma first_occurrence_tail (sub : string) (c : ascii) (a : string) :
  first_occurrence_after (String c a) sub -> first_occurrence_after a sub.
Proof.
  unfold first_occurrence_after.
  change (String c a ++ str_init sub) with (String c (a ++ str_init sub)).
  rewrite str_in_cons. intros H. apply orb_false_iff in H as [_ H]. exact H.
Qed.

Lemma lz_match_lits_prefix (p : string) (r : list item) (s : string)
      (cap m : Re.capture) :
  match_here (lits p ++ r)%list s cap = Some m -> startswith s p = true.
Proof.
  revert s cap. induction p as [|c p IH]; intros s cap.
  - intros _. apply startswith_nil.
  - cbn [lits app match_here]. destruct s as [|c' s]; [discriminate|].
    cbn [startswith]. destruct (Ascii.eqb c c'); [|discriminate].
    intros H. simpl. exact (IH _ _ H).
Qed.

Lemma lz_match_lits (p : string) (r : list item) (s : string) (cap : Re.capture) :
  (forall c, Re.push cap c = cap) ->
  match_here (lits p ++ r)%list (p ++ s) cap = match_here r s cap.
Proof.
  intros Hcap. induction p as [|c p IH]; [reflexivity|].
  cbn [lits app match_here append]. rewrite Ascii.eqb_refl, Hcap. exact IH.
Qed.

Lemma lz_search_none (p : string) (r : list item) (s : string) :
  str_in p s = false -> search (lits p ++ r)%list s = None.
Proof.
  induction s as [|c s IH]; intros H.
  - cbn [search].
    destruct (match_here (lits p ++ r)%list EmptyString Re.Unset) eqn:E;
      [|reflexivity].
    apply lz_match_lits_prefix in E. cbn [str_in] in H.
    rewrite orb_false_r in H. congruence.
  - rewrite str_in_cons in H. apply orb_false_iff in H as [Hs Hin].
    cbn [search].
    destruct (match_here (lits p ++ r)%list (String c s) Re.Unset) eqn:E.
    + apply lz_match_lits_prefix in E. congruence.
    + auto.
Qed.

Lemma lz_search_first (p : string) (r : list item) (a rest : string)
      (m : Re.capture) :
  str_truthy p = true ->
  first_occurrence_after a p ->
  match_here (lits p ++ r)%list (p ++ rest) Re.Unset = Some m ->
  search (lits p ++ r)%list (a ++ p ++ rest) = Some m.
Proof.
  intros Hp Hfirst Hm. induction a as [|c a IH].
  - cbn [append]. destruct (p ++ rest); cbn [search]; rewrite Hm; reflexivity.
  - change (String c a ++ p ++ rest) with (String c (a ++ p ++ rest)).
    cbn [search].
    destruct (match_here (lits p ++ r)%list (String c (a ++ p ++ rest)) Re.Unset)
      eqn:E.
    + apply lz_match_lits_prefix in E.
      change (String c (a ++ p ++ rest)) with (String c a ++ p ++ rest) in E.
      rewrite (no_early_start p c a rest Hp Hfirst) in E. discriminate.
    + apply IH. exact (first_occurrence_tail p c a Hfirst).
Qed.

Lemma lazy_star_eq (k : Re.cls) (rest : string -> Re.capture -> option Re.capture)
      (s : string) (cap : Re.capture) :
  lazy_star k rest s cap
  = match rest s cap with
    | Some m => Some m
    | None =>
        match s with
        | EmptyString => None
        | String c t =>
            if Re.in_cls k c then lazy_star k rest t (Re.push cap c) else None
        end
    end.
Proof. destruct s; reflexivity. Qed.

(** The reluctant run stops at the first closing. *)
Lemma lazy_star_until (close_s m post acc : string) :
  str_truthy close_s = true ->
  str_in (chr newline) m = false ->
  first_occurrence_after m close_s ->
  lazy_star Re.Dot (match_here (GroupClose :: lits close_s))
            (m ++ close_s ++ post) (Re.Opened acc)
  = Some (Re.Closed (acc ++ m)).
Proof.
  intros Hclose.
  set (R := match_here (GroupClose :: lits close_s)).
  assert (HR : forall s cap,
             R s cap = match_here (lits close_s ++ [])%list s (Re.close cap)).
  { intros s cap. subst R. now rewrite app_nil_r. }
  revert acc. induction m as [|c m IH]; intros acc Hnl Hfirst.
  - rewrite lazy_star_eq, HR. cbn [append Re.close].
    rewrite lz_match_lits by reflexivity.
    cbn [match_here]. now rewrite str_app_nil_r.
  - rewrite str_in_chr_cons in Hnl. apply orb_false_iff in Hnl as [Hc Hm].
    rewrite lazy_star_eq, HR.
    destruct (match_here (lits close_s ++ [])%list
                (String c m ++ close_s ++ post) (Re.close (Re.Opened acc))) eqn:E.
    + apply lz_match_lits_prefix in E.
      rewrite (no_early_start close_s c m post Hclose Hfirst) in E. discriminate.
    + change (String c m ++ close_s ++ post)
        with (String c (m ++ close_s ++ post)).
      cbn [Re.in_cls Re.push]. rewrite Ascii.eqb_sym, Hc. cbn [negb].
      rewrite (IH (acc ++ chr c) Hm (first_occurrence_tail close_s c m Hfirst)).
      now rewrite str_app_assoc.
Qed.

End ExtractMessage.

(** [extract_message] returns the text between the first opening of a
    message element and the first closing after it, when that text has no
    line break; and when the answer has no such opening it returns the
    words Unknown response. *)
Theorem extract_message_first_cdata :
  forall text : string,
    (forall pre message post,
        text = pre ++ WifiAutoLogin.message_open ++ message
               ++ WifiAutoLogin.message_close ++ post ->
        first_occurrence_after pre WifiAutoLogin.message_open ->
        first_occurrence_after message WifiAutoLogin.message_close ->
        str_in (chr newline) message = false ->
        WifiAutoLogin.extract_message text = Some message)
    /\ (str_in WifiAutoLogin.message_open text = false ->
        WifiAutoLogin.extract_message text = Some "Unknown response").
Proof.
  intros text. unfold WifiAutoLogin.extract_message, WifiAutoLogin.message_pattern.
  split.
  - intros pre message post -> Hopen Hclose Hnl.
    rewrite (lz_search_first WifiAutoLogin.message_open _ pre _
               (Re.Closed message) eq_refl Hopen); [reflexivity|].
    rewrite lz_match_lits by reflexivity.
    cbn [app ReLazy.match_here].
    apply (lazy_star_until WifiAutoLogin.message_close message post EmptyString
             eq_refl Hnl Hclose).
  - intros Hnone. rewrite (lz_search_none _ _ _ Hnone). reflexivity.
Qed.

Lemma extract_message_first_cdata_witness :
  WifiAutoLogin.extract_message
    ("<requestresponse><status>LIVE</status>"
     ++ "<message><![CDATA[" ++ "You are signed in as {username}"
     ++ "]]></message>" ++ "</requestresponse>")
  = Some "You are signed in as {username}"
  /\ WifiAutoLogin.extract_message "<html>Bad gateway</html>"
     = Some "Unknown response".
Proof.
  split.
  - apply (proj1 (extract_message_first_cdata _)
             "<requestresponse><status>LIVE</status>"
             "You are signed in as {username}" "</requestresponse>");
      reflexivity.
  - apply (proj2 (extract_message_first_cdata "<html>Bad gateway</html>")).
    reflexivity.
Defined.

Section MultilineMessage.

Import ReLazy.

Lemma startswith_before_char (p u : string) (c : ascii) (v : string) :
  str_in (chr c) p = false ->
  startswith (u ++ String c v) p = true ->
  startswith u p = true.
Proof.
  revert u. induction p as [|x p IH]; intros u Hp H.
  - apply startswith_nil.
  - rewrite str_in_chr_cons in Hp. apply orb_false_iff in Hp as [Hx Hp].
    destruct u as [|y u]; cbn [append startswith] in *.
    + rewrite Ascii.eqb_sym, Hx in H. discriminate.
    + apply andb_true_iff in H as [Hy H]. rewrite Hy. cbn [andb]. auto.
Qed.

Lemma lazy_star_blocked (close_s part rest acc : string) :
  str_truthy close_s = true ->
  str_in (chr newline) close_s = false ->
  str_in (chr newline) part = false ->
  str_in close_s part = false ->
  lazy_star Re.Dot (match_here (GroupClose :: lits close_s))
            (part ++ String newline rest) (Re.Opened acc)
  = None.
Proof.
  intros Hclose Hcnl.
  set (R := match_here (GroupClose :: lits close_s)).
  assert (HR : forall s cap,
             R s cap = match_here (lits close_s ++ [])%list s (Re.close cap)).
  { intros s cap. subst R. now rewrite app_nil_r. }
  assert (Hrest : forall u cap,
             str_in close_s u = false -> R (u ++ String newline rest) cap = None).
  { intros u cap Hu. rewrite HR.
    destruct (match_here (lits close_s ++ [])%list (u ++ String newline rest)
                (Re.close cap)) eqn:E; [|reflexivity].
    apply lz_match_lits_prefix in E.
    apply (startswith_before_char close_s u newline rest Hcnl) in E.
    apply str_in_starts in E. congruence. }
  revert acc. induction part as [|c part IH]; intros acc Hnl Hin.
  - rewrite lazy_star_eq, (Hrest EmptyString _ Hin).
    cbn [append Re.in_cls]. rewrite Ascii.eqb_refl. reflexivity.
  - rewrite lazy_star_eq, (Hrest (String c part) _ Hin).
    rewrite str_in_chr_cons in Hnl. apply orb_false_iff in Hnl as [Hc Hnl].
    rewrite str_in_cons in Hin. apply orb_false_iff in Hin as [_ Hin].
    change (String c part ++ String newline rest)
      with (String c (part ++ String newline rest)).
    cbn [Re.in_cls Re.push]. rewrite Ascii.eqb_sym, Hc. cbn [negb].
    apply IH; assumption.
Qed.

Lemma lz_search_skip (p : string) (r : list item) (a rest : string) :
  str_truthy p = true ->
  first_occurrence_after a p ->
  search (lits p ++ r)%list (a ++ p ++ rest)
  = search (lits p ++ r)%list (p ++ rest).
Proof.
  intros Hp Hfirst. induction a as [|c a IH]; [reflexivity|].
  change (String c a ++ p ++ rest) with (String c (a ++ p ++ rest)).
  cbn [search].
  destruct (match_here (lits p ++ r)%list (String c (a ++ p ++ rest)) Re.Unset)
    eqn:E.
  - apply lz_match_lits_prefix in E.
    change (String c (a ++ p ++ rest)) with (String c a ++ p ++ rest) in E.
    rewrite (no_early_start p c a rest Hp Hfirst) in E. discriminate.
  - apply IH. exact (first_occurrence_tail p c a Hfirst).
Qed.

End MultilineMessage.

(** A message broken over two lines is not extracted: when the only
    opening of a message element is followed by a line break before any
    closing, [extract_message] answers Unknown response. *)
Theorem extract_message_misses_a_broken_line :
  forall pre part rest : string,
    first_occurrence_after pre WifiAutoLogin.message_open ->
    str_in WifiAutoLogin.message_open
           (str_tail WifiAutoLogin.message_open ++ part ++ String newline rest)
    = false ->
    str_in (chr newline) part = false ->
    str_in WifiAutoLogin.message_close part = false ->
    WifiAutoLogin.extract_message
      (pre ++ WifiAutoLogin.message_open ++ part ++ String newline rest)
    = Some "Unknown response".
Proof.
  intros pre part rest Hfirst Hlater Hnl Hclose.
  unfold WifiAutoLogin.extract_message, WifiAutoLogin.message_pattern.
  rewrite (lz_search_skip WifiAutoLogin.message_open _ pre _ eq_refl Hfirst).
  assert (Hhere : ReLazy.match_here
                    (ReLazy.lits WifiAutoLogin.message_open
                     ++ [ReLazy.GroupOpen; ReLazy.LazyStar Re.Dot; ReLazy.GroupClose]
                     ++ ReLazy.lits WifiAutoLogin.message_close)%list
                    (WifiAutoLogin.message_open ++ part ++ String newline rest)
                    Re.Unset = None).
  { rewrite lz_match_lits by reflexivity. cbn [app ReLazy.match_here].
    apply (lazy_star_blocked WifiAutoLogin.message_close part rest EmptyString);
      auto. }
  change (WifiAutoLogin.message_open ++ part ++ String newline rest)
    with (String "<" (str_tail WifiAutoLogin.message_open
                      ++ part ++ String newline rest)) in *.
  cbn [ReLazy.search]. rewrite Hhere.
  rewrite (lz_search_none _ _ _ Hlater). reflexivity.
Qed.

Lemma extract_message_misses_a_broken_line_witness :
  WifiAutoLogin.extract_message
    ("<message><![CDATA[" ++ "Login failed:"
     ++ String newline " wrong password]]></message>")
  = Some "Unknown response".
Proof.
  apply (extract_message_misses_a_broken_line
           EmptyString "Login failed:" " wrong password]]></message>");
    reflexivity.
Defined.

(** ** [wifi_login] *)

Lemma holds_config_manager (w : world) (config : json) :
  holds_config w config ->
  NetworkProfileManager.load_config
    (NetworkProfileManager.__init__ w "config.json") w = Ok config.
Proof.
  intros [Hex Hload]. unfold NetworkProfileManager.load_config.
  cbn [NetworkProfileManager.config_path NetworkProfileManager.__init__].
  rewrite Hex. exact Hload.
Qed.

Lemma holds_config_script (w : world) (config : json) :
  holds_config w config -> WifiAutoLogin.load_config w = Ok config.
Proof.
  intros [Hex Hload]. unfold WifiAutoLogin.load_config, WifiAutoLogin.CONFIG_PATH.
  rewrite Hex. exact Hload.
Qed.

(** On a legacy configuration the multi-network path of [wifi_login] and
    its fallback path for a missing [network_utils] do the same: the same
    settings or the same [KeyError], hence the same request and the same
    logged row. *)
Theorem wifi_login_paths_agree_on_legacy :
  forall (w : world) (cfg : dict) (network_name : option string),
    holds_config w (JObj cfg) ->
    dict_lookup cfg "networks" = None ->
    WifiAutoLogin.login_settings_of w true network_name
    = WifiAutoLogin.login_settings_of w false network_name
    /\ forall a_value now post,
        WifiAutoLogin.wifi_login w true a_value now post network_name
        = WifiAutoLogin.wifi_login w false a_value now post network_name.
Proof.
  intros w cfg network_name Hcfg Hleg.
  assert (H : WifiAutoLogin.login_settings_of w true network_name
              = WifiAutoLogin.login_settings_of w false network_name).
  { unfold WifiAutoLogin.login_settings_of.
    rewrite (legacy_branch _ w cfg (holds_config_manager w _ Hcfg) Hleg).
    rewrite (holds_config_script w _ Hcfg).
    unfold NetworkProfileManager.legacy_profile.
    cbn [bind py_get py_getitem].
    destruct (dict_lookup cfg "ssid"), (dict_lookup cfg "wifi_url"),
      (dict_lookup cfg "username"), (dict_lookup cfg "password"),
      (dict_lookup cfg "product_type"); reflexivity. }
  split; [exact H|].
  intros a_value now post. unfold WifiAutoLogin.wifi_login. rewrite H. reflexivity.
Qed.

Lemma wifi_login_paths_agree_on_legacy_witness :
  let w := Sample.host "Linux" [] (Some (JObj Sample.legacy_fields)) in
  WifiAutoLogin.login_settings_of w true (Some "work")
  = WifiAutoLogin.login_settings_of w false (Some "work").
Proof.
  intros w.
  apply (wifi_login_paths_agree_on_legacy w Sample.legacy_fields (Some "work"));
    [split; reflexivity | reflexivity].
Defined.



(** The resolver hands out a profile as it is stored: one that lacks a
    required field is returned by [get_network_profile] and only
    [wifi_login] fails on it, with the [KeyError] of a required field and
    before any request. *)
Theorem incomplete_profile_fails_at_login :
  forall (w : world) (cfg networks p : dict) (X k a_value now : string)
         (post : json -> dict -> WifiAutoLogin.http_answer),
    holds_config w (JObj cfg) ->
    dict_lookup cfg "networks" = Some (JObj networks) ->
    str_truthy X = true ->
    dict_lookup networks X = Some (JObj p) ->
    In k required_fields ->
    dict_lookup p k = None ->
    NetworkProfileManager.get_network_profile
      (NetworkProfileManager.__init__ w "config.json") w (Some X) true
    = Ok (X, JObj p)
    /\ exists k',
        In k' required_fields
        /\ WifiAutoLogin.wifi_login w true a_value now post (Some X)
           = WifiAutoLogin.ConfigurationFailed (KeyError k').
Proof.
  intros w cfg networks p X k a_value now post Hcfg Hnets HX Hp Hk Hnone.
  assert (Hres : NetworkProfileManager.get_network_profile
                   (NetworkProfileManager.__init__ w "config.json") w (Some X) true
                 = Ok (X, JObj p)).
  { rewrite (named_branch _ w cfg _ (holds_config_manager w _ Hcfg) Hnets X true HX).
    cbn [py_in_str bind py_getitem]. unfold dict_mem. rewrite Hp. reflexivity. }
  split; [exact Hres|].
  unfold WifiAutoLogin.wifi_login, WifiAutoLogin.login_settings_of.
  rewrite Hres. cbn [bind snd fst py_get py_getitem].
  destruct (dict_lookup p "ssid"); cbn [bind];
    (destruct (dict_lookup p "wifi_url") eqn:Hu;
     [|exists "wifi_url"; split; [simpl; auto | reflexivity]];
     cbn [bind];
     destruct (dict_lookup p "username") eqn:Hn;
     [|exists "username"; split; [simpl; auto | reflexivity]];
     cbn [bind];
     destruct (dict_lookup p "password") eqn:Hpw;
     [|exists "password"; split; [simpl; auto | reflexivity]];
     exfalso; simpl in Hk;
     destruct Hk as [<-|[<-|[<-|[]]]]; congruence).
Qed.

Lemma incomplete_profile_fails_at_login_witness :
  let config :=
    JObj [("networks",
           JObj [("guest", JObj [("ssid", JStr "Guest");
                                 ("wifi_url", JStr "http://10.1.1.1/login")])])] in
  let w := Sample.host "Linux" [] (Some config) in
  exists k',
    In k' required_fields
    /\ WifiAutoLogin.wifi_login w true "1700000000" "2023-11-14 22:13:20"
         (fun _ _ => WifiAutoLogin.Response 200 EmptyString) (Some "guest")
       = WifiAutoLogin.ConfigurationFailed (KeyError k').
Proof.
  intros config w.
  apply (incomplete_profile_fails_at_login w
           [("networks",
             JObj [("guest", JObj [("ssid", JStr "Guest");
                                   ("wifi_url", JStr "http://10.1.1.1/login")])])]
           [("guest", JObj [("ssid", JStr "Guest");
                            ("wifi_url", JStr "http://10.1.1.1/login")])]
           [("ssid", JStr "Guest"); ("wifi_url", JStr "http://10.1.1.1/login")]
           "guest" "username").
  - split; reflexivity.
  - reflexivity.
  - reflexivity.
  - reflexivity.
  - simpl; auto.
  - reflexivity.
Defined.

(** ** The setup wizard *)

Lemma dict_mem_set (d : dict) (k k' : string) (v : json) :
  dict_mem (dict_set d k v) k' = String.eqb k' k || dict_mem d k'.
Proof.
  unfold dict_mem. rewrite dict_lookup_set.
  destruct (String.eqb k' k); reflexivity.
Qed.

Lemma dict_mem_in_keys (d : dict) (k : string) :
  dict_mem d k = true <-> In k (dict_keys d).
Proof. rewrite dict_mem_true, in_keys_lookup. reflexivity. Qed.

Lemma dict_set_nodup (d : dict) (k : string) (v : json) :
  NoDup (dict_keys d) -> NoDup (dict_keys (dict_set d k v)).
Proof.
  induction d as [|[k0 v0] d IH]; cbn [dict_set dict_keys map fst].
  - intros _. constructor; [intros [] | constructor].
  - intros Hnd. inversion Hnd as [|? ? Hnotin Hnd']; subst.
    destruct (String.eqb k k0) eqn:E; cbn [dict_keys map fst].
    + constructor; assumption.
    + constructor; [|exact (IH Hnd')].
      intros Hin. apply dict_mem_in_keys in Hin. rewrite dict_mem_set in Hin.
      apply orb_true_iff in Hin as [Hin|Hin].
      * rewrite String.eqb_sym in Hin. congruence.
      * apply dict_mem_in_keys in Hin. exact (Hnotin Hin).
Qed.

Lemma dict_set_forallb (P : json -> bool) (d : dict) (k : string) (v : json) :
  forallb (fun kv => P (snd kv)) d = true ->
  P v = true ->
  forallb (fun kv => P (snd kv)) (dict_set d k v) = true.
Proof.
  intros Hd Hv. induction d as [|[k0 v0] d IH]; cbn [dict_set forallb snd].
  - rewrite Hv. reflexivity.
  - cbn [forallb snd] in Hd. apply andb_true_iff in Hd as [H0 Hd].
    destruct (String.eqb k k0); cbn [forallb snd].
    + rewrite Hv. exact Hd.
    + rewrite H0. exact (IH Hd).
Qed.

Lemma dict_set_not_empty (d : dict) (k : string) (v : json) :
  dict_set d k v <> [].
Proof.
  destruct d as [|[k0 v0] d]; cbn [dict_set]; [discriminate|].
  destruct (String.eqb k k0); discriminate.
Qed.

Section WizardLoop.

Variable title : string -> string.

Lemma profile_loop_keeps_invariant (n : nat) :
  forall answers networks default_network networks' default_network' unread,
    List.length answers <= n ->
    loop_invariant networks default_network ->
    WifiAutoLogin.profile_loop title answers networks default_network
    = Some (networks', default_network', unread) ->
    loop_invariant networks' default_network'.
Proof.
  induction n as [|n IH];
    intros answers networks default networks' default' unread Hlen Hinv.
  - destruct answers; [discriminate | simpl in Hlen; lia].
  - destruct answers as [|a_name rest]; [discriminate|].
    cbn [WifiAutoLogin.profile_loop].
    destruct (str_truthy (strip a_name)) eqn:Hname; cbn [negb].
    + destruct rest as [|a1 [|a2 [|a3 [|a4 [|a5 [|a6 [|a7 rest]]]]]]];
        try discriminate.
      set (profile := JObj _).
      set (default1 := if opt_truthy default then default
                       else Some (strip a_name)).
      assert (Hinv1 : loop_invariant
                        (dict_set networks (strip a_name) profile) default1).
      { destruct Hinv as (Hnd & Hall & Hdef).
        split; [apply dict_set_nodup, Hnd|].
        split; [apply dict_set_forallb; [exact Hall | reflexivity]|].
        subst default1. destruct default as [d|]; cbn [opt_truthy].
        - destruct Hdef as [Hd Hmem]. rewrite Hd. split; [exact Hd|].
          rewrite dict_mem_set, Hmem. apply orb_true_r.
        - split; [exact Hname|].
          rewrite dict_mem_set, String.eqb_refl. reflexivity. }
      destruct (String.eqb (lower (strip a7)) "y"
                || String.eqb (lower (strip a7)) "yes").
      * apply IH; [simpl in Hlen; lia | exact Hinv1].
      * intros [= <- <- <-]. exact Hinv1.
    + intros [= <- <- <-]. exact Hinv.
Qed.

Lemma profile_loop_from_scratch (answers : list string) (networks : dict)
      (default_network : option string) (unread : list string) :
  WifiAutoLogin.profile_loop title answers [] None
  = Some (networks, default_network, unread) ->
  loop_invariant networks default_network.
Proof.
  apply (profile_loop_keeps_invariant (List.length answers)); [lia|].
  split; [constructor | split; reflexivity].
Qed.

End WizardLoop.

Lemma complete_profile_is_record (v : json) :
  is_complete_profile v = true -> is_record v = true.
Proof. destruct v; simpl; congruence. Qed.

Lemma forallb_complete_records (networks : dict) :
  forallb (fun kv => is_complete_profile (snd kv)) networks = true ->
  forallb (fun kv => is_record (snd kv)) networks = true.
Proof.
  induction networks as [|[k v] rest IH]; cbn [forallb snd]; [reflexivity|].
  intros H. apply andb_true_iff in H as [Hv Hrest].
  rewrite (complete_profile_is_record v Hv). auto.
Qed.

(** Without an explicit name the resolution of a well-typed, non-empty
    mapping ends with one of its entries. *)
Lemma unnamed_resolution_succeeds
      (self : NetworkProfileManager.t) (w : world) (cfg networks : dict)
      (network_name : option string) (auto_detect : bool) :
  NetworkProfileManager.load_config self w = Ok (JObj cfg) ->
  dict_lookup cfg "networks" = Some (JObj networks) ->
  networks <> [] ->
  forallb (fun kv => is_record (snd kv)) networks = true ->
  (forall v, dict_lookup cfg "default_network" = Some v -> hashable v = true) ->
  opt_truthy network_name = false ->
  exists name profile,
    NetworkProfileManager.get_network_profile self w network_name auto_detect
    = Ok (name, profile)
    /\ In (name, profile) networks.
Proof.
  intros Hload Hnets Hne Hrec Hhash Hname.
  rewrite (unnamed_branch self w cfg _ Hload Hnets network_name auto_detect Hname).
  assert (Hfall : exists name profile,
             NetworkProfileManager.fall_back (JObj cfg) (JObj networks)
             = Ok (name, profile)
             /\ In (name, profile) networks).
  { destruct networks as [|[name0 profile0] rest]; [contradiction|].
    rewrite fall_back_cases.
    destruct (dict_lookup cfg "default_network") as [v|] eqn:Hd.
    - specialize (Hhash v eq_refl).
      destruct v as [| | | |d| |]; try discriminate;
        try (exists name0, profile0; split; [reflexivity | left; reflexivity]).
      destruct (dict_lookup ((name0, profile0) :: rest) d) as [p|] eqn:Hp.
      + exists d, p. split; [reflexivity | apply dict_lookup_in, Hp].
      + exists name0, profile0. split; [reflexivity | left; reflexivity].
    - exists name0, profile0. split; [reflexivity | left; reflexivity]. }
  destruct auto_detect; [|exact Hfall].
  destruct (detector_total (NetworkProfileManager.detector self) w)
    as [detected Hdet].
  rewrite (auto_detected_records self w networks detected Hdet Hrec).
  cbn [bind]. destruct (ssid_match detected networks) as [[name profile]|] eqn:Hm;
    [|exact Hfall].
  exists name, profile. split; [reflexivity|].
  unfold ssid_match in Hm. destruct detected as [s|]; [|discriminate].
  destruct (str_truthy s); [|discriminate].
  apply find_some in Hm. exact (proj1 Hm).
Qed.

Lemma complete_profile_settings (name : string) (profile : json) :
  is_complete_profile profile = true ->
  exists settings,
    (ssid <- py_get profile "ssid" (JStr "Unknown");;
     url <- py_getitem profile "wifi_url";;
     username <- py_getitem profile "username";;
     password <- py_getitem profile "password";;
     product_type <- py_get profile "product_type" (JStr "0");;
     Ok {| WifiAutoLogin.URL := url; WifiAutoLogin.USERNAME := username;
           WifiAutoLogin.PASSWORD := password;
           WifiAutoLogin.PRODUCT_TYPE := product_type;
           WifiAutoLogin.network_profile_name := name;
           WifiAutoLogin.network_ssid := ssid |})
    = Ok settings.
Proof.
  destruct profile as [| | | | | |p]; try discriminate.
  cbn [is_complete_profile py_get py_getitem]. unfold dict_mem.
  destruct (dict_lookup p "wifi_url"); [|discriminate].
  destruct (dict_lookup p "username"); [|discriminate].
  destruct (dict_lookup p "password"); [|discriminate].
  intros _. destruct (dict_lookup p "ssid"), (dict_lookup p "product_type");
    cbn [bind]; eauto.
Qed.

Lemma setup_multi_network_cases :
  forall (title : string -> string) (answers unread : list string)
         (config : json),
    WifiAutoLogin.setup_multi_network title answers
    = WifiAutoLogin.Saved config unread ->
    (exists more, WifiAutoLogin.setup_single_network more
                  = WifiAutoLogin.Saved config unread)
    \/ (exists d networks,
           config = WifiAutoLogin.multi_config (Some d) networks
           /\ multi_profile config networks
           /\ dict_mem networks d = true
           /\ NoDup (dict_keys networks)
           /\ forallb (fun kv => is_complete_profile (snd kv)) networks = true).
Proof.
  intros title answers unread config. unfold WifiAutoLogin.setup_multi_network.
  destruct (WifiAutoLogin.profile_loop title answers [] None)
    as [[[networks default] rest]|] eqn:Hloop; [|discriminate].
  destruct (profile_loop_from_scratch title _ _ _ _ Hloop) as (Hnd & Hall & Hdef).
  assert (Hshape : forall d,
             dict_mem networks d = true -> networks <> [] ->
             exists d0 networks0,
               WifiAutoLogin.multi_config (Some d) networks
               = WifiAutoLogin.multi_config (Some d0) networks0
               /\ multi_profile (WifiAutoLogin.multi_config (Some d) networks)
                                networks0
               /\ dict_mem networks0 d0 = true
               /\ NoDup (dict_keys networks0)
               /\ forallb (fun kv => is_complete_profile (snd kv)) networks0
                  = true).
  { intros d Hd Hne. exists d, networks. split; [reflexivity|].
    split; [|auto].
    eexists. split; [reflexivity|]. split; [reflexivity|].
    split; [exact Hne | apply forallb_complete_records, Hall]. }
  destruct networks as [|first [|second more]].
  - intros H. left. exists rest. exact H.
  - intros [= <- <-]. right.
    destruct default as [d|]; [|discriminate].
    apply Hshape; [exact (proj2 Hdef) | discriminate].
  - destruct rest as [|a_choice rest']; [discriminate|].
    intros [= <- <-]. right.
    destruct (dict_mem (first :: second :: more) (strip a_choice)) eqn:Hchoice.
    + apply Hshape; [exact Hchoice | discriminate].
    + destruct default as [d|]; [|discriminate].
      apply Hshape; [exact (proj2 Hdef) | discriminate].
Qed.

(** A configuration that [setup_multi_network] saves is either the legacy
    one of [setup_single_network] (no profile was entered) or a
    multi-profile one whose mapping is not empty, has distinct names and
    complete profiles, and whose [default_network] is one of its names. *)
Theorem multi_wizard_saves_a_resolvable_configuration :
  forall (title : string -> string) (answers unread : list string)
         (config : json),
    WifiAutoLogin.setup_multi_network title answers
    = WifiAutoLogin.Saved config unread ->
    (exists more, WifiAutoLogin.setup_single_network more
                  = WifiAutoLogin.Saved config unread)
    \/ (exists d networks,
           config = WifiAutoLogin.multi_config (Some d) networks
           /\ multi_profile config networks
           /\ dict_mem networks d = true
           /\ NoDup (dict_keys networks)
           /\ forallb (fun kv => is_complete_profile (snd kv)) networks = true).
Proof. exact setup_multi_network_cases. Qed.

Lemma multi_wizard_saves_a_resolvable_configuration_witness :
  let answers :=
    [" home "; "Home-5G"; "http://10.0.0.1/login"; "alice"; "secret";
     EmptyString; EmptyString; "Y";
     "work"; "CorpNet"; "http://portal.corp/login"; "alice"; "hunter2"; "1"; "Office";
     "n"; "work"] in
  exists d networks,
    WifiAutoLogin.setup_multi_network (fun s => s) answers
    = WifiAutoLogin.Saved (WifiAutoLogin.multi_config (Some d) networks) []
    /\ dict_mem networks d = true
    /\ dict_keys networks = ["home"; "work"].
Proof.
  intros answers.
  destruct (multi_wizard_saves_a_resolvable_configuration
              (fun s => s) answers [] _ eq_refl)
    as [[more Hsingle]|(d & networks & Hcfg & _ & Hd & _)].
  - exfalso. destruct more as [|? [|? [|? [|? ?]]]]; discriminate Hsingle.
  - injection Hcfg as Hd' Hn. subst d networks.
    eexists. eexists. split; [reflexivity|]. split; reflexivity.
Defined.

Lemma setup_single_network_saved (answers unread : list string) (config : json) :
  WifiAutoLogin.setup_single_network answers = WifiAutoLogin.Saved config unread ->
  exists url username password product_type,
    answers = url :: username :: password :: product_type :: unread
    /\ config = JObj [("wifi_url", JStr url);
                      ("username", JStr username);
                      ("password", JStr password);
                      ("product_type",
                       JStr (WifiAutoLogin.str_or product_type "0"));
                      ("dashboard", WifiAutoLogin.dashboard_block)].
Proof.
  unfold WifiAutoLogin.setup_single_network.
  destruct answers as [|url [|username [|password [|product_type rest]]]];
    try discriminate.
  intros [= <- <-]. exists url, username, password, product_type. auto.
Qed.

(** What is typed into [setup_single_network] is what [wifi_login] uses,
    character for character (these answers are not stripped); an empty
    product type becomes 0, the network name is legacy and its SSID
    Unknown, whatever name is asked for. *)
Theorem single_wizard_round_trip :
  forall (answers unread : list string) (config : json) (w : world)
         (network_name : option string),
    WifiAutoLogin.setup_single_network answers
    = WifiAutoLogin.Saved config unread ->
    holds_config w config ->
    exists url username password product_type,
      answers = url :: username :: password :: product_type :: unread
      /\ WifiAutoLogin.login_settings_of w true network_name
         = Ok {| WifiAutoLogin.URL := JStr url;
                 WifiAutoLogin.USERNAME := JStr username;
                 WifiAutoLogin.PASSWORD := JStr password;
                 WifiAutoLogin.PRODUCT_TYPE :=
                   JStr (if str_truthy product_type then product_type else "0");
                 WifiAutoLogin.network_profile_name := "legacy";
                 WifiAutoLogin.network_ssid := JStr "Unknown" |}.
Proof.
  intros answers unread config w network_name Hsaved Hcfg.
  destruct (setup_single_network_saved _ _ _ Hsaved)
    as (url & username & password & product_type & -> & ->).
  exists url, username, password, product_type. split; [reflexivity|].
  unfold WifiAutoLogin.login_settings_of.
  rewrite (legacy_branch _ w _ (holds_config_manager w _ Hcfg) eq_refl).
  reflexivity.
Qed.

Lemma single_wizard_round_trip_witness :
  let answers := ["http://192.168.1.1/login "; "alice"; " secret"; EmptyString] in
  let config :=
    JObj [("wifi_url", JStr "http://192.168.1.1/login ");
          ("username", JStr "alice"); ("password", JStr " secret");
          ("product_type", JStr "0");
          ("dashboard", WifiAutoLogin.dashboard_block)] in
  let w := Sample.host "Linux" [] (Some config) in
  WifiAutoLogin.login_settings_of w true None
  = Ok {| WifiAutoLogin.URL := JStr "http://192.168.1.1/login ";
          WifiAutoLogin.USERNAME := JStr "alice";
          WifiAutoLogin.PASSWORD := JStr " secret";
          WifiAutoLogin.PRODUCT_TYPE := JStr "0";
          WifiAutoLogin.network_profile_name := "legacy";
          WifiAutoLogin.network_ssid := JStr "Unknown" |}.
Proof.
  intros answers config w.
  destruct (single_wizard_round_trip answers [] config w None eq_refl)
    as (url & username & password & product_type & Hans & Hsettings).
  - split; reflexivity.
  - injection Hans as <- <- <- <-. exact Hsettings.
Defined.

(** Whatever is answered to the wizard, a configuration it saves lets
    [wifi_login] reach the portal: on a host that holds it, the settings
    are found without a configuration error, whatever the detector
    says. *)
Theorem wizard_configuration_reaches_the_portal :
  forall (title : string -> string) (answers unread : list string)
         (config : json) (w : world),
    WifiAutoLogin.run_setup_wizard title answers
    = WifiAutoLogin.Saved config unread ->
    holds_config w config ->
    (exists settings,
        WifiAutoLogin.login_settings_of w true None = Ok settings)
    /\ forall a_value now post,
        exists url payload row,
          WifiAutoLogin.wifi_login w true a_value now post None
          = WifiAutoLogin.Attempted url payload row.
Proof.
  intros title answers unread config w Hrun Hcfg.
  assert (Hsettings : exists settings,
             WifiAutoLogin.login_settings_of w true None = Ok settings).
  { assert (Hsingle : forall more,
               WifiAutoLogin.setup_single_network more
               = WifiAutoLogin.Saved config unread ->
               exists settings,
                 WifiAutoLogin.login_settings_of w true None = Ok settings).
    { intros more Hsaved.
      destruct (setup_single_network_saved _ _ _ Hsaved)
        as (url & username & password & product_type & -> & ->).
      unfold WifiAutoLogin.login_settings_of.
      rewrite (legacy_branch _ w _ (holds_config_manager w _ Hcfg) eq_refl).
      eexists. reflexivity. }
    unfold WifiAutoLogin.run_setup_wizard in Hrun.
    destruct answers as [|a_choice rest]; [discriminate|].
    destruct (String.eqb (strip a_choice) "2"); [|exact (Hsingle _ Hrun)].
    destruct (setup_multi_network_cases _ _ _ _ Hrun)
      as [[more Hsaved]|(d & networks & -> & Hmulti & Hd & Hnd & Hall)];
      [exact (Hsingle _ Hsaved)|].
    destruct Hmulti as (cfg & Hcfg_eq & Hnets & Hne & Hrec).
    injection Hcfg_eq as <-.
    destruct (unnamed_resolution_succeeds _ w _ networks None true
                (holds_config_manager w _ Hcfg) Hnets Hne Hrec)
      as (name & profile & Hres & Hin); [|reflexivity|].
    { intros v [= <-]. reflexivity. }
    unfold WifiAutoLogin.login_settings_of. rewrite Hres. cbn [bind snd fst].
    apply complete_profile_settings.
    rewrite forallb_forall in Hall. exact (Hall _ Hin). }
  split; [exact Hsettings|].
  intros a_value now post. destruct Hsettings as [settings Hs].
  unfold WifiAutoLogin.wifi_login. rewrite Hs.
  destruct (post _ _); eauto.
Qed.

Lemma wizard_configuration_reaches_the_portal_witness :
  let answers :=
    ["2"; "home"; "Home-5G"; "http://10.0.0.1/login"; "alice"; "secret";
     EmptyString; EmptyString; "no"] in
  let config :=
    WifiAutoLogin.multi_config (Some "home")
      [("home",
        JObj [("ssid", JStr "Home-5G"); ("wifi_url", JStr "http://10.0.0.1/login");
              ("username", JStr "alice"); ("password", JStr "secret");
              ("product_type", JStr "0");
              ("description", JStr "Home network")])] in
  let w := Sample.linux_on "CafeWifi" config in
  exists settings, WifiAutoLogin.login_settings_of w true None = Ok settings.
Proof.
  intros answers config w.
  apply (wizard_configuration_reaches_the_portal
           (fun _ => "Home") answers [] config w).
  - reflexivity.
  - split; reflexivity.
Defined.

(** * dashboard.py *)

(** ** [authenticate] *)

(** The credentials [authenticate] receives come from FastAPI's
    [HTTPBasic], which decodes the header as ASCII and answers 401 itself
    when that fails: the user name and the password are ASCII strings.
    For such a pair, [authenticate] lets the request in exactly when the
    two are the user name and the password of the dashboard configuration,
    and then returns the user name.  Against a configured ASCII pair a
    wrong pair is answered with status 401.  A configured user name or
    password with a character outside ASCII is not answered so:
    [compare_digest] raises a [TypeError] that nothing catches, whatever
    the request carries. *)
Theorem authenticate_accepts_only_the_configured_pair :
  forall (DASHBOARD_CONFIG : json) (username password : string),
    Dashboard.is_ascii username = true ->
    Dashboard.is_ascii password = true ->
    (forall returned,
        Dashboard.authenticate DASHBOARD_CONFIG username password
        = Dashboard.Return returned
        <-> returned = username
            /\ py_getitem DASHBOARD_CONFIG "username" = Ok (JStr username)
            /\ py_getitem DASHBOARD_CONFIG "password" = Ok (JStr password))
    /\ (forall expected_username expected_password,
           py_getitem DASHBOARD_CONFIG "username" = Ok (JStr expected_username) ->
           py_getitem DASHBOARD_CONFIG "password" = Ok (JStr expected_password) ->
           (Dashboard.is_ascii expected_username = true ->
            Dashboard.is_ascii expected_password = true ->
            username <> expected_username \/ password <> expected_password ->
            Dashboard.authenticate DASHBOARD_CONFIG username password
            = Dashboard.HTTPException 401 "Invalid credentials")
           /\ (Dashboard.is_ascii expected_username = false
               \/ Dashboard.is_ascii expected_password = false ->
               Dashboard.authenticate DASHBOARD_CONFIG username password
               = Dashboard.Uncaught TypeError)).
Proof.
  intros cfg u p Hu Hp. unfold Dashboard.authenticate. split.
  - intros returned.
    destruct (py_getitem cfg "username") as [eu|e1]; cbn [bind].
    2:{ split; [discriminate | intros (_ & H & _); discriminate]. }
    destruct (py_getitem cfg "password") as [ep|e2].
    2:{ split; [|intros (_ & _ & H); discriminate].
        destruct (Dashboard.compare_digest u eu); cbn [bind]; discriminate. }
    destruct eu as [| | | |eu| |]; cbn [Dashboard.compare_digest bind];
      try (split; [discriminate | intros (_ & H & _); discriminate]).
    rewrite Hu. cbn [andb].
    destruct (Dashboard.is_ascii eu) eqn:Heu; cbn [bind].
    2:{ split; [discriminate|]. intros (_ & [= ->] & _). congruence. }
    destruct ep as [| | | |ep| |]; cbn [Dashboard.compare_digest bind];
      try (split; [discriminate | intros (_ & _ & H); discriminate]).
    rewrite Hp. cbn [andb].
    destruct (Dashboard.is_ascii ep) eqn:Hep; cbn [bind].
    2:{ split; [discriminate|]. intros (_ & _ & [= ->]). congruence. }
    destruct (String.eqb u eu) eqn:Eu; destruct (String.eqb p ep) eqn:Ep;
      cbn [andb]; split; try discriminate.
    + intros [= <-]. apply String.eqb_eq in Eu, Ep. subst. auto.
    + intros (-> & _). reflexivity.
    + intros (_ & _ & [= ->]). rewrite String.eqb_refl in Ep. discriminate.
    + intros (_ & [= ->] & _). rewrite String.eqb_refl in Eu. discriminate.
    + intros (_ & [= ->] & _). rewrite String.eqb_refl in Eu. discriminate.
  - intros eu ep -> ->. cbn [bind Dashboard.compare_digest].
    rewrite Hu, Hp. cbn [andb]. split.
    + intros Heu Hep Hwrong. rewrite Heu, Hep. cbn [bind].
      destruct (String.eqb u eu) eqn:Eu; destruct (String.eqb p ep) eqn:Ep;
        try reflexivity.
      apply String.eqb_eq in Eu, Ep. destruct Hwrong; contradiction.
    + intros [Heu|Hep].
      * rewrite Heu. reflexivity.
      * destruct (Dashboard.is_ascii eu); cbn [bind]; rewrite ?Hep; reflexivity.
Qed.

Lemma authenticate_accepts_only_the_configured_pair_witness :
  Dashboard.authenticate (Dashboard.default_config "k") "admin" "admin123"
  = Dashboard.Return "admin"
  /\ Dashboard.authenticate (Dashboard.default_config "k") "admin" "letmein"
     = Dashboard.HTTPException 401 "Invalid credentials"
  /\ Dashboard.authenticate
       (JObj [("username", JStr "admin");
              ("password", JStr (String (ascii_of_nat 233) "t" ++ "e")%string)])
       "admin" "ete"
     = Dashboard.Uncaught TypeError.
Proof.
  split; [|split].
  - apply (proj1 (authenticate_accepts_only_the_configured_pair
                    (Dashboard.default_config "k") "admin" "admin123"
                    eq_refl eq_refl)).
    repeat split; reflexivity.
  - apply (proj2 (authenticate_accepts_only_the_configured_pair
                    (Dashboard.default_config "k") "admin" "letmein"
                    eq_refl eq_refl)
             "admin" "admin123"); try reflexivity.
    right. discriminate.
  - apply (proj2 (authenticate_accepts_only_the_configured_pair
                    (JObj [("username", JStr "admin");
                           ("password",
                            JStr (String (ascii_of_nat 233) "t" ++ "e")%string)])
                    "admin" "ete" eq_refl eq_refl)
             "admin" (String (ascii_of_nat 233) "t" ++ "e")%string);
      try reflexivity.
    right. reflexivity.
Defined.

(** ** [load_dashboard_config] *)

Lemma wizard_config_has_dashboard_block
      (title : string -> string) (answers unread : list string) (config : json) :
  WifiAutoLogin.run_setup_wizard title answers
  = WifiAutoLogin.Saved config unread ->
  exists cfg,
    config = JObj cfg
    /\ dict_lookup cfg "dashboard" = Some WifiAutoLogin.dashboard_block.
Proof.
  unfold WifiAutoLogin.run_setup_wizard.
  assert (Hsingle : forall more,
             WifiAutoLogin.setup_single_network more
             = WifiAutoLogin.Saved config unread ->
             exists cfg,
               config = JObj cfg
               /\ dict_lookup cfg "dashboard" = Some WifiAutoLogin.dashboard_block).
  { intros more Hsaved.
    destruct (setup_single_network_saved _ _ _ Hsaved)
      as (url & username & password & product_type & _ & ->).
    eexists. split; reflexivity. }
  destruct answers as [|a_choice rest]; [discriminate|].
  destruct (String.eqb (strip a_choice) "2"); [|apply Hsingle].
  intros Hrun.
  destruct (setup_multi_network_cases _ _ _ _ Hrun)
    as [[more Hsaved]|(d & networks & -> & _)]; [exact (Hsingle _ Hsaved)|].
  eexists. split; reflexivity.
Qed.

(** Unless [config.json] carries a dashboard block of its own, the
    dashboard is open to the pair admin / admin123 and to nothing else:
    this is so when the file is missing, when it is not valid JSON, when
    it is an object without a [dashboard] entry, and for every
    configuration the setup wizard saves. *)
Theorem dashboard_default_credentials :
  forall (w : world) (secret_key : string),
    (os_path_exists w "config.json" = false
     \/ (os_path_exists w "config.json" = true
         /\ open_json_load w "config.json" = Raise JSONDecodeError)
     \/ (exists cfg,
            holds_config w (JObj cfg) /\ dict_lookup cfg "dashboard" = None)
     \/ (exists title answers unread config,
            holds_config w config
            /\ WifiAutoLogin.run_setup_wizard title answers
               = WifiAutoLogin.Saved config unread)) ->
    exists DASHBOARD_CONFIG,
      Dashboard.load_dashboard_config w secret_key = Ok DASHBOARD_CONFIG
      /\ forall username password,
          Dashboard.authenticate DASHBOARD_CONFIG username password
          = Dashboard.Return username
          <-> username = "admin" /\ password = "admin123".
Proof.
  intros w secret_key Hcases.
  assert (Hauth : forall dc,
             py_getitem dc "username" = Ok (JStr "admin") ->
             py_getitem dc "password" = Ok (JStr "admin123") ->
             forall username password,
               Dashboard.authenticate dc username password
               = Dashboard.Return username
               <-> username = "admin" /\ password = "admin123").
  { intros dc Hu Hp username password. unfold Dashboard.authenticate.
    rewrite Hu, Hp. cbn [bind Dashboard.compare_digest]. split.
    - destruct (Dashboard.is_ascii username && Dashboard.is_ascii "admin");
        cbn [bind]; [|discriminate].
      destruct (Dashboard.is_ascii password && Dashboard.is_ascii "admin123");
        cbn [bind]; [|discriminate].
      destruct (String.eqb username "admin") eqn:Eu;
        destruct (String.eqb password "admin123") eqn:Ep;
        cbn [andb]; try discriminate.
      intros _. apply String.eqb_eq in Eu, Ep. auto.
    - intros [-> ->]. reflexivity. }
  unfold Dashboard.load_dashboard_config, Dashboard.CONFIG_PATH.
  destruct Hcases as [Hmissing|[[Hex Hbad]|[(cfg & [Hex Hload] & Hnone)
                     |(title & answers & unread & config & [Hex Hload] & Hrun)]]].
  - rewrite Hmissing. eexists. split; [reflexivity|]. apply Hauth; reflexivity.
  - rewrite Hex, Hbad. eexists. split; [reflexivity|]. apply Hauth; reflexivity.
  - rewrite Hex, Hload. cbn [negb bind py_get]. rewrite Hnone.
    eexists. split; [reflexivity|]. apply Hauth; reflexivity.
  - destruct (wizard_config_has_dashboard_block _ _ _ _ Hrun)
      as (cfg & -> & Hblock).
    rewrite Hex, Hload. cbn [negb bind py_get]. rewrite Hblock.
    eexists. split; [reflexivity|]. apply Hauth; reflexivity.
Qed.

Lemma dashboard_default_credentials_witness :
  exists DASHBOARD_CONFIG,
    Dashboard.load_dashboard_config (Sample.host "Linux" [] None) "k"
    = Ok DASHBOARD_CONFIG
    /\ Dashboard.authenticate DASHBOARD_CONFIG "admin" "admin123"
       = Dashboard.Return "admin".
Proof.
  destruct (dashboard_default_credentials (Sample.host "Linux" [] None) "k")
    as (dc & Hload & Hauth).
  - left. reflexivity.
  - exists dc. split; [exact Hload|]. apply Hauth. split; reflexivity.
Defined.

(** ** The query of [get_login_attempts] *)

(** The query of [get_login_attempts] has exactly one placeholder for each
    bound parameter, the row limit being the last one; and the values of
    the filters are bound, never written into the query: its text depends
    only on which filters are set and on whether the status asked for is
    success, failed or something else. *)
Theorem attempts_query_binds_every_value :
  forall (filters : Dashboard.FilterParams) (network_filter : option string)
         (has_network_columns : bool),
    count_char "?" (fst (Dashboard.attempts_query filters network_filter
                           has_network_columns))
    = List.length (snd (Dashboard.attempts_query filters network_filter
                          has_network_columns))
    /\ last (snd (Dashboard.attempts_query filters network_filter
                    has_network_columns)) (Dashboard.PInt 0)
       = Dashboard.PInt (Dashboard.limit filters)
    /\ forall filters' network_filter',
        filter_shape filters network_filter
        = filter_shape filters' network_filter' ->
        fst (Dashboard.attempts_query filters network_filter has_network_columns)
        = fst (Dashboard.attempts_query filters' network_filter'
                 has_network_columns).
Proof.
  intros filters network_filter h.
  pose (Q := fun shape : bool * bool * option bool * bool =>
               let '(s, e, st, n) := shape in
               (((((if h then Dashboard.select_with_networks
                    else Dashboard.select_legacy)
                   ++ (if s then " AND timestamp >= ?" else EmptyString))
                  ++ (if e then " AND timestamp <= ?" else EmptyString))
                 ++ match st with
                    | Some true => " AND response_status = '200'"
                    | Some false => " AND response_status != '200'"
                    | None => EmptyString
                    end)
                ++ (if n && h then " AND network_name = ?" else EmptyString))
               ++ " ORDER BY timestamp DESC LIMIT ?").
  assert (HQ : forall f nf,
             fst (Dashboard.attempts_query f nf h) = Q (filter_shape f nf)).
  { intros [sd ed st fn lim] nf.
    unfold Dashboard.attempts_query, filter_shape, Q.
    cbn [Dashboard.start_date Dashboard.end_date Dashboard.status_filter
         Dashboard.limit].
    destruct sd as [[|? ?]|], ed as [[|? ?]|], nf as [[|? ?]|], h;
      cbn [opt_truthy str_truthy andb fst];
      (destruct st as [[|c st]|];
       [reflexivity
       |destruct (String.eqb (String c st) "success");
        [reflexivity | destruct (String.eqb (String c st) "failed"); reflexivity]
       |reflexivity]). }
  split; [|split].
  - destruct filters as [sd ed st fn lim].
    unfold Dashboard.attempts_query.
    cbn [Dashboard.start_date Dashboard.end_date Dashboard.status_filter
         Dashboard.limit].
    destruct sd as [[|? ?]|], ed as [[|? ?]|], network_filter as [[|? ?]|], h;
      cbn [fst snd];
      (destruct st as [[|c st]|];
       [reflexivity
       |destruct (String.eqb (String c st) "success");
        [reflexivity | destruct (String.eqb (String c st) "failed"); reflexivity]
       |reflexivity]).
  - destruct filters as [sd ed st fn lim].
    unfold Dashboard.attempts_query.
    cbn [Dashboard.start_date Dashboard.end_date Dashboard.status_filter
         Dashboard.limit].
    destruct sd as [[|? ?]|], ed as [[|? ?]|], network_filter as [[|? ?]|], h;
      reflexivity.
  - intros filters' network_filter' Hshape. rewrite !HQ, Hshape. reflexivity.
Qed.

Lemma attempts_query_binds_every_value_witness :
  let mine :=
    {| Dashboard.start_date := Some "2024-01-01";
       Dashboard.end_date := None;
       Dashboard.status_filter := Some "failed";
       Dashboard.filter_network := None;
       Dashboard.limit := 50 |} in
  let hostile :=
    {| Dashboard.start_date := Some "' OR 1=1 --";
       Dashboard.end_date := None;
       Dashboard.status_filter := Some "failed";
       Dashboard.filter_network := None;
       Dashboard.limit := 1 |} in
  fst (Dashboard.attempts_query mine (Some "home") true)
  = fst (Dashboard.attempts_query hostile (Some "x'; DROP TABLE login_attempts; --")
           true).
Proof.
  intros mine hostile.
  apply (proj2 (proj2 (attempts_query_binds_every_value mine (Some "home") true))).
  reflexivity.
Defined.

(** * Detection on macOS *)

Section SplitOnText.

Variable sep : string.
Hypothesis sep_not_empty : str_truthy sep = true.

Lemma split_skip (u v piece : string) :
  split_from sep (String.length u) piece (u ++ v) = split_from sep 0 piece v.
Proof. induction u as [|c u IH]; [reflexivity | exact IH]. Qed.

Lemma split_without_sep (v piece : string) :
  str_in sep v = false -> split_from sep 0 piece v = [piece ++ v].
Proof.
  revert piece. induction v as [|c v IH]; intros piece H.
  - cbn [split_from]. now rewrite str_app_nil_r.
  - rewrite str_in_cons in H. apply orb_false_iff in H as [Hs Hv].
    cbn [split_from]. rewrite Hs, (IH _ Hv), str_app_assoc. reflexivity.
Qed.

Lemma split_single_occurrence (pre v piece : string) :
  first_occurrence_after pre sep ->
  str_in sep v = false ->
  split_from sep 0 piece (pre ++ sep ++ v) = [piece ++ pre; v].
Proof.
  intros Hfirst Hv. revert piece Hfirst.
  induction pre as [|c pre IH]; intros piece Hfirst.
  - rewrite str_app_nil_r. cbn [append].
    destruct sep as [|a sep'] eqn:Hsep; [discriminate|].
    change (String a sep' ++ v) with (String a (sep' ++ v)).
    cbn [split_from].
    change (String a (sep' ++ v)) with (String a sep' ++ v).
    rewrite startswith_app.
    replace (String.length (String a sep') - 1) with (String.length sep')
      by (cbn [String.length]; lia).
    rewrite <- Hsep in *.
    rewrite split_skip, (split_without_sep v EmptyString Hv).
    reflexivity.
  - change (String c pre ++ sep ++ v) with (String c (pre ++ sep ++ v)).
    cbn [split_from].
    change (String c (pre ++ sep ++ v)) with (String c pre ++ sep ++ v).
    rewrite (no_early_start sep c pre v sep_not_empty Hfirst).
    change (String c pre ++ sep ++ v) with (String c (pre ++ sep ++ v)).
    rewrite (IH _ (first_occurrence_tail sep c pre Hfirst)), str_app_assoc.
    reflexivity.
Qed.

End SplitOnText.

Lemma airport_scan_first (before : list string) (pre v : string)
      (after : list string) :
  Forall (fun l => str_in "SSID:" l = false) before ->
  first_occurrence_after pre "SSID:" ->
  str_in "SSID:" v = false ->
  NetworkDetector.airport_scan (before ++ (pre ++ "SSID:" ++ v)%string :: after)%list
  = Some (strip v).
Proof.
  intros Hbefore Hfirst Hv. induction Hbefore as [|l before Hl _ IH].
  - cbn [app NetworkDetector.airport_scan]. rewrite str_in_middle.
    unfold split. rewrite (split_single_occurrence "SSID:" eq_refl pre v _ Hfirst Hv).
    reflexivity.
  - cbn [app NetworkDetector.airport_scan]. rewrite Hl. exact IH.
Qed.

(** [_get_ssid_macos]: when [networksetup] names a network after its
    marker, that name, stripped, is the answer and [airport] is not run;
    when [networksetup] raises, [airport] is not run either and the answer
    is [None]; when its output has no marker, [airport -I] decides, by the
    first line that contains SSID: - whatever stands before it on that
    line, so that a BSSID line listed first supplies the answer. *)
Theorem macos_detection_paths :
  forall w : world,
    (forall pre v,
        subprocess_run w ["networksetup"; "-getairportnetwork"; "en0"]
        = Ok (pre ++ airport_network_marker ++ v) ->
        first_occurrence_after pre airport_network_marker ->
        str_in airport_network_marker v = false ->
        str_truthy (strip v) = true ->
        strip v <> not_associated ->
        NetworkDetector._get_ssid_macos w = Ok (Some (strip v)))
    /\ (forall e,
           subprocess_run w ["networksetup"; "-getairportnetwork"; "en0"]
           = Raise e ->
           NetworkDetector._get_ssid_macos w = Ok None)
    /\ (forall stdout before pre v after,
           subprocess_run w ["networksetup"; "-getairportnetwork"; "en0"]
           = Ok stdout ->
           str_in airport_network_marker stdout = false ->
           subprocess_run w [NetworkDetector.airport_path; "-I"]
           = Ok (String.concat (chr newline)
                   (before ++ (pre ++ "SSID:" ++ v)%string :: after)%list) ->
           Forall (fun l => str_in (chr newline) l = false)
                  (before ++ (pre ++ "SSID:" ++ v)%string :: after)%list ->
           Forall (fun l => str_in "SSID:" l = false) before ->
           first_occurrence_after pre "SSID:" ->
           str_in "SSID:" v = false ->
           NetworkDetector._get_ssid_macos w = Ok (Some (strip v))).
Proof.
  intros w. unfold NetworkDetector._get_ssid_macos. split; [|split].
  - intros pre v Hrun Hfirst Hv Hne Hassoc. rewrite Hrun. cbn [bind].
    fold airport_network_marker. rewrite str_in_middle. unfold split.
    rewrite (split_single_occurrence airport_network_marker eq_refl
               pre v _ Hfirst Hv).
    cbn [last_piece last]. rewrite Hne.
    fold not_associated.
    destruct (String.eqb (strip v) not_associated) eqn:E; [|reflexivity].
    apply String.eqb_eq in E. contradiction.
  - intros e Hrun. rewrite Hrun. reflexivity.
  - intros stdout before pre v after Hrun Hmark Hairport Hlines Hbefore Hfirst Hv.
    rewrite Hrun. cbn [bind]. fold airport_network_marker. rewrite Hmark.
    unfold NetworkDetector.macos_airport. rewrite Hairport. cbn [bind try_except].
    unfold split.
    destruct (before ++ (pre ++ "SSID:" ++ v)%string :: after)%list
      as [|x ls] eqn:E.
    + destruct before; discriminate.
    + rewrite (split_lines_concat x ls EmptyString Hlines).
      cbn [append]. rewrite <- E.
      rewrite (airport_scan_first before pre v after Hbefore Hfirst Hv).
      reflexivity.
Qed.

Lemma macos_detection_paths_witness :
  let airport :=
    String.concat (chr newline)
      ["     agrCtlRSSI: -52"; "          BSSID: 88:1f:a1:2b:3c:4d";
       "           SSID: Home-5G"] in
  let w := Sample.host "Darwin"
             [("networksetup -getairportnetwork en0",
               Ok "You are not associated with an AirPort network.");
              ("/System/Library/PrivateFrameworks/Apple80211.framework/Versions/Current/Resources/airport -I",
               Ok airport)]
             None in
  NetworkDetector._get_ssid_macos w = Ok (Some "88:1f:a1:2b:3c:4d").
Proof.
  intros airport w.
  apply (proj2 (proj2 (macos_detection_paths w))
           "You are not associated with an AirPort network."
           ["     agrCtlRSSI: -52"] "          B" " 88:1f:a1:2b:3c:4d"
           ["           SSID: Home-5G"]);
    try reflexivity; repeat constructor.
Defined.

(** * The table of login attempts *)

Lemma has_column_app (columns more : list string) (name : string) :
  WifiAutoLogin.has_column (columns ++ more)%list name
  = WifiAutoLogin.has_column columns name || WifiAutoLogin.has_column more name.
Proof. unfold WifiAutoLogin.has_column. apply existsb_app. Qed.

Lemma table_info_app (t u : Sqlite.table) :
  Sqlite.table_info (t ++ u)%list
  = (Sqlite.table_info t ++ Sqlite.table_info u)%list.
Proof. unfold Sqlite.table_info. rewrite filter_app, map_app. reflexivity. Qed.

Lemma names_column_app (t u : Sqlite.table) (name : string) :
  Sqlite.names_column (t ++ u)%list name
  = Sqlite.names_column t name || Sqlite.names_column u name.
Proof. unfold Sqlite.names_column. apply existsb_app. Qed.

Lemma listed_table_exists (t : Sqlite.table) :
  Sqlite.table_info t <> [] -> t <> [].
Proof. intros H ->. apply H. reflexivity. Qed.

(** With room for one more column, [ADD COLUMN] fails on a name the
    table has already and on nothing else. *)
Lemma add_column_room (t : Sqlite.table) (name : string) :
  t <> [] ->
  (List.length t < Sqlite.SQLITE_MAX_COLUMN)%nat ->
  Sqlite.add_column t name
  = if Sqlite.names_column t name
    then Sqlite.OperationalError ("duplicate column name: " ++ name)%string
    else Sqlite.Executed (t ++ [Sqlite.plain name])%list.
Proof.
  intros Ht Hroom. unfold Sqlite.add_column.
  destruct t as [|c t]; [congruence|].
  apply Nat.leb_gt in Hroom. rewrite Hroom. reflexivity.
Qed.

Lemma add_column_executed (t t' : Sqlite.table) (name : string) :
  Sqlite.add_column t name = Sqlite.Executed t' ->
  t' = (t ++ [Sqlite.plain name])%list.
Proof.
  unfold Sqlite.add_column. destruct t as [|c t]; [discriminate|].
  destruct (Sqlite.SQLITE_MAX_COLUMN <=? _)%nat; [discriminate|].
  destruct (Sqlite.names_column _ _); [discriminate|].
  intros [= <-]. reflexivity.
Qed.

(** A table that lists both network columns is left as it is. *)
Lemma migrated_is_settled (t : Sqlite.table) :
  Dashboard.has_network_columns (Sqlite.table_info t) = true ->
  WifiAutoLogin.setup_database t = Sqlite.Returns tt t.
Proof.
  unfold Dashboard.has_network_columns, WifiAutoLogin.setup_database.
  intros H. apply andb_true_iff in H as [Hn Hs].
  destruct (Sqlite.table_info t) as [|c cs]; [discriminate|].
  rewrite Hn, Hs. reflexivity.
Qed.

(** When the migration returns, both network columns are listed and
    nothing but new columns at the end has changed. *)
Lemma setup_database_returns (t t' : Sqlite.table) :
  WifiAutoLogin.setup_database t = Sqlite.Returns tt t' ->
  Dashboard.has_network_columns (Sqlite.table_info t') = true
  /\ exists added,
      t' = (t ++ map Sqlite.plain added)%list
      /\ (t <> [] -> incl added ["network_name"; "network_ssid"]).
Proof.
  unfold WifiAutoLogin.setup_database, Dashboard.has_network_columns.
  destruct (Sqlite.table_info t) as [|c cs] eqn:E.
  - destruct t as [|x xs]; cbn [Sqlite.create_table]; [|discriminate].
    intros [= <-]. split; [reflexivity|].
    exists WifiAutoLogin.new_table. split; [reflexivity | congruence].
  - destruct (WifiAutoLogin.has_column (c :: cs) "network_name") eqn:Hn;
      destruct (WifiAutoLogin.has_column (c :: cs) "network_ssid") eqn:Hs;
      cbn [negb].
    + intros [= <-]. rewrite E, Hn, Hs. split; [reflexivity|].
      exists []. split; [now rewrite app_nil_r | intros _ x []].
    + destruct (Sqlite.add_column t "network_ssid") as [t1|] eqn:A;
        [|discriminate].
      intros [= <-]. apply add_column_executed in A. subst t1.
      rewrite table_info_app, E, !has_column_app, Hn. split.
      * rewrite orb_true_r. reflexivity.
      * exists ["network_ssid"]. split; [reflexivity|].
        intros _ x [<-|[]]. simpl; auto.
    + destruct (Sqlite.add_column t "network_name") as [t1|] eqn:A;
        [|discriminate].
      apply add_column_executed in A. subst t1.
      intros [= <-].
      rewrite table_info_app, E, !has_column_app, Hs. split.
      * rewrite orb_true_r. reflexivity.
      * exists ["network_name"]. split; [reflexivity|].
        intros _ x [<-|[]]. simpl; auto.
    + destruct (Sqlite.add_column t "network_name") as [t1|] eqn:A;
        [|discriminate].
      apply add_column_executed in A. subst t1.
      destruct (Sqlite.add_column (t ++ [Sqlite.plain "network_name"])%list
                                  "network_ssid") as [t2|] eqn:A2;
        [|discriminate].
      apply add_column_executed in A2. subst t2.
      intros [= <-].
      rewrite !table_info_app, E, !has_column_app. split.
      * rewrite !orb_true_r. reflexivity.
      * exists ["network_name"; "network_ssid"].
        split; [now rewrite <- app_assoc | intros _ x Hx; exact Hx].
Qed.

(** A migration that has failed fails again, with the same message, on
    the table it left. *)
Lemma setup_database_raises_again (t t' : Sqlite.table) (message : string) :
  WifiAutoLogin.setup_database t = Sqlite.Raises message t' ->
  WifiAutoLogin.setup_database t' = Sqlite.Raises message t'.
Proof.
  intros H.
  assert (Hsame : t = t' ->
                  WifiAutoLogin.setup_database t' = Sqlite.Raises message t')
    by (intros <-; exact H).
  revert H. unfold WifiAutoLogin.setup_database at 1.
  destruct (Sqlite.table_info t) as [|c cs] eqn:E.
  - destruct t as [|x xs]; cbn [Sqlite.create_table]; [discriminate|].
    intros [= _ Ht]. auto.
  - destruct (WifiAutoLogin.has_column (c :: cs) "network_name") eqn:Hn;
      cbn [negb].
    + destruct (WifiAutoLogin.has_column (c :: cs) "network_ssid") eqn:Hs;
        cbn [negb]; [discriminate|].
      destruct (Sqlite.add_column t "network_ssid"); [discriminate|].
      intros [= _ Ht]. auto.
    + destruct (Sqlite.add_column t "network_name") as [t1|] eqn:A.
      2:{ intros [= _ Ht]. auto. }
      apply add_column_executed in A. subst t1.
      destruct (WifiAutoLogin.has_column (c :: cs) "network_ssid") eqn:Hs;
        cbn [negb]; [discriminate|].
      destruct (Sqlite.add_column (t ++ [Sqlite.plain "network_name"])%list
                                  "network_ssid") as [t2|] eqn:A2;
        [discriminate|].
      intros [= <- <-]. unfold WifiAutoLogin.setup_database.
      assert (Hn' : WifiAutoLogin.has_column
                      (Sqlite.table_info (t ++ [Sqlite.plain "network_name"])%list)
                      "network_name" = true).
      { rewrite table_info_app, has_column_app. apply orb_true_r. }
      assert (Hs' : WifiAutoLogin.has_column
                      (Sqlite.table_info (t ++ [Sqlite.plain "network_name"])%list)
                      "network_ssid" = false).
      { rewrite table_info_app, E, has_column_app, Hs. reflexivity. }
      destruct (Sqlite.table_info (t ++ [Sqlite.plain "network_name"])%list)
        as [|c' cs']; [discriminate|].
      rewrite Hn', Hs'. cbn [negb]. rewrite A2. reflexivity.
Qed.

(** With room for two more columns, the migration of a table fails
    exactly when SQLite has a network column that the program does not
    see. *)
Lemma setup_database_raises_iff (t : Sqlite.table) :
  Sqlite.table_info t <> [] ->
  (List.length t + 2 <= Sqlite.SQLITE_MAX_COLUMN)%nat ->
  (exists message t',
      WifiAutoLogin.setup_database t = Sqlite.Raises message t')
  <-> unseen_column t "network_name" = true
      \/ unseen_column t "network_ssid" = true.
Proof.
  intros Hlisted Hroom.
  pose proof (listed_table_exists t Hlisted) as Ht.
  assert (Ht1 : (t ++ [Sqlite.plain "network_name"])%list <> [])
    by (destruct t; discriminate).
  assert (Hroom0 : (List.length t < Sqlite.SQLITE_MAX_COLUMN)%nat) by lia.
  assert (Hroom1 : (List.length (t ++ [Sqlite.plain "network_name"])%list
                    < Sqlite.SQLITE_MAX_COLUMN)%nat).
  { rewrite length_app. cbn [List.length]. lia. }
  assert (Hother : Sqlite.names_column (t ++ [Sqlite.plain "network_name"])%list
                                       "network_ssid"
                   = Sqlite.names_column t "network_ssid").
  { rewrite names_column_app.
    change (Sqlite.names_column [Sqlite.plain "network_name"] "network_ssid")
      with false.
    apply orb_false_r. }
  unfold WifiAutoLogin.setup_database, unseen_column.
  destruct (Sqlite.table_info t) as [|c cs]; [congruence|].
  destruct (WifiAutoLogin.has_column (c :: cs) "network_name") eqn:Hn;
    destruct (WifiAutoLogin.has_column (c :: cs) "network_ssid") eqn:Hs;
    cbn [negb andb].
  - split; [intros (m & t' & H); discriminate | intros [H|H]; discriminate].
  - rewrite (add_column_room t "network_ssid" Ht Hroom0).
    destruct (Sqlite.names_column t "network_ssid").
    + split; [auto | eauto].
    + split; [intros (m & t' & H); discriminate | intros [H|H]; discriminate].
  - rewrite (add_column_room t "network_name" Ht Hroom0).
    destruct (Sqlite.names_column t "network_name").
    + split; [auto | eauto].
    + split; [intros (m & t' & H); discriminate | intros [H|H]; discriminate].
  - rewrite (add_column_room t "network_name" Ht Hroom0).
    destruct (Sqlite.names_column t "network_name").
    + split; [auto | eauto].
    + rewrite (add_column_room _ "network_ssid" Ht1 Hroom1), Hother.
      destruct (Sqlite.names_column t "network_ssid").
      * split; [auto | eauto].
      * split; [intros (m & t' & H); discriminate
               | intros [H|H]; discriminate].
Qed.

(** The schema migration, run by [setup_database] and by
    [get_db_connection] alike.  When it returns, the table lists both
    network columns: it has been created, or has kept its columns and got
    the missing ones appended, and a second run changes nothing; the query
    of [get_login_attempts], which opens the connection first, then
    selects the network columns - its branch for a table without them is
    never taken.  It does not always return: a table that has one of the
    two columns in another letter case, or as a generated column, makes
    [ADD COLUMN] fail with an [OperationalError]; with room for two more
    columns this is the only way to fail.  The error passes through
    [get_login_attempts], and every later run fails in the same way. *)
Theorem migration_ensures_network_columns :
  forall t : Sqlite.table,
    Dashboard.get_db_connection t = WifiAutoLogin.setup_database t
    /\ (forall t',
           WifiAutoLogin.setup_database t = Sqlite.Returns tt t' ->
           Dashboard.has_network_columns (Sqlite.table_info t') = true
           /\ (exists added,
                  t' = (t ++ map Sqlite.plain added)%list
                  /\ (t <> [] -> incl added ["network_name"; "network_ssid"]))
           /\ WifiAutoLogin.setup_database t' = Sqlite.Returns tt t'
           /\ forall filters network_filter,
               Dashboard.get_login_attempts_query t filters network_filter
               = Sqlite.Returns
                   (Dashboard.attempts_query filters network_filter true) t')
    /\ (forall message t',
           WifiAutoLogin.setup_database t = Sqlite.Raises message t' ->
           WifiAutoLogin.setup_database t' = Sqlite.Raises message t'
           /\ forall filters network_filter,
               Dashboard.get_login_attempts_query t filters network_filter
               = Sqlite.Raises message t')
    /\ (Sqlite.table_info t <> [] ->
        (List.length t + 2 <= Sqlite.SQLITE_MAX_COLUMN)%nat ->
        ((exists message t',
             WifiAutoLogin.setup_database t = Sqlite.Raises message t')
         <-> unseen_column t "network_name" = true
             \/ unseen_column t "network_ssid" = true)).
Proof.
  intros t. split; [reflexivity|]. split; [|split].
  - intros t' Hret.
    destruct (setup_database_returns t t' Hret) as [Hhas Hadded].
    split; [exact Hhas|]. split; [exact Hadded|].
    split; [exact (migrated_is_settled t' Hhas)|].
    intros filters network_filter.
    unfold Dashboard.get_login_attempts_query.
    change (Dashboard.get_db_connection t)
      with (WifiAutoLogin.setup_database t).
    rewrite Hret. cbv zeta. rewrite Hhas. reflexivity.
  - intros message t' Hraise.
    split; [exact (setup_database_raises_again t t' message Hraise)|].
    intros filters network_filter.
    unfold Dashboard.get_login_attempts_query.
    change (Dashboard.get_db_connection t)
      with (WifiAutoLogin.setup_database t).
    rewrite Hraise. reflexivity.
  - exact (setup_database_raises_iff t).
Qed.

Lemma migration_ensures_network_columns_witness :
  (exists message t',
      WifiAutoLogin.setup_database
        (single_network_table ++ [Sqlite.plain "Network_Name"])%list
      = Sqlite.Raises message t')
  /\ Dashboard.has_network_columns
       (Sqlite.table_info
          (single_network_table
           ++ map Sqlite.plain ["network_name"; "network_ssid"])%list)
     = true.
Proof.
  split.
  - apply (proj2 (proj2 (proj2
             (migration_ensures_network_columns
                (single_network_table ++ [Sqlite.plain "Network_Name"])%list)))).
    + discriminate.
    + vm_compute. repeat constructor.
    + left. reflexivity.
  - apply (proj1 (proj2
             (migration_ensures_network_columns single_network_table))).
    reflexivity.
Defined.

(** After the migration every column that the INSERT of [log_attempt]
    names is a column of the table, under that very name: so it is for a
    new database, where the migration creates the table, for a table of
    the single-network layout, which gets the two network columns
    appended, and whenever the migration returns on a table that lists the
    six other columns. *)
Theorem migrated_table_takes_the_logged_row :
  WifiAutoLogin.setup_database []
  = Sqlite.Returns tt (map Sqlite.plain WifiAutoLogin.new_table)
  /\ WifiAutoLogin.setup_database single_network_table
     = Sqlite.Returns tt
         (single_network_table
          ++ map Sqlite.plain ["network_name"; "network_ssid"])%list
  /\ forall t t' : Sqlite.table,
      t = []
      \/ incl ["timestamp"; "username"; "password"; "a"; "response_status";
               "response_message"] (Sqlite.table_info t) ->
      WifiAutoLogin.setup_database t = Sqlite.Returns tt t' ->
      forall name,
        In name WifiAutoLogin.inserted_columns ->
        WifiAutoLogin.has_column (Sqlite.table_info t') name = true.
Proof.
  split; [reflexivity|]. split; [reflexivity|].
  intros t t' Hcols Hret name Hname.
  destruct Hcols as [->|Hold].
  - change (WifiAutoLogin.setup_database [])
      with (Sqlite.Returns tt (map Sqlite.plain WifiAutoLogin.new_table))
      in Hret.
    injection Hret as <-. cbn in Hname.
    destruct Hname as [<-|[<-|[<-|[<-|[<-|[<-|[<-|[<-|[]]]]]]]]]; reflexivity.
  - destruct (setup_database_returns t t' Hret) as [Hhas (added & -> & _)].
    unfold Dashboard.has_network_columns in Hhas.
    apply andb_true_iff in Hhas as [Hn Hs].
    assert (Hkeep : forall x,
               In x (Sqlite.table_info t) ->
               WifiAutoLogin.has_column
                 (Sqlite.table_info (t ++ map Sqlite.plain added)%list) x = true).
    { intros x Hx. rewrite table_info_app, has_column_app.
      apply orb_true_iff. left. unfold WifiAutoLogin.has_column.
      apply existsb_exists. exists x. split; [exact Hx | apply String.eqb_refl]. }
    cbn in Hname.
    destruct Hname as [<-|[<-|[<-|[<-|[<-|[<-|[<-|[<-|[]]]]]]]]];
      try assumption; apply Hkeep, Hold; simpl; auto 10.
Qed.

Lemma migrated_table_takes_the_logged_row_witness :
  WifiAutoLogin.has_column
    (Sqlite.table_info
       (single_network_table
        ++ map Sqlite.plain ["network_name"; "network_ssid"])%list)
    "network_ssid" = true.
Proof.
  apply (proj2 (proj2 migrated_table_takes_the_logged_row)
           single_network_table).
  - right. intros x Hx. simpl in *. intuition.
  - reflexivity.
  - simpl. auto.
Defined.

(** * Dispatch on the platform *)

(** The module-level [get_current_ssid] chooses the strategy by the name
    of the platform whatever its letter case, and each strategy's answer
    is passed on unchanged; on any other platform the answer is [None]. *)
Theorem detection_dispatches_on_the_platform :
  forall w : world,
    (lower (platform_system w) = "windows" ->
     get_current_ssid w = NetworkDetector._get_ssid_windows w)
    /\ (lower (platform_system w) = "darwin" ->
        get_current_ssid w = NetworkDetector._get_ssid_macos w)
    /\ (lower (platform_system w) = "linux" ->
        get_current_ssid w = NetworkDetector._get_ssid_linux w)
    /\ (lower (platform_system w) <> "windows" ->
        lower (platform_system w) <> "darwin" ->
        lower (platform_system w) <> "linux" ->
        get_current_ssid w = Ok None).
Proof.
  intros w. unfold get_current_ssid, NetworkDetector.get_current_ssid.
  cbn [NetworkDetector.platform NetworkDetector.__init__].
  split; [|split; [|split]].
  - intros ->. cbn [String.eqb].
    unfold NetworkDetector._get_ssid_windows.
    destruct (try_except_ok
                (_ <- subprocess_run w ["netsh"; "wlan"; "show"; "profiles"];;
                 interfaces_stdout <-
                   subprocess_run w ["netsh"; "wlan"; "show"; "interfaces"];;
                 NetworkDetector.windows_scan
                   (split interfaces_stdout (chr newline))) None) as [r ->].
    reflexivity.
  - intros ->.
    change (String.eqb "darwin" "windows") with false.
    change (String.eqb "darwin" "darwin") with true. cbn iota.
    unfold NetworkDetector._get_ssid_macos.
    match goal with
    | |- try_except (try_except ?body ?h) _ = _ =>
        destruct (try_except_ok body None) as [r Hr];
        change (try_except body h) with (try_except body (fun _ => Ok None));
        rewrite Hr
    end.
    reflexivity.
  - intros ->. reflexivity.
  - intros Hw Hd Hl.
    apply String.eqb_neq in Hw, Hd, Hl. rewrite Hw, Hd, Hl. reflexivity.
Qed.

Lemma detection_dispatches_on_the_platform_witness :
  get_current_ssid (Sample.host "LINUX" [("iwgetid -r", Ok "Home-5G")] None)
  = Ok (Some "Home-5G")
  /\ get_current_ssid (Sample.host "FreeBSD" [("iwgetid -r", Ok "Home-5G")] None)
     = Ok None.
Proof.
  split.
  - rewrite (proj1 (proj2 (proj2 (detection_dispatches_on_the_platform
                                     (Sample.host "LINUX"
                                        [("iwgetid -r", Ok "Home-5G")] None))))
               eq_refl).
    reflexivity.
  - apply (proj2 (proj2 (proj2 (detection_dispatches_on_the_platform
                                  (Sample.host "FreeBSD"
                                     [("iwgetid -r", Ok "Home-5G")] None)))));
      discriminate.
Defined.
